(** * Replication of shared documents and files to the recipients

    A shallow embedding of [pkg/workers/sharings/share_data.go] and the
    properties of its decision logic: the reference filter, the
    missing-reference delta, the placement of a replicated object, and the
    per-recipient dispatch of the public operations.

    The functions keep their names.  A function that sends a request, opens
    or closes the content, logs, or changes the options is a computation
    over a state made of the options and of the events so far; it returns or
    panics.  The recipients, the file system and the document store answer
    as functions of those events.  [SendData], which reads the job and calls
    [SendDir], [SendFile] or [SendDoc], is left out. *)

From Stdlib Require Import String Ascii List ZArith Bool Lia.
From stdpp Require Import base option list gmap strings fin_maps.

Import ListNotations.
Local Open Scope string_scope.
Local Open Scope list_scope.

(** ** Go slices

    A slice is [nil] or a backing sequence; [append] never gives [nil] back,
    [len] and [range] read a [nil] slice as an empty one. *)

Definition slice (A : Type) : Type := option (list A).

Definition elems {A} (s : slice A) : list A :=
  match s with
  | Some l => l
  | None => []
  end.

Definition len {A} (s : slice A) : nat := length (elems s).

Definition append {A} (s : slice A) (x : A) : slice A := Some (elems s ++ [x]).

Definition is_nil {A} (s : slice A) : bool :=
  match s with
  | None => true
  | Some _ => false
  end.

(** ** Strings *)

(** [strings.Split s sep] for a separator that is not empty: the pieces of
    [s] around each occurrence of [sep], found left to right without overlap.
    [skip] counts the bytes of a separator still to be passed over.  (With an
    empty separator Go cuts after every character; the callers here always
    split on [RefSep].) *)
Fixpoint split_from (sep : string) (skip : nat) (cur : string) (s : string)
  : list string :=
  match s with
  | EmptyString => [cur]
  | String c s' =>
      match skip with
      | S k => split_from sep k cur s'
      | O =>
          if String.prefix sep s
          then cur :: split_from sep (String.length sep - 1) EmptyString s'
          else split_from sep 0 (String.append cur (String c EmptyString)) s'
      end
  end.

Definition Split (s sep : string) : list string :=
  match sep with
  | EmptyString => map (fun c => String c EmptyString) (list_ascii_of_string s)
  | _ => split_from sep 0 EmptyString s
  end.

(** [strings.Join]. *)
Fixpoint Join (l : list string) (sep : string) : string :=
  match l with
  | [] => EmptyString
  | [x] => x
  | x :: rest => String.append x (String.append sep (Join rest sep))
  end.

(** ** Collaborating packages: the data this file reads and writes *)

Module couchdb.

(** [couchdb.DocReference]. *)
Record DocReference := mkRef { Type_ : string; ID : string }.

(** A value of a decoded JSON object: what a [.(string)] assertion accepts,
    or any other JSON value, of a type [J] compared by [reflect.DeepEqual]. *)
Inductive jvalue (J : Type) :=
| JString (s : string)
| JOther (j : J).
Arguments JString {J} s.
Arguments JOther {J} j.

(** [couchdb.JSONDoc]: the map [M] and the doctype. *)
Record JSONDoc (J : Type) := mkJSONDoc {
  M : gmap string (jvalue J);
  Type' : string
}.
Arguments mkJSONDoc {J} M Type'.
Arguments M {J} j.
Arguments Type' {J} j.

End couchdb.

Module consts.

(** The constants of [pkg/consts] this file names, with [files.TagSeparator]
    and [jsonapi.ContentType]; their values are not part of it and every
    result below holds whatever they are. *)
Record t := mk {
  Files : string;
  DirType : string;
  FileType : string;
  RootDirID : string;
  SharedWithMeDirID : string;
  SelectorReferencedBy : string;
  QueryParamType : string;
  QueryParamName : string;
  QueryParamExecutable : string;
  QueryParamCreatedAt : string;
  QueryParamUpdatedAt : string;
  QueryParamReferencedBy : string;
  QueryParamDirID : string;
  QueryParamRev : string;
  QueryParamTags : string;
  TagSeparator : string;
  ContentType : string
}.

End consts.

Existing Class consts.t.

Module permissions.

(** [permissions.RefSep]: the values of a [referenced_by] rule are of the
    form ["doctype/id"]. *)
Definition RefSep : string := "/".

End permissions.

Module vfs.

(** [time.Time], as seconds. *)
Definition Time : Type := Z.

(** An open [vfs.File]. *)
Definition File : Type := nat.

(** [vfs.FileDoc], with [ID()] and [Rev()] as fields. *)
Record FileDoc := mkFileDoc {
  ID : string;
  Rev : string;
  DocName : string;
  DirID : string;
  Tags : slice string;
  MD5Sum : list Byte.byte;
  Mime : string;
  ByteSize : Z;
  Executable : bool;
  CreatedAt : Time;
  UpdatedAt : Time;
  ReferencedBy : slice couchdb.DocReference
}.

(** [FileDoc.Name()]. *)
Definition Name (f : FileDoc) : string := DocName f.

Module dir.
(** [vfs.DirDoc]. *)
Record DirDoc := mkDirDoc {
  ID : string;
  Rev : string;
  DocName : string;
  DirID : string;
  Tags : slice string;
  CreatedAt : Time;
  UpdatedAt : Time
}.
End dir.

(** [vfs.DirOrFileDoc], as [Refine] shows it: a directory, a file, or
    neither. *)
Record DirOrFileDoc := mkDirOrFileDoc {
  asDir : option dir.DirDoc;
  asFile : option FileDoc
}.

Definition Refine (d : DirOrFileDoc) : option dir.DirDoc * option FileDoc :=
  (asDir d, asFile d).

(** [vfs.DocPatch]. *)
Record DocPatch := mkDocPatch {
  patchName : string;
  patchDirID : string;
  patchTags : slice string;
  patchUpdatedAt : Time
}.

End vfs.

Module http.

Definition MethodGet : string := "GET".
Definition MethodPost : string := "POST".
Definition MethodPut : string := "PUT".
Definition MethodPatch : string := "PATCH".
Definition MethodDelete : string := "DELETE".

End http.

Module echo.

Definition HeaderContentType : string := "Content-Type".
Definition HeaderAuthorization : string := "Authorization".
Definition HeaderAcceptEncoding : string := "Accept-Encoding".
Definition MIMEApplicationJSON : string := "application/json".

End echo.

Module jsonapi.

(** [jsonapi.ObjectMarshalling] as [generateDirOrFilePatch] fills it: the
    attributes are the encoded [vfs.DocPatch]. *)
Record ObjectMarshalling := mkObject {
  Type_ : string;
  ID : string;
  Attributes : vfs.DocPatch;
  MetaRev : string
}.

(** [jsonapi.Document]: its [Data] is an encoded object or an encoded list of
    references. *)
Inductive Document :=
| ObjectData (obj : ObjectMarshalling)
| RefsData (refs : slice couchdb.DocReference).

End jsonapi.

(** [url.Values]: each key holds the values added to it, in order. *)
Abbreviation Values := (gmap string (list string)).

Definition Values_Add (k v : string) (q : Values) : Values :=
  <[k := default [] (q !! k) ++ [v]]> q.

(** ** The options of a job *)

Record RecipientInfo := mkRecipient {
  URL : string;
  Scheme : string;
  Token : string
}.

Record fileOptions := mkFileOptions {
  contentlength : string;
  mime : string;
  md5 : string;
  queries : Values;
  content : vfs.File;
  set : bool
}.

Record SendOptions := mkSendOptions {
  DocID : string;
  DocType : string;
  Type_ : string;
  Recipients : list RecipientInfo;
  Path : string;
  DocRev : string;
  Selector : string;
  Values_ : list string;
  sharedRefs : slice couchdb.DocReference;
  fileOpts : option fileOptions
}.

Definition set_sharedRefs (r : slice couchdb.DocReference) (o : SendOptions)
  : SendOptions :=
  mkSendOptions (DocID o) (DocType o) (Type_ o) (Recipients o) (Path o)
    (DocRev o) (Selector o) (Values_ o) r (fileOpts o).

Definition set_DocRev (r : string) (o : SendOptions) : SendOptions :=
  mkSendOptions (DocID o) (DocType o) (Type_ o) (Recipients o) (Path o)
    r (Selector o) (Values_ o) (sharedRefs o) (fileOpts o).

Definition set_fileOpts (f : option fileOptions) (o : SendOptions)
  : SendOptions :=
  mkSendOptions (DocID o) (DocType o) (Type_ o) (Recipients o) (Path o)
    (DocRev o) (Selector o) (Values_ o) (sharedRefs o) f.

#[local] Set Warnings "-register-all".

(** The errors of this file: the three sentinels, an [errors.New] text, a
    [*request.Error] with its title, a [fmt.Errorf] over the arguments it
    formats, and a [*multierror.Error] with the errors it collects. *)
Inductive error :=
| ErrBadFileFormat
| ErrRemoteDocDoesNotExist
| ErrBadPermission
| ErrorNew (msg : string)
| RequestError (title detail : string)
| Errorf (format : string) (args : list string) (cause : error)
| MultiError (errs : list error).

(** ** References and placement: the part of the file without input or output *)

Section References.

Context {K : consts.t}.

(** The loop of [getSharedReferences]: every value that splits in exactly
    two parts gives a reference, the others are passed over. *)
Fixpoint parseRefs (values : list string) (acc : slice couchdb.DocReference)
  : slice couchdb.DocReference :=
  match values with
  | [] => acc
  | ref :: rest =>
      match Split ref permissions.RefSep with
      | [t; i] => parseRefs rest (append acc (couchdb.mkRef t i))
      | _ => parseRefs rest acc
      end
  end.

(** [getSharedReferences]: the references are parsed on the first call and
    kept in [sharedRefs]. *)
Definition getSharedReferences (opts : SendOptions)
  : slice couchdb.DocReference * SendOptions :=
  if is_nil (sharedRefs opts)
     && bool_decide (Selector opts = consts.SelectorReferencedBy K)
  then
    let refs := parseRefs (Values_ opts) (Some []) in
    (refs, set_sharedRefs refs opts)
  else (sharedRefs opts, opts).

(** The inner loop of [extractRelevantReferences]: [match] becomes true at
    the first shared reference with the same [ID]. *)
Fixpoint matchesShared (ref : couchdb.DocReference)
  (shared : list couchdb.DocReference) : bool :=
  match shared with
  | [] => false
  | sharedRef :: rest =>
      if String.eqb (couchdb.ID ref) (couchdb.ID sharedRef) then true
      else matchesShared ref rest
  end.

Fixpoint extractLoop (refs shared : list couchdb.DocReference)
  (res : slice couchdb.DocReference) : slice couchdb.DocReference :=
  match refs with
  | [] => res
  | ref :: rest =>
      if matchesShared ref shared
      then extractLoop rest shared (append res ref)
      else extractLoop rest shared res
  end.

Definition extractRelevantReferences (opts : SendOptions)
  (refs : slice couchdb.DocReference)
  : slice couchdb.DocReference * SendOptions :=
  let '(shared, opts) := getSharedReferences opts in
  (extractLoop (elems refs) (elems shared) None, opts).

(** The inner loop of [findMissingRefs]: it runs to the end of [rref]. *)
Fixpoint hasRefIn (lr : couchdb.DocReference)
  (rref : list couchdb.DocReference) (hasRef : bool) : bool :=
  match rref with
  | [] => hasRef
  | rr :: rest =>
      if String.eqb (couchdb.ID rr) (couchdb.ID lr)
         && String.eqb (couchdb.Type_ rr) (couchdb.Type_ lr)
      then hasRefIn lr rest true
      else hasRefIn lr rest hasRef
  end.

Fixpoint missingLoop (lref rref : list couchdb.DocReference)
  (refs : slice couchdb.DocReference) : slice couchdb.DocReference :=
  match lref with
  | [] => refs
  | lr :: rest =>
      if negb (hasRefIn lr rref false)
      then missingLoop rest rref (append refs lr)
      else missingLoop rest rref refs
  end.

Definition findMissingRefs (lref rref : slice couchdb.DocReference)
  : slice couchdb.DocReference :=
  missingLoop (elems lref) (elems rref) None.

Definition findNewRefs (opts : SendOptions)
  (fileDoc remoteFileDoc : vfs.FileDoc)
  : slice couchdb.DocReference * SendOptions :=
  let '(refs, opts) :=
    extractRelevantReferences opts (vfs.ReferencedBy fileDoc) in
  let '(remoteRefs, opts) :=
    extractRelevantReferences opts (vfs.ReferencedBy remoteFileDoc) in
  if Nat.ltb (len remoteRefs) (len refs)
  then (findMissingRefs refs remoteRefs, opts)
  else (None, opts).

(** [isShared]. *)
Fixpoint inAccepted (id : string) (acceptedIDs : list string) : bool :=
  match acceptedIDs with
  | [] => false
  | acceptedID :: rest =>
      if String.eqb id acceptedID then true else inAccepted id rest
  end.

Definition isShared (id : string) (acceptedIDs : list string) : bool :=
  if String.eqb id (consts.RootDirID K) then false
  else inAccepted id acceptedIDs.

(** [getParentDirID]: the parent id, or the error. *)
Definition getParentDirID (opts : SendOptions) (dirID : string)
  : string * option error :=
  if String.eqb (Selector opts) "" then
    if String.eqb (DocID opts) (consts.RootDirID K)
    then ("", Some (ErrorNew "/ cannot be shared"))
    else if isShared (DocID opts) (Values_ opts)
    then (consts.SharedWithMeDirID K, None)
    else (dirID, None)
  else (consts.SharedWithMeDirID K, None).

End References.

(** ** The dispatch: requests, the content stream and the log *)

Module request.

(** What a request carries: nothing, an encoded JSON object
    ([request.WriteJSON] of a document's map), an encoded [jsonapi.Document],
    or the open content of a file. *)
Inductive Body (J : Type) :=
| NoBody
| JSONBody (m : gmap string (couchdb.jvalue J))
| DocumentBody (d : jsonapi.Document)
| FileBody (f : vfs.File).
Arguments NoBody {J}.
Arguments JSONBody {J} m.
Arguments DocumentBody {J} d.
Arguments FileBody {J} f.

(** [request.Options]. *)
Record Options (J : Type) := mkOptions {
  Domain : string;
  Scheme : string;
  Method : string;
  Path : string;
  Headers : gmap string string;
  Queries : Values;
  Body_ : Body J;
  NoResponse : bool
}.
Arguments mkOptions {J}.
Arguments Domain {J} o.
Arguments Scheme {J} o.
Arguments Method {J} o.
Arguments Path {J} o.
Arguments Headers {J} o.
Arguments Queries {J} o.
Arguments Body_ {J} o.
Arguments NoResponse {J} o.

(** [*request.Error]: the typed error of the transport. *)
Record Error := mkError { Title : string; Detail : string }.

End request.

(** What [bindDirOrFile] makes of a response body: its decoding steps belong
    to [encoding/json]; it returns a document or an error, or stops on the nil
    document of a body without attributes. *)
Inductive Bound :=
| BindPanic
| BindError (err : error)
| BindDoc (doc : option vfs.DirOrFileDoc).

(** What happens, in order: a request sent, the content opened or closed, a
    line logged with the error it prints. *)
Inductive Event (J : Type) :=
| Request (o : request.Options J)
| Open (fileDoc : vfs.FileDoc) (r : error + vfs.File)
| Close (f : vfs.File)
| Log (msg : string) (err : option error).
Arguments Request {J} o.
Arguments Open {J} fileDoc r.
Arguments Close {J} f.
Arguments Log {J} msg err.

(** The world outside: the recipients behind [request.Req], the local file
    system and document store, each answering from what happened so far; the
    decoders of the response bodies; the encoders of the standard library.
    The transport answers with a body or with its typed error, of which the
    title tells a missing document from the other failures. *)
Class World (J : Type) := mkWorld {
  Req : list (Event J) -> request.Options J -> request.Error + string;
  OpenFile : list (Event J) -> vfs.FileDoc -> error + vfs.File;
  CloseFile : list (Event J) -> vfs.File -> option error;
  GetDoc : list (Event J) -> string -> string -> error + couchdb.JSONDoc J;
  ReadJSON : string -> error + couchdb.JSONDoc J;
  bindDirOrFile : string -> Bound;
  EncodeToString : list Byte.byte -> string;
  FormatInt : Z -> string;
  FormatTime : vfs.Time -> string;
  Marshal : slice couchdb.DocReference -> string
}.

#[global] Instance jvalue_eq_dec {J : Type} `{EqDecision J}
  : EqDecision (couchdb.jvalue J).
Proof. solve_decision. Defined.

Section Dispatch.

Context {J : Type} `{EqDecision J} {K : consts.t} {W : World J}.

Definition FormatBool (b : bool) : string := if b then "true" else "false".

Record State := mkState {
  opts : SendOptions;
  events : list (Event J)
}.

(** A call returns a value and the new state, or panics. *)
Inductive Result (A : Type) :=
| Ret (a : A) (st : State)
| Panic (st : State).
Arguments Ret {A} a st.
Arguments Panic {A} st.

Definition M (A : Type) : Type := State -> Result A.

Definition ret {A} (a : A) : M A := fun st => Ret a st.

Definition bind {A B} (m : M A) (k : A -> M B) : M B :=
  fun st =>
    match m st with
    | Ret a st' => k a st'
    | Panic st' => Panic st'
    end.

Definition panic {A} : M A := fun st => Panic st.

(** [defer]: the deferred call runs when the body returns and when it
    panics; what it returns is dropped. *)
Definition defer {A B} (deferred : M B) (body : M A) : M A :=
  fun st =>
    match body st with
    | Ret a st' =>
        match deferred st' with
        | Ret _ st'' => Ret a st''
        | Panic st'' => Panic st''
        end
    | Panic st' =>
        match deferred st' with
        | Ret _ st'' => Panic st''
        | Panic st'' => Panic st''
        end
    end.

Notation "x <- m ;; k" := (bind m (fun x => k))
  (at level 100, m at next level, right associativity).
Notation "m ;;; k" := (bind m (fun _ => k))
  (at level 100, right associativity).

Definition getOpts : M SendOptions := fun st => Ret (opts st) st.

Definition modifyOpts (f : SendOptions -> SendOptions) : M unit :=
  fun st => Ret tt (mkState (f (opts st)) (events st)).

Definition withOpts {A} (f : SendOptions -> A * SendOptions) : M A :=
  fun st => let '(a, o) := f (opts st) in Ret a (mkState o (events st)).

Definition emit (e : Event J) : M unit :=
  fun st => Ret tt (mkState (opts st) (events st ++ [e])).

Definition logError (msg : string) (err : option error) : M unit :=
  emit (Log msg err).

(** [request.Req]: the request is sent and the answer is the recipient's. *)
Definition request_Req (o : request.Options J) : M (error + string) :=
  fun st =>
    let r := match Req (events st) o with
             | inl e => inl (RequestError (request.Title e) (request.Detail e))
             | inr body => inr body
             end in
    Ret r (mkState (opts st) (events st ++ [Request o])).

Definition fs_OpenFile (fileDoc : vfs.FileDoc) : M (error + vfs.File) :=
  fun st =>
    let r := OpenFile (events st) fileDoc in
    Ret r (mkState (opts st) (events st ++ [Open fileDoc r])).

Definition content_Close (f : vfs.File) : M (option error) :=
  fun st =>
    Ret (CloseFile (events st) f) (mkState (opts st) (events st ++ [Close f])).

Definition couchdb_GetDoc (doctype id : string)
  : M (error + couchdb.JSONDoc J) :=
  fun st => Ret (GetDoc (events st) doctype id) st.

(** [v.(string)]: the assertion panics on anything but a string; a missing
    key reads as nil. *)
Definition assertString (v : option (couchdb.jvalue J)) : M string :=
  match v with
  | Some (couchdb.JString s) => ret s
  | _ => panic
  end.

(** The dereference of a pointer: nil panics. *)
Definition deref {A} (p : option A) : M A :=
  match p with
  | Some a => ret a
  | None => panic
  end.

Definition errOf {A} (r : error + A) : option error :=
  match r with
  | inl e => Some e
  | inr _ => None
  end.

(** [multierror.Append] of one error. *)
Definition multierror_Append (err : option error) (e : error) : option error :=
  match err with
  | None => Some (MultiError [e])
  | Some (MultiError es) => Some (MultiError (es ++ [e]))
  | Some other => Some (MultiError [other; e])
  end.

(** A [for ... range] loop whose body neither breaks nor returns. *)
Fixpoint forEach {A} (l : list A) (body : A -> M unit) : M unit :=
  match l with
  | [] => ret tt
  | x :: rest => body x ;;; forEach rest body
  end.

Definition bearer (token : string) : string := String.append "Bearer " token.

Definition setRev (doc : couchdb.JSONDoc J) (rev : string) : couchdb.JSONDoc J :=
  couchdb.mkJSONDoc (<["_rev" := couchdb.JString rev]> (couchdb.M doc))
    (couchdb.Type' doc).

Definition withM (doc : couchdb.JSONDoc J) (m : gmap string (couchdb.jvalue J))
  : couchdb.JSONDoc J :=
  couchdb.mkJSONDoc m (couchdb.Type' doc).

(** *** The content stream *)

Definition fileIsSet (o : SendOptions) : bool :=
  match fileOpts o with
  | Some fo => set fo
  | None => false
  end.

(** [fillDetailsAndOpenFile].  [json.Marshal] of a list of references, two
    strings each, has no error to return. *)
Definition fillDetailsAndOpenFile (fileDoc : vfs.FileDoc) : M (option error) :=
  o <- getOpts ;;
  if fileIsSet o then ret None
  else
    refs <- (if bool_decide (Selector o = consts.SelectorReferencedBy K)
             then (sharedRefs <- withOpts (getSharedReferences) ;;
                   ret (Marshal sharedRefs))
             else ret "") ;;
    let queries : Values :=
      <[consts.QueryParamReferencedBy K := [refs]]>
      (<[consts.QueryParamUpdatedAt K := [FormatTime (vfs.UpdatedAt fileDoc)]]>
      (<[consts.QueryParamCreatedAt K := [FormatTime (vfs.CreatedAt fileDoc)]]>
      (<[consts.QueryParamExecutable K := [FormatBool (vfs.Executable fileDoc)]]>
      (<[consts.QueryParamName K := [vfs.DocName fileDoc]]>
      (<[consts.QueryParamType K := [consts.FileType K]]> ∅))))) in
    r <- fs_OpenFile fileDoc ;;
    match r with
    | inl err => ret (Some err)
    | inr content =>
        modifyOpts (set_fileOpts (Some
          (mkFileOptions (FormatInt (vfs.ByteSize fileDoc)) (vfs.Mime fileDoc)
             (EncodeToString (vfs.MD5Sum fileDoc)) queries content true))) ;;;
        ret None
    end.

(** [closeFile]. *)
Definition closeFile : M (option error) :=
  o <- getOpts ;;
  match fileOpts o with
  | Some fo => if set fo then content_Close (content fo) else ret None
  | None => ret None
  end.

(** [opts.fileOpts.queries.Add]: the map of the one [fileOptions] is changed
    in place. *)
Definition queries_Add (k v : string) : M unit :=
  o <- getOpts ;;
  fo <- deref (fileOpts o) ;;
  modifyOpts (set_fileOpts (Some
    (mkFileOptions (contentlength fo) (mime fo) (md5 fo)
       (Values_Add k v (queries fo)) (content fo) (set fo)))).

(** *** Reading the state of a recipient *)

(** [getDocAtRecipient]: the document, or the error of the request or of the
    decoding. *)
Definition getDocAtRecipient (doctype docID : string) (recInfo : RecipientInfo)
  : M (error + couchdb.JSONDoc J) :=
  let path := String.append "/data/" (String.append doctype
                (String.append "/" docID)) in
  res <- request_Req (request.mkOptions (URL recInfo) (Scheme recInfo)
           http.MethodGet path
           (<["Authorization" := bearer (Token recInfo)]>
            (<["Accept" := "application/json"]>
            (<["Content-Type" := "application/json"]> ∅)))
           ∅ request.NoBody false) ;;
  match res with
  | inl err => ret (inl err)
  | inr body => ret (ReadJSON body)
  end.

(** [getDirOrFileMetadataAtRecipient]: the directory, the file and the
    error.  The error of [request.Req] is asserted to be a [*request.Error];
    its title tells the missing document from the other failures. *)
Definition getDirOrFileMetadataAtRecipient (id : string)
  (recInfo : RecipientInfo)
  : M (option vfs.dir.DirDoc * option vfs.FileDoc * option error) :=
  let path := String.append "/files/" id in
  res <- request_Req (request.mkOptions (URL recInfo) (Scheme recInfo)
           http.MethodGet path
           (<[echo.HeaderAuthorization := bearer (Token recInfo)]>
            (<[echo.HeaderAcceptEncoding := echo.MIMEApplicationJSON]>
            (<[echo.HeaderContentType := echo.MIMEApplicationJSON]> ∅)))
           ∅ request.NoBody false) ;;
  match res with
  | inl (RequestError title detail) =>
      if String.eqb title "Not Found"
      then ret (None, None, Some ErrRemoteDocDoesNotExist)
      else ret (None, None, Some (RequestError title detail))
  | inl _ => panic
  | inr body =>
      match bindDirOrFile body with
      | BindPanic => panic
      | BindError err => ret (None, None, Some err)
      | BindDoc None => ret (None, None, Some ErrBadFileFormat)
      | BindDoc (Some dirOrFileDoc) =>
          let '(dirDoc, fileDoc) := vfs.Refine dirOrFileDoc in
          ret (dirDoc, fileDoc, None)
      end
  end.

(** [getDirOrFileRevAtRecipient]. *)
Definition getDirOrFileRevAtRecipient (docID : string)
  (recipient : RecipientInfo) : M (string * option error) :=
  r <- getDirOrFileMetadataAtRecipient docID recipient ;;
  match r with
  | (_, _, Some err) => ret ("", Some err)
  | (Some dirDoc, _, None) => ret (vfs.dir.Rev dirDoc, None)
  | (None, Some fileDoc, None) => ret (vfs.Rev fileDoc, None)
  | (None, None, None) => ret ("", None)
  end.

(** *** What is compared *)

(** [fileHasChanges]: [reflect.DeepEqual] on the two tag slices tells a nil
    slice from an empty one. *)
Definition fileHasChanges (newFileDoc remoteFileDoc : vfs.FileDoc) : bool :=
  if negb (String.eqb (vfs.Name newFileDoc) (vfs.Name remoteFileDoc)) then true
  else if negb (bool_decide (vfs.Tags newFileDoc = vfs.Tags remoteFileDoc))
  then true
  else false.

(** [docHasChanges]: the three assertions come first; both maps lose [_id]
    and [_rev] for the comparison, the local one gets both back and the
    remote one its [_rev]. *)
Definition docHasChanges (newDoc doc : couchdb.JSONDoc J)
  : M (bool * couchdb.JSONDoc J * couchdb.JSONDoc J) :=
  newID <- assertString (couchdb.M newDoc !! "_id") ;;
  newRev <- assertString (couchdb.M newDoc !! "_rev") ;;
  rev <- assertString (couchdb.M doc !! "_rev") ;;
  let newM := delete "_rev" (delete "_id" (couchdb.M newDoc)) in
  let m := delete "_rev" (delete "_id" (couchdb.M doc)) in
  let isEqual := bool_decide (newM = m) in
  let newM := <["_rev" := couchdb.JString newRev]>
              (<["_id" := couchdb.JString newID]> newM) in
  let m := <["_rev" := couchdb.JString rev]> m in
  ret (negb isEqual, withM newDoc newM, withM doc m).

(** *** Requests that change a recipient *)

(** [sendDocToRecipient]: [request.WriteJSON] of a decoded JSON object has
    no error to return. *)
Definition sendDocToRecipient (rec : RecipientInfo) (doc : couchdb.JSONDoc J)
  (method : string) : M (option error) :=
  o <- getOpts ;;
  res <- request_Req (request.mkOptions (URL rec) (Scheme rec) method (Path o)
           (<["Authorization" := bearer (Token rec)]>
            (<["Accept" := "application/json"]>
            (<["Content-Type" := "application/json"]> ∅)))
           ∅ (request.JSONBody (couchdb.M doc)) true) ;;
  ret (errOf res).

(** [sendFileToRecipient]. *)
Definition sendFileToRecipient (recipient : RecipientInfo) (method : string)
  : M (option error) :=
  o <- getOpts ;;
  fo <- deref (fileOpts o) ;;
  if negb (set fo) then ret (Some (ErrorNew "[sharing] fileOpts were not set"))
  else
    (if negb (String.eqb (DocRev o) "") then queries_Add "rev" (DocRev o)
     else ret tt) ;;;
    o <- getOpts ;;
    fo <- deref (fileOpts o) ;;
    res <- request_Req (request.mkOptions (URL recipient) (Scheme recipient)
             method (Path o)
             (<["Authorization" := bearer (Token recipient)]>
              (<["Content-MD5" := md5 fo]>
              (<["Content-Length" := contentlength fo]>
              (<["Accept" := "application/vnd.api+json"]>
              (<["Content-Type" := mime fo]> ∅)))))
             (queries fo) (request.FileBody (content fo)) true) ;;
    ret (errOf res).

(** [sendPatchToRecipient]. *)
Definition sendPatchToRecipient (patch : jsonapi.Document)
  (recipient : RecipientInfo) (dirID : string) : M (option error) :=
  o <- getOpts ;;
  match getParentDirID o dirID with
  | (_, Some err) => ret (Some err)
  | (parentID, None) =>
      res <- request_Req (request.mkOptions (URL recipient) (Scheme recipient)
               http.MethodPatch (Path o)
               (<[echo.HeaderAuthorization := bearer (Token recipient)]>
                (<[echo.HeaderContentType := consts.ContentType K]> ∅))
               (<[consts.QueryParamDirID K := [parentID]]>
                (<[consts.QueryParamType K := [Type_ o]]>
                (<[consts.QueryParamRev K := [DocRev o]]> ∅)))
               (request.DocumentBody patch) true) ;;
      ret (errOf res)
  end.

(** [updateReferencesAtRecipient]. *)
Definition updateReferencesAtRecipient (method : string)
  (refs : slice couchdb.DocReference) (recipient : RecipientInfo)
  : M (option error) :=
  o <- getOpts ;;
  let path :=
    if String.eqb method http.MethodPost
    then String.append "/files/"
           (String.append (DocID o) "/relationships/referenced_by")
    else String.append "/sharings/files/"
           (String.append (DocID o) "/referenced_by") in
  res <- request_Req (request.mkOptions (URL recipient) (Scheme recipient)
           method path
           (<[echo.HeaderAuthorization := bearer (Token recipient)]>
            (<[echo.HeaderContentType := consts.ContentType K]> ∅))
           ∅ (request.DocumentBody (jsonapi.RefsData refs)) true) ;;
  ret (errOf res).

(** [generateDirOrFilePatch]: the patch of the directory when there is one,
    of the file otherwise; [json.Marshal] of the patch and of the object
    give no error here. *)
Definition generateDirOrFilePatch (dirDoc : option vfs.dir.DirDoc)
  (fileDoc : option vfs.FileDoc) : M (error + jsonapi.Document) :=
  match dirDoc with
  | Some d =>
      ret (inr (jsonapi.ObjectData (jsonapi.mkObject (consts.Files K)
        (vfs.dir.ID d)
        (vfs.mkDocPatch (vfs.dir.DocName d) (vfs.dir.DirID d) (vfs.dir.Tags d)
           (vfs.dir.UpdatedAt d))
        (vfs.dir.Rev d))))
  | None =>
      f <- deref fileDoc ;;
      ret (inr (jsonapi.ObjectData (jsonapi.mkObject (consts.Files K)
        (vfs.ID f)
        (vfs.mkDocPatch (vfs.DocName f) (vfs.DirID f) (vfs.Tags f)
           (vfs.UpdatedAt f))
        (vfs.Rev f))))
  end.

(** *** The public operations *)

(** [DeleteDoc]: one round of the loop, then the loop with [errFinal]. *)
Definition DeleteDoc_body (recipient : RecipientInfo) (errFinal : option error)
  : M (option error) :=
  o <- getOpts ;;
  r <- getDocAtRecipient (DocType o) (DocID o) recipient ;;
  match r with
  | inl err =>
      ret (multierror_Append errFinal
             (Errorf "Error while trying to get remote doc : %s" [] err))
  | inr doc =>
      rev <- assertString (couchdb.M doc !! "_rev") ;;
      res <- request_Req (request.mkOptions (URL recipient) (Scheme recipient)
               http.MethodDelete (Path o)
               (<["Authorization" := bearer (Token recipient)]>
                (<["Accept" := "application/json"]>
                (<["Content-Type" := "application/json"]> ∅)))
               (<["rev" := [rev]]> ∅) request.NoBody true) ;;
      match res with
      | inl errSend =>
          ret (multierror_Append errFinal
                 (Errorf "Error while trying to share data : %s" [] errSend))
      | inr _ => ret errFinal
      end
  end.

Fixpoint DeleteDoc_loop (recipients : list RecipientInfo)
  (errFinal : option error) : M (option error) :=
  match recipients with
  | [] => ret errFinal
  | recipient :: rest =>
      errFinal <- DeleteDoc_body recipient errFinal ;;
      DeleteDoc_loop rest errFinal
  end.

Definition DeleteDoc : M (option error) :=
  o <- getOpts ;;
  DeleteDoc_loop (Recipients o) None.

(** [SendDoc]. *)
Definition SendDoc_body (doc : couchdb.JSONDoc J) (rec : RecipientInfo)
  : M unit :=
  errs <- sendDocToRecipient rec doc http.MethodPost ;;
  match errs with
  | Some e =>
      logError "[sharing] An error occurred while trying to send a document to a recipient:" (Some e)
  | None => ret tt
  end.

Definition SendDoc : M (option error) :=
  o <- getOpts ;;
  r <- couchdb_GetDoc (DocType o) (DocID o) ;;
  match r with
  | inl err => ret (Some err)
  | inr doc =>
      let doc := withM doc (delete "_rev" (delete "_id" (couchdb.M doc))) in
      forEach (Recipients o) (SendDoc_body doc) ;;;
      ret None
  end.

(** [UpdateDoc]: the local document goes from one round to the next with the
    revision the last [SetRev] gave it.  The line logged when the send fails
    prints [err], which is nil there. *)
Definition UpdateDoc_body (doc : couchdb.JSONDoc J) (rec : RecipientInfo)
  : M (couchdb.JSONDoc J) :=
  o <- getOpts ;;
  r <- getDocAtRecipient (DocType o) (DocID o) rec ;;
  match r with
  | inl err =>
      logError "[sharing] An error occurred while trying to get remote doc : " (Some err) ;;;
      ret doc
  | inr remoteDoc =>
      c <- docHasChanges doc remoteDoc ;;
      let '(changed, doc, remoteDoc) := c in
      if negb changed then ret doc
      else
        rev <- assertString (couchdb.M remoteDoc !! "_rev") ;;
        let doc := setRev doc rev in
        errs <- sendDocToRecipient rec doc http.MethodPut ;;
        match errs with
        | Some _ =>
            logError "[sharing] An error occurred while trying to send an update: " None ;;;
            ret doc
        | None => ret doc
        end
  end.

Fixpoint UpdateDoc_loop (doc : couchdb.JSONDoc J)
  (recipients : list RecipientInfo) : M unit :=
  match recipients with
  | [] => ret tt
  | rec :: rest =>
      doc <- UpdateDoc_body doc rec ;;
      UpdateDoc_loop doc rest
  end.

Definition UpdateDoc : M (option error) :=
  o <- getOpts ;;
  r <- couchdb_GetDoc (DocType o) (DocID o) ;;
  match r with
  | inl err => ret (Some err)
  | inr doc => UpdateDoc_loop doc (Recipients o) ;;; ret None
  end.

(** [SendFile]: the file is opened before the loop and [closeFile] is
    deferred from there. *)
Definition SendFile_body (fileDoc : vfs.FileDoc) (rec : RecipientInfo)
  : M unit :=
  err <- sendFileToRecipient rec http.MethodPost ;;
  match err with
  | Some e =>
      logError "[sharing] An error occurred while trying to share file" (Some e)
  | None => ret tt
  end.

Definition SendFile (fileDoc : vfs.FileDoc) : M (option error) :=
  err <- fillDetailsAndOpenFile fileDoc ;;
  match err with
  | Some e => ret (Some e)
  | None =>
      defer closeFile
        (queries_Add (consts.QueryParamDirID K) (consts.SharedWithMeDirID K) ;;;
         o <- getOpts ;;
         forEach (Recipients o) (SendFile_body fileDoc) ;;;
         ret None)
  end.

(** [SendDir]: the update time sent is the creation time, and the line
    logged when a request fails prints [err], which is nil there. *)
Definition SendDir_body (dirDoc : vfs.dir.DirDoc) (dirTags parentID : string)
  (recipient : RecipientInfo) : M unit :=
  o <- getOpts ;;
  res <- request_Req (request.mkOptions (URL recipient) (Scheme recipient)
           http.MethodPost (Path o)
           (<[echo.HeaderAuthorization := bearer (Token recipient)]>
            (<[echo.HeaderContentType := echo.MIMEApplicationJSON]> ∅))
           (<[consts.QueryParamDirID K := [parentID]]>
            (<[consts.QueryParamUpdatedAt K :=
                 [FormatTime (vfs.dir.CreatedAt dirDoc)]]>
            (<[consts.QueryParamCreatedAt K :=
                 [FormatTime (vfs.dir.CreatedAt dirDoc)]]>
            (<[consts.QueryParamType K := [consts.DirType K]]>
            (<[consts.QueryParamName K := [vfs.dir.DocName dirDoc]]>
            (<[consts.QueryParamTags K := [dirTags]]> ∅))))))
           request.NoBody true) ;;
  match res with
  | inl _ =>
      logError "[sharing] An error occurred while trying to share the directory" None
  | inr _ => ret tt
  end.

Definition SendDir (dirDoc : vfs.dir.DirDoc) : M (option error) :=
  let dirTags := Join (elems (vfs.dir.Tags dirDoc)) (consts.TagSeparator K) in
  o <- getOpts ;;
  match getParentDirID o (vfs.dir.DirID dirDoc) with
  | (_, Some err) => ret (Some err)
  | (parentID, None) =>
      forEach (Recipients o) (SendDir_body dirDoc dirTags parentID) ;;;
      ret None
  end.

(** [UpdateOrPatchFile]: one round of the loop.  A recipient without the file
    gets it through [SendFile], which sends it to every recipient of the
    options and closes the content when it returns. *)
Definition UpdateOrPatchFile_body (fileDoc : vfs.FileDoc) (md5 : string)
  (recipient : RecipientInfo) : M unit :=
  o <- getOpts ;;
  r <- getDirOrFileMetadataAtRecipient (DocID o) recipient ;;
  match r with
  | (_, _, Some err) =>
      match err with
      | ErrRemoteDocDoesNotExist =>
          errf <- SendFile fileDoc ;;
          match errf with
          | Some e =>
              logError "[sharing] An error occurred while trying to send file: " (Some e)
          | None => ret tt
          end
      | _ => logError "[sharing] Could not get data" (Some err)
      end
  | (_, remoteFileDoc, None) =>
      remoteFileDoc <- deref remoteFileDoc ;;
      let md5AtRec := EncodeToString (vfs.MD5Sum remoteFileDoc) in
      modifyOpts (set_DocRev (vfs.Rev remoteFileDoc)) ;;;
      if String.eqb md5 md5AtRec then
        if negb (fileHasChanges fileDoc remoteFileDoc) then
          o <- getOpts ;;
          if bool_decide (Selector o = consts.SelectorReferencedBy K) then
            refs <- withOpts (fun o => findNewRefs o fileDoc remoteFileDoc) ;;
            if negb (is_nil refs) then
              erru <- updateReferencesAtRecipient http.MethodPost refs recipient ;;
              match erru with
              | Some e =>
                  logError "[sharing] An error occurred  while trying to update references: " (Some e)
              | None => ret tt
              end
            else ret tt
          else ret tt
        else
          p <- generateDirOrFilePatch None (Some fileDoc) ;;
          match p with
          | inl errp =>
              logError "[sharing] Could not generate patch for file" (Some errp)
          | inr patch =>
              errsp <- sendPatchToRecipient patch recipient (vfs.DirID fileDoc) ;;
              match errsp with
              | Some e =>
                  logError "[sharing] An error occurred while trying to send patch: " (Some e)
              | None => ret tt
              end
          end
      else
        err <- fillDetailsAndOpenFile fileDoc ;;
        match err with
        | Some e =>
            logError "[sharing] An error occurred while trying to open" (Some e)
        | None =>
            err <- sendFileToRecipient recipient http.MethodPut ;;
            match err with
            | Some e =>
                logError "[sharing] An error occurred while trying to share an update of file to a recipient" (Some e)
            | None => ret tt
            end
        end
  end.

Definition UpdateOrPatchFile (fileDoc : vfs.FileDoc) : M (option error) :=
  let md5 := EncodeToString (vfs.MD5Sum fileDoc) in
  defer closeFile
    (o <- getOpts ;;
     forEach (Recipients o) (UpdateOrPatchFile_body fileDoc md5) ;;;
     ret None).

(** [PatchDir]: a revision that cannot be read ends the loop and the call. *)
Fixpoint PatchDir_loop (patch : jsonapi.Document) (dirDoc : vfs.dir.DirDoc)
  (recipients : list RecipientInfo) (errFinal : option error)
  : M (option error) :=
  match recipients with
  | [] => ret errFinal
  | rec :: rest =>
      o <- getOpts ;;
      r <- getDirOrFileRevAtRecipient (DocID o) rec ;;
      match r with
      | (_, Some err) => ret (Some err)
      | (rev, None) =>
          modifyOpts (set_DocRev rev) ;;;
          err <- sendPatchToRecipient patch rec (vfs.dir.DirID dirDoc) ;;
          match err with
          | Some e =>
              PatchDir_loop patch dirDoc rest
                (multierror_Append errFinal
                   (Errorf "Error while trying to send a patch: %s" [] e))
          | None => PatchDir_loop patch dirDoc rest errFinal
          end
      end
  end.

Definition PatchDir (dirDoc : vfs.dir.DirDoc) : M (option error) :=
  p <- generateDirOrFilePatch (Some dirDoc) None ;;
  match p with
  | inl err => ret (Some err)
  | inr patch =>
      o <- getOpts ;;
      PatchDir_loop patch dirDoc (Recipients o) None
  end.

(** [RemoveDirOrFileFromSharing]. *)
Definition RemoveDirOrFileFromSharing_body
  (sharedRefs : slice couchdb.DocReference) (recipient : RecipientInfo)
  : M unit :=
  errs <- updateReferencesAtRecipient http.MethodDelete sharedRefs recipient ;;
  match errs with
  | Some e =>
      logError "[sharings] Could not update reference at recipient" (Some e)
  | None => ret tt
  end.

Definition RemoveDirOrFileFromSharing : M (option error) :=
  sharedRefs <- withOpts (getSharedReferences) ;;
  o <- getOpts ;;
  forEach (Recipients o) (RemoveDirOrFileFromSharing_body sharedRefs) ;;;
  ret None.

(** [DeleteDirOrFile]: [errFinal] collects the errors; the call returns nil. *)
Definition DeleteDirOrFile_body (recipient : RecipientInfo)
  (errFinal : option error) : M (option error) :=
  o <- getOpts ;;
  r <- getDirOrFileRevAtRecipient (DocID o) recipient ;;
  match r with
  | (_, Some err) =>
      ret (multierror_Append errFinal
             (Errorf "Error while trying to get a revision at %v: %v"
                [URL recipient] err))
  | (rev, None) =>
      modifyOpts (set_DocRev rev) ;;;
      o <- getOpts ;;
      res <- request_Req (request.mkOptions (URL recipient) (Scheme recipient)
               http.MethodDelete (Path o)
               (<[echo.HeaderAuthorization := bearer (Token recipient)]>
                (<[echo.HeaderContentType := echo.MIMEApplicationJSON]> ∅))
               (<[consts.QueryParamType K := [Type_ o]]>
                (<[consts.QueryParamRev K := [DocRev o]]> ∅))
               request.NoBody true) ;;
      match res with
      | inl err =>
          ret (multierror_Append errFinal
                 (Errorf "Error while sending request to %v: %v"
                    [URL recipient] err))
      | inr _ => ret errFinal
      end
  end.

Fixpoint DeleteDirOrFile_loop (recipients : list RecipientInfo)
  (errFinal : option error) : M (option error) :=
  match recipients with
  | [] => ret errFinal
  | recipient :: rest =>
      errFinal <- DeleteDirOrFile_body recipient errFinal ;;
      DeleteDirOrFile_loop rest errFinal
  end.

Definition DeleteDirOrFile : M (option error) :=
  o <- getOpts ;;
  DeleteDirOrFile_loop (Recipients o) None ;;;
  ret None.

End Dispatch.

Arguments Ret {J A} a st.
Arguments Panic {J A} st.

(** ** The worker *)

Definition set_Path (p : string) (o : SendOptions) : SendOptions :=
  mkSendOptions (DocID o) (DocType o) (Type_ o) (Recipients o) p
    (DocRev o) (Selector o) (Values_ o) (sharedRefs o) (fileOpts o).

Definition set_Type (t : string) (o : SendOptions) : SendOptions :=
  mkSendOptions (DocID o) (DocType o) t (Recipients o) (Path o)
    (DocRev o) (Selector o) (Values_ o) (sharedRefs o) (fileOpts o).

(** What the job system hands to the worker: the value of the context under
    the domain key ([None] when it is not a string), the decoding of the
    message into the options (the JSON [null] decodes to a nil pointer), the
    instance of a domain and, from its file system, the directory or the
    file of an id. *)
Class Job (J : Type) := mkJob {
  ContextDomain : option string;
  Unmarshal : error + option SendOptions;
  instance_Get : string -> option error;
  DirOrFileByID : list (Event J) -> string
                  -> option vfs.dir.DirDoc * option vfs.FileDoc * option error
}.

Section Worker.

Context {J : Type} `{EqDecision J} {K : consts.t} {W : World J} {B : Job J}.

Notation "x <- m ;; k" := (bind m (fun x => k))
  (at level 100, m at next level, right associativity).
Notation "m ;;; k" := (bind m (fun _ => k))
  (at level 100, right associativity).

(** [fmt.Sprintf("/sharings/doc/%s/%s", opts.DocType, opts.DocID)]. *)
Definition pathOf (o : SendOptions) : string :=
  String.append "/sharings/doc/"
    (String.append (DocType o) (String.append "/" (DocID o))).

(** The options as [m.Unmarshal] leaves them: the decoder cannot reach the
    fields that are not exported, which stay nil. *)
Definition decoded (o : SendOptions) : SendOptions :=
  set_fileOpts None (set_sharedRefs None o).

Definition vfs_DirOrFileByID (id : string)
  : M (J:=J) (option vfs.dir.DirDoc * option vfs.FileDoc * option error) :=
  fun st => Ret (DirOrFileByID (events st) id) st.

(** [SendData].  The options of the call replace those of the state once
    the message is decoded and the instance found. *)
Definition SendData : M (J:=J) (option error) :=
  domain <- deref ContextDomain ;;
  match Unmarshal with
  | inl err => ret (Some err)
  | inr p =>
      match instance_Get domain with
      | Some err => ret (Some err)
      | None =>
          o <- deref p ;;
          modifyOpts (fun _ => set_Path (pathOf o) (decoded o)) ;;;
          o <- getOpts ;;
          if String.eqb (DocType o) (consts.Files K) then
            r <- vfs_DirOrFileByID (DocID o) ;;
            match r with
            | (_, _, Some err) => ret (Some err)
            | (Some dirDoc, _, None) =>
                modifyOpts (set_Type (consts.DirType K)) ;;;
                emit (Log "[sharings] Sending directory: %#v" None) ;;;
                SendDir dirDoc
            | (None, fileDoc, None) =>
                modifyOpts (set_Type (consts.FileType K)) ;;;
                emit (Log "[sharings] Sending file: %v" None) ;;;
                fileDoc <- deref fileDoc ;;
                SendFile fileDoc
            end
          else
            emit (Log "[sharings] Sending JSON (%v): %v" None) ;;;
            SendDoc
      end
  end.

End Worker.

(** ** Words of the statements *)

(** A slice built by appending to a nil slice: nil as long as nothing was
    appended. *)
Definition appended {A} (l : list A) : slice A :=
  match l with
  | [] => None
  | _ => Some l
  end.

Definition sameID (ref sharedRef : couchdb.DocReference) : bool :=
  String.eqb (couchdb.ID ref) (couchdb.ID sharedRef).

Definition sameRef (lr rr : couchdb.DocReference) : bool :=
  String.eqb (couchdb.ID rr) (couchdb.ID lr)
  && String.eqb (couchdb.Type_ rr) (couchdb.Type_ lr).

(** The requests among some events, in order. *)
Definition requestsOf {J} (evs : list (Event J)) : list (request.Options J) :=
  flat_map (fun e => match e with Request o => [o] | _ => [] end) evs.

(** A request changes the recipient when it is not a [GET]. *)
Definition changing {J} (o : request.Options J) : bool :=
  negb (String.eqb (request.Method o) http.MethodGet).

(** What happened between two states of one run. *)
Definition since {J} (st st' : State (J:=J)) : list (Event J) :=
  drop (length (events st)) (events st').

(** The changing requests sent between two states of one run. *)
Definition issued {J} (st st' : State (J:=J)) : list (request.Options J) :=
  List.filter changing (requestsOf (since st st')).

(** The openings that gave a stream, and the closings, among some events. *)
Definition opened {J} (evs : list (Event J)) : nat :=
  length (List.filter
    (fun e => match e with Open _ (inr _) => true | _ => false end) evs).

Definition closed {J} (evs : list (Event J)) : nat :=
  length (List.filter
    (fun e => match e with Close _ => true | _ => false end) evs).

(** The value under a key is a string: the assertion [.(string)] holds. *)
Definition isString {J} (v : option (couchdb.jvalue J)) : bool :=
  match v with
  | Some (couchdb.JString _) => true
  | _ => false
  end.

(** The body of a document, without the two fields every replica sets. *)
Definition bodyOf {J} (m : gmap string (couchdb.jvalue J))
  : gmap string (couchdb.jvalue J) :=
  delete "_rev" (delete "_id" m).

(** The state a call ends in, returning or panicking. *)
Definition final {J A} (r : Result (J:=J) A) : State (J:=J) :=
  match r with
  | Ret _ st => st
  | Panic st => st
  end.

(** No recipient answers that the file is missing. *)
Definition noneMissing {J} (W : World J) : Prop :=
  (forall evs o e, Req evs o = inl e -> request.Title e <> "Not Found")
  /\ (forall body, bindDirOrFile body <> BindError ErrRemoteDocDoesNotExist).

(** The options of the same job: only [fileOpts], and the references parsed
    from the values, may differ. *)
Definition sameJob (o o' : SendOptions) : Prop :=
  DocID o' = DocID o /\ DocType o' = DocType o /\ Type_ o' = Type_ o
  /\ Recipients o' = Recipients o /\ Path o' = Path o /\ DocRev o' = DocRev o
  /\ Selector o' = Selector o /\ Values_ o' = Values_ o.

(** The patch [generateDirOrFilePatch] makes of a file. *)
Definition patchOfFile {K : consts.t} (fileDoc : vfs.FileDoc) : jsonapi.Document :=
  jsonapi.ObjectData (jsonapi.mkObject (consts.Files K) (vfs.ID fileDoc)
    (vfs.mkDocPatch (vfs.DocName fileDoc) (vfs.DirID fileDoc)
       (vfs.Tags fileDoc) (vfs.UpdatedAt fileDoc))
    (vfs.Rev fileDoc)).

(** What one round does to the content, in terms of the events it adds:
    nothing is closed, and the content is opened at most once, when it was
    not set and is set afterwards. *)
Definition roundKeeps {J} (st st' : State (J:=J)) : Prop :=
  exists evs, events st' = events st ++ evs
    /\ closed evs = 0
    /\ ((fileIsSet (opts st') = fileIsSet (opts st) /\ opened evs = 0)
        \/ (fileIsSet (opts st) = false /\ fileIsSet (opts st') = true
            /\ opened evs = 1)).

(** A call that keeps the content as one round should: whatever the state,
    it ends in a state that [roundKeeps], and what it returns satisfies [P]. *)
Definition keeps {J A} (m : M (J:=J) A) (P : A -> Prop) : Prop :=
  forall st,
    roundKeeps st (final (m st))
    /\ match m st with
       | Ret a _ => P a
       | Panic _ => True
       end.

(** The value a reference was parsed from: its type, the separator, its
    id. *)
Definition valueOf (ref : couchdb.DocReference) : string :=
  String.append (couchdb.Type_ ref)
    (String.append permissions.RefSep (couchdb.ID ref)).

(** A value of a rule has exactly two parts. *)
Definition twoParts (value : string) : bool :=
  Nat.eqb (length (Split value permissions.RefSep)) 2.

(** What one value gives: a reference when it has exactly two parts. *)
Definition parseValue (value : string) : list couchdb.DocReference :=
  match Split value permissions.RefSep with
  | [t; i] => [couchdb.mkRef t i]
  | _ => []
  end.

(** The requests of the loops, as the code builds them. *)
Definition jsonHeaders (rec : RecipientInfo) : gmap string string :=
  <["Authorization" := String.append "Bearer " (Token rec)]>
  (<["Accept" := "application/json"]>
  (<["Content-Type" := "application/json"]> ∅)).

Definition docRequest {J} (method path : string)
  (m : gmap string (couchdb.jvalue J)) (rec : RecipientInfo)
  : request.Options J :=
  request.mkOptions (URL rec) (Scheme rec) method path (jsonHeaders rec) ∅
    (request.JSONBody m) true.

Definition dirRequest {J} {K : consts.t} {W : World J} (path : string)
  (dirDoc : vfs.dir.DirDoc) (parentID : string) (rec : RecipientInfo)
  : request.Options J :=
  request.mkOptions (URL rec) (Scheme rec) http.MethodPost path
    (<[echo.HeaderAuthorization := String.append "Bearer " (Token rec)]>
     (<[echo.HeaderContentType := echo.MIMEApplicationJSON]> ∅))
    (<[consts.QueryParamDirID K := [parentID]]>
     (<[consts.QueryParamUpdatedAt K :=
          [FormatTime (vfs.dir.CreatedAt dirDoc)]]>
     (<[consts.QueryParamCreatedAt K :=
          [FormatTime (vfs.dir.CreatedAt dirDoc)]]>
     (<[consts.QueryParamType K := [consts.DirType K]]>
     (<[consts.QueryParamName K := [vfs.dir.DocName dirDoc]]>
     (<[consts.QueryParamTags K :=
          [Join (elems (vfs.dir.Tags dirDoc)) (consts.TagSeparator K)]]>
        ∅))))))
    request.NoBody true.

Definition refsRequest {J} {K : consts.t} (method : string) (docID : string)
  (refs : slice couchdb.DocReference) (rec : RecipientInfo)
  : request.Options J :=
  request.mkOptions (URL rec) (Scheme rec) method
    (if String.eqb method http.MethodPost
     then String.append "/files/"
            (String.append docID "/relationships/referenced_by")
     else String.append "/sharings/files/"
            (String.append docID "/referenced_by"))
    (<[echo.HeaderAuthorization := String.append "Bearer " (Token rec)]>
     (<[echo.HeaderContentType := consts.ContentType K]> ∅))
    ∅ (request.DocumentBody (jsonapi.RefsData refs)) true.

(** The content a round sends: that of the options once it is set, else
    the one the file system opens. *)
Definition contentFor (o : SendOptions) (opening : error + vfs.File)
  : option vfs.File :=
  if fileIsSet o then content <$> fileOpts o
  else match opening with
       | inr h => Some h
       | inl _ => None
       end.

(** The patch [generateDirOrFilePatch] makes of a directory. *)
Definition patchOfDir {K : consts.t} (dirDoc : vfs.dir.DirDoc)
  : jsonapi.Document :=
  jsonapi.ObjectData (jsonapi.mkObject (consts.Files K) (vfs.dir.ID dirDoc)
    (vfs.mkDocPatch (vfs.dir.DocName dirDoc) (vfs.dir.DirID dirDoc)
       (vfs.dir.Tags dirDoc) (vfs.dir.UpdatedAt dirDoc))
    (vfs.dir.Rev dirDoc)).

(** * Scenarios

    Concrete constants, recipients, documents and worlds, on which the
    statements below are run. *)

Module Scenario.

Definition K1 : consts.t :=
  consts.mk "io.cozy.files" "directory" "file" "io.cozy.files.root-dir"
    "io.cozy.sharings.shared-with-me-dir" "referenced_by"
    "type" "name" "executable" "created_at" "updated_at" "referenced_by"
    "dir_id" "rev" "tags" "," "application/vnd.api+json".

Definition r1 : RecipientInfo := mkRecipient "r1.example" "https" "token1".
Definition r2 : RecipientInfo := mkRecipient "r2.example" "https" "token2".

(** A world whose recipients answer by the request alone, with one answer
    of the file system to every opening. *)
Definition world (req : request.Options unit -> request.Error + string)
  (open : error + vfs.File)
  (read : string -> error + couchdb.JSONDoc unit)
  (bound : string -> Bound) : World unit :=
  mkWorld unit (fun _ o => req o) (fun _ _ => open) (fun _ _ => None)
    (fun _ _ _ => inl (ErrorNew "not read"))
    read bound string_of_list_byte (fun _ => "") (fun _ => "") (fun _ => "").

Definition notFound : request.Error := request.mkError "Not Found" "404".
Definition serverError : request.Error :=
  request.mkError "Internal Server Error" "500".

(** Every recipient answers every request. *)
Definition allOK (o : request.Options unit) : request.Error + string :=
  inr "body".

(** Reading succeeds and the changing requests succeed, except that
    [r1] answers nothing but errors. *)
Definition r1Fails (e : request.Error) (o : request.Options unit)
  : request.Error + string :=
  if String.eqb (request.Domain o) (URL r1) then inl e else inr "body".

(** The reads find nothing; the other requests succeed. *)
Definition readsNotFound (o : request.Options unit) : request.Error + string :=
  if String.eqb (request.Method o) http.MethodGet then inl notFound
  else inr "body".

Definition docOptions (recipients : list RecipientInfo) : SendOptions :=
  mkSendOptions "doc1" "io.cozy.events" "" recipients
    "/sharings/doc/io.cozy.events/doc1" "" "" [] None None.

Definition fileOptionsOf (recipients : list RecipientInfo) : SendOptions :=
  mkSendOptions "file1" "io.cozy.files" "file" recipients
    "/sharings/doc/io.cozy.files/file1" "" "" [] None None.

Definition start (o : SendOptions) : State (J:=unit) := mkState o [].

Definition st_doc : State (J:=unit) := start (docOptions [r1]).
Definition st_file : State (J:=unit) := start (fileOptionsOf [r1]).
Definition dirOptions (recipients : list RecipientInfo) : SendOptions :=
  mkSendOptions "dir1" "io.cozy.files" "directory" recipients
    "/sharings/doc/io.cozy.files/dir1" "" "" [] None None.

Definition st_dir : State (J:=unit) := start (dirOptions [r1; r2]).

Definition localDoc : couchdb.JSONDoc unit :=
  couchdb.mkJSONDoc
    (<["title" := couchdb.JString "new"]>
     (<["_rev" := couchdb.JString "2-b"]>
     (<["_id" := couchdb.JString "doc1"]> ∅))) "io.cozy.events".

Definition remoteDoc : couchdb.JSONDoc unit :=
  couchdb.mkJSONDoc
    (<["title" := couchdb.JString "old"]>
     (<["_rev" := couchdb.JString "1-a"]>
     (<["_id" := couchdb.JString "doc1"]> ∅))) "io.cozy.events".

(** A remote document that was read but has no [_rev]. *)
Definition remoteDocNoRev : couchdb.JSONDoc unit :=
  couchdb.mkJSONDoc
    (<["title" := couchdb.JString "old"]> ∅) "io.cozy.events".

Definition localFile : vfs.FileDoc :=
  vfs.mkFileDoc "file1" "3-c" "photo.jpg" "dir1" (Some ["a"])
    [Byte.x01; Byte.x02] "image/jpeg" 2%Z false 0%Z 0%Z None.

(** The file at the recipient, with another content. *)
Definition remoteFile : vfs.FileDoc :=
  vfs.mkFileDoc "file1" "1-a" "photo.jpg" "dir1" (Some ["a"])
    [Byte.x03] "image/jpeg" 1%Z false 0%Z 0%Z None.

Definition boundFile (f : vfs.FileDoc) (body : string) : Bound :=
  BindDoc (Some (vfs.mkDirOrFileDoc None (Some f))).

Definition localDir : vfs.dir.DirDoc :=
  vfs.dir.mkDirDoc "dir1" "2-b" "album" "parent" None 0%Z 0%Z.

Definition remoteDir : vfs.dir.DirDoc :=
  vfs.dir.mkDirDoc "dir1" "1-a" "album" "parent" None 0%Z 0%Z.

Definition boundDir (d : vfs.dir.DirDoc) (body : string) : Bound :=
  BindDoc (Some (vfs.mkDirOrFileDoc (Some d) None)).

Definition readDoc (d : couchdb.JSONDoc unit) (body : string)
  : error + couchdb.JSONDoc unit := inr d.

Definition noBound (body : string) : Bound := BindPanic.

Definition noRead (body : string) : error + couchdb.JSONDoc unit :=
  inl (ErrorNew "not read").

Definition refA : couchdb.DocReference := couchdb.mkRef "io.cozy.albums" "A".
Definition refB : couchdb.DocReference := couchdb.mkRef "io.cozy.albums" "B".

(** A sharing by reference of the albums [A] and [B]. *)
Definition albumOptions : SendOptions :=
  mkSendOptions "file1" "io.cozy.files" "file" [r1]
    "/sharings/doc/io.cozy.files/file1" "" "referenced_by"
    ["io.cozy.albums/A"; "io.cozy.albums/B"] None None.

Definition fileWith (refs : list couchdb.DocReference) : vfs.FileDoc :=
  vfs.mkFileDoc "file1" "1-a" "photo.jpg" "dir1" (Some ["a"])
    [Byte.x01; Byte.x02] "image/jpeg" 2%Z false 0%Z 0%Z (Some refs).

(** The recipients answer every request with their own address as body, so
    that what is bound from a body can differ from one recipient to the
    other. *)
Definition answersOwn (o : request.Options unit) : request.Error + string :=
  inr (request.Domain o).

(** The file at [r2], with another content and its own revision. *)
Definition remoteFile2 : vfs.FileDoc :=
  vfs.mkFileDoc "file1" "5-x" "photo.jpg" "dir1" (Some ["a"])
    [Byte.x04] "image/jpeg" 1%Z false 0%Z 0%Z None.

(** [r1] holds [f1] and the other recipients hold [f2]. *)
Definition boundBy (f1 f2 : vfs.FileDoc) (body : string) : Bound :=
  if String.eqb body (URL r1) then boundFile f1 body else boundFile f2 body.

(** [r1] does not have the file; the other requests succeed. *)
Definition r1Missing (o : request.Options unit) : request.Error + string :=
  if String.eqb (request.Domain o) (URL r1)
     && String.eqb (request.Method o) http.MethodGet
  then inl notFound
  else inr "body".

(** The file at a recipient that is up to date: the content, the name and
    the tags of [localFile]. *)
Definition sameFile : vfs.FileDoc :=
  vfs.mkFileDoc "file1" "4-d" "photo.jpg" "dir1" (Some ["a"])
    [Byte.x01; Byte.x02] "image/jpeg" 2%Z false 0%Z 0%Z None.

Definition st_files : State (J:=unit) := start (fileOptionsOf [r1; r2]).

(** References outside the scope of [albumOptions]. *)
Definition refX : couchdb.DocReference := couchdb.mkRef "io.cozy.contacts" "X".
Definition refY : couchdb.DocReference := couchdb.mkRef "io.cozy.contacts" "Y".

End Scenario.

(** * Properties *)

(** ** Splitting the values of a rule *)

Example Split_value : Split "io.cozy.albums/A" "/" = ["io.cozy.albums"; "A"].
Proof. reflexivity. Qed.

Example Split_three : Split "a/b/c" "/" = ["a"; "b"; "c"].
Proof. reflexivity. Qed.

Example Split_none : Split "album" "/" = ["album"].
Proof. reflexivity. Qed.

Example Split_long_separator : Split "aaa" "aa" = [""; "a"].
Proof. reflexivity. Qed.

(** The values that do not split in two are passed over. *)
Example getSharedReferences_parses :
  fst (getSharedReferences (K:=Scenario.K1)
         (mkSendOptions "file1" "io.cozy.files" "file" [] "" ""
            "referenced_by" ["io.cozy.albums/A"; "album"; "a/b/c"] None None))
  = Some [couchdb.mkRef "io.cozy.albums" "A"].
Proof. reflexivity. Qed.

(** ** The reference filter and the missing references *)

Section ReferenceProperties.

Context {K : consts.t}.

Lemma matchesShared_existsb ref shared :
  matchesShared ref shared = existsb (sameID ref) shared.
Proof.
  induction shared as [|s shared IH]; simpl; [done|].
  unfold sameID at 1. destruct (String.eqb _ _); simpl; auto.
Qed.

Lemma extractLoop_filter refs shared res :
  extractLoop refs shared res =
  match List.filter (fun r => existsb (sameID r) shared) refs with
  | [] => res
  | l => Some (elems res ++ l)
  end.
Proof.
  revert res. induction refs as [|r refs IH]; intros res; simpl; [done|].
  rewrite matchesShared_existsb.
  destruct (existsb (sameID r) shared); simpl; [|apply IH].
  rewrite IH. unfold append; simpl.
  destruct (List.filter _ refs); simpl; [done|].
  by rewrite <- app_assoc.
Qed.

Lemma hasRefIn_existsb lr rref b :
  hasRefIn lr rref b = b || existsb (sameRef lr) rref.
Proof.
  revert b. induction rref as [|rr rref IH]; intros b; simpl.
  - by rewrite orb_false_r.
  - unfold sameRef at 1. destruct (_ && _); rewrite IH; simpl.
    + by rewrite orb_true_r.
    + done.
Qed.

Lemma missingLoop_filter lref rref res :
  missingLoop lref rref res =
  match List.filter (fun lr => negb (existsb (sameRef lr) rref)) lref with
  | [] => res
  | l => Some (elems res ++ l)
  end.
Proof.
  revert res. induction lref as [|lr lref IH]; intros res; simpl; [done|].
  rewrite hasRefIn_existsb. simpl.
  destruct (existsb (sameRef lr) rref); simpl; [apply IH|].
  rewrite IH. unfold append; simpl.
  destruct (List.filter _ lref); simpl; [done|].
  by rewrite <- app_assoc.
Qed.

Lemma parseRefs_not_nil values acc :
  is_nil acc = false -> is_nil (parseRefs values acc) = false.
Proof.
  revert acc.
  induction values as [|v values IH]; intros acc Hacc; cbn [parseRefs].
  - done.
  - destruct (Split v permissions.RefSep) as [|t [|i [|x l]]];
      apply IH; done.
Qed.

(** The references of the scope are parsed once: a second call gives the
    same list and leaves the options as they are. *)
Lemma getSharedReferences_again opts :
  getSharedReferences (snd (getSharedReferences opts)) =
  getSharedReferences opts.
Proof.
  unfold getSharedReferences.
  destruct (is_nil (sharedRefs opts) && _) eqn:E; simpl; [|by rewrite E].
  rewrite parseRefs_not_nil; done.
Qed.

Lemma extractRelevantReferences_fst opts refs :
  fst (extractRelevantReferences opts refs) =
  appended (List.filter
    (fun r => existsb (sameID r) (elems (fst (getSharedReferences opts))))
    (elems refs)).
Proof.
  unfold extractRelevantReferences.
  destruct (getSharedReferences opts) as [shared o']; simpl.
  rewrite extractLoop_filter. by destruct (List.filter _ _).
Qed.

Lemma extractRelevantReferences_snd opts refs :
  snd (extractRelevantReferences opts refs) =
  snd (getSharedReferences opts).
Proof.
  unfold extractRelevantReferences.
  by destruct (getSharedReferences opts).
Qed.

Lemma elems_appended {A} (l : list A) : elems (appended l) = l.
Proof. by destruct l. Qed.

Lemma appended_nil {A} (l : list A) : appended l = None <-> l = [].
Proof. by destruct l. Qed.

Lemma existsb_sameID ref scope :
  existsb (sameID ref) scope = true <->
  In (couchdb.ID ref) (map couchdb.ID scope).
Proof.
  rewrite existsb_exists, in_map_iff. unfold sameID.
  split.
  - intros [s [H1 H2]]. exists s. apply String.eqb_eq in H2. auto.
  - intros [s [H1 H2]]. exists s. rewrite String.eqb_eq. auto.
Qed.

Lemma findNewRefs_fst opts fileDoc remoteFileDoc :
  fst (findNewRefs opts fileDoc remoteFileDoc) =
  let refs :=
    fst (extractRelevantReferences opts (vfs.ReferencedBy fileDoc)) in
  let remoteRefs :=
    fst (extractRelevantReferences opts (vfs.ReferencedBy remoteFileDoc)) in
  if Nat.ltb (len remoteRefs) (len refs)
  then findMissingRefs refs remoteRefs
  else None.
Proof.
  unfold findNewRefs.
  pose proof (extractRelevantReferences_snd opts (vfs.ReferencedBy fileDoc))
    as Hs.
  destruct (extractRelevantReferences opts (vfs.ReferencedBy fileDoc))
    as [refs o1]; simpl in Hs; subst o1.
  pose proof (extractRelevantReferences_fst (snd (getSharedReferences opts))
                (vfs.ReferencedBy remoteFileDoc)) as Hr.
  rewrite getSharedReferences_again in Hr.
  rewrite <- extractRelevantReferences_fst in Hr.
  destruct (extractRelevantReferences (snd _) _) as [remoteRefs o2].
  simpl in Hr; subst remoteRefs. cbn zeta. simpl fst at 2.
  by destruct (Nat.ltb _ _).
Qed.

(** C7: [extractRelevantReferences] returns exactly the references of
    [allRefs] whose [ID] is the [ID] of some reference of the sharing scope,
    in the order of [allRefs]; the [Type] of a reference is not looked at,
    so that two scopes with the same ids select the same references. *)
Theorem extractRelevantReferences_exact opts allRefs :
  let scope := elems (fst (getSharedReferences opts)) in
  let res := elems (fst (extractRelevantReferences opts allRefs)) in
  res = List.filter (fun ref => existsb (sameID ref) scope) (elems allRefs)
  /\ (forall ref, In ref res <->
        In ref (elems allRefs) /\
        exists sharedRef,
          In sharedRef scope /\ couchdb.ID ref = couchdb.ID sharedRef)
  /\ sublist res (elems allRefs)
  /\ (forall opts',
        (forall id,
           In id (map couchdb.ID (elems (fst (getSharedReferences opts'))))
           <-> In id (map couchdb.ID scope)) ->
        elems (fst (extractRelevantReferences opts' allRefs)) = res).
Proof.
  intros scope res.
  assert (Hres : res = List.filter (fun ref => existsb (sameID ref) scope)
                         (elems allRefs)).
  { unfold res. by rewrite extractRelevantReferences_fst, elems_appended. }
  split; [exact Hres|]. split; [|split].
  - intros ref. rewrite Hres, filter_In, existsb_exists.
    unfold sameID. split.
    + intros [Hin [s [Hs He]]]. apply String.eqb_eq in He. eauto.
    + intros [Hin [s [Hs He]]]. split; [done|]. exists s.
      by rewrite String.eqb_eq.
  - rewrite Hres. clear. induction (elems allRefs) as [|r l IH]; simpl.
    + constructor.
    + destruct (existsb _ _); by constructor.
  - intros opts' Hids.
    rewrite extractRelevantReferences_fst, elems_appended, Hres.
    apply filter_ext_in. intros r _.
    apply eq_true_iff_eq. rewrite !existsb_sameID. apply Hids.
Qed.

Lemma findNewRefs_appended opts fileDoc remoteFileDoc :
  fst (findNewRefs opts fileDoc remoteFileDoc)
  = appended (elems (fst (findNewRefs opts fileDoc remoteFileDoc))).
Proof.
  rewrite findNewRefs_fst. cbn zeta.
  destruct (Nat.ltb _ _); [|done].
  unfold findMissingRefs. rewrite missingLoop_filter.
  by destruct (List.filter _ _).
Qed.

(** C6: the relevant references of a file are those whose [ID] is the [ID]
    of a reference of the sharing scope.  With no more relevant references
    locally than remotely, [findNewRefs] has nothing to add (nil); otherwise
    it returns the relevant local references that no relevant remote
    reference equals in both [ID] and [Type], in their order; and the result
    is nil exactly when it is empty, so that the test [refs != nil] of the
    caller is a test of emptiness. *)
Theorem findNewRefs_missing opts fileDoc remoteFileDoc :
  let scope := elems (fst (getSharedReferences opts)) in
  let relevant := fun refs : slice couchdb.DocReference =>
    List.filter (fun ref => existsb (sameID ref) scope) (elems refs) in
  let localRelevant := relevant (vfs.ReferencedBy fileDoc) in
  let remoteRelevant := relevant (vfs.ReferencedBy remoteFileDoc) in
  let res := fst (findNewRefs opts fileDoc remoteFileDoc) in
  (length localRelevant <= length remoteRelevant -> res = None)
  /\ (length remoteRelevant < length localRelevant ->
      elems res =
      List.filter (fun lr => negb (existsb (sameRef lr) remoteRelevant))
        localRelevant)
  /\ (res = None <-> elems res = [])
  /\ (forall ref, In ref (elems res) ->
        In ref (elems (vfs.ReferencedBy fileDoc))
        /\ exists sharedRef,
             In sharedRef scope /\ couchdb.ID ref = couchdb.ID sharedRef).
Proof.
  intros scope relevant localRelevant remoteRelevant res.
  assert (Hrel : forall refs,
            elems (fst (extractRelevantReferences opts refs)) = relevant refs).
  { intros refs. by rewrite extractRelevantReferences_fst, elems_appended. }
  assert (Hres : res =
    if Nat.ltb (length remoteRelevant) (length localRelevant)
    then appended (List.filter
           (fun lr => negb (existsb (sameRef lr) remoteRelevant))
           localRelevant)
    else None).
  { unfold res. rewrite findNewRefs_fst. cbn zeta. unfold len.
    rewrite !Hrel. fold localRelevant remoteRelevant.
    destruct (Nat.ltb _ _); [|done].
    unfold findMissingRefs. rewrite !Hrel. fold localRelevant remoteRelevant.
    rewrite missingLoop_filter. by destruct (List.filter _ _). }
  rewrite Hres. split; [|split; [|split]].
  - intros Hle. destruct (Nat.ltb_spec (length remoteRelevant)
                            (length localRelevant)); [lia|done].
  - intros Hlt. destruct (Nat.ltb_spec (length remoteRelevant)
                            (length localRelevant)); [|lia].
    apply elems_appended.
  - destruct (Nat.ltb _ _); [|done].
    rewrite elems_appended. apply appended_nil.
  - intros ref. destruct (Nat.ltb _ _); [|done].
    rewrite elems_appended. intros Hin.
    apply filter_In in Hin as [Hin _].
    apply filter_In in Hin as [Hin Hscope]. split; [done|].
    apply existsb_exists in Hscope as (sharedRef & Hs & He).
    apply String.eqb_eq in He. eauto.
Qed.

(** C8: [getParentDirID].  Without a selector the root directory is refused,
    an object that is one of the accepted ids goes to the shared-with-me
    directory and any other object keeps its parent; with a selector the
    result is the shared-with-me directory whatever the object. *)
Theorem getParentDirID_cases opts dirID :
  (Selector opts = "" /\ DocID opts = consts.RootDirID K ->
     exists err, getParentDirID opts dirID = ("", Some err))
  /\ (Selector opts = "" /\ DocID opts <> consts.RootDirID K /\
      In (DocID opts) (Values_ opts) ->
     getParentDirID opts dirID = (consts.SharedWithMeDirID K, None))
  /\ (Selector opts = "" /\ DocID opts <> consts.RootDirID K /\
      ~ In (DocID opts) (Values_ opts) ->
     getParentDirID opts dirID = (dirID, None))
  /\ (Selector opts <> "" ->
     getParentDirID opts dirID = (consts.SharedWithMeDirID K, None)).
Proof.
  assert (Hacc : forall id l, inAccepted id l = true <-> In id l).
  { intros id l. induction l as [|a l IH]; simpl; [by split|].
    destruct (String.eqb_spec id a) as [->|Hne]; [by intuition|].
    rewrite IH. split; [auto|]. intros [Heq|Hin]; [congruence|done]. }
  unfold getParentDirID, isShared. split; [|split; [|split]].
  - intros [Hs Hd]. rewrite Hs, Hd. simpl. rewrite String.eqb_refl. eauto.
  - intros (Hs & Hd & Hin). rewrite Hs. simpl.
    destruct (String.eqb_spec (DocID opts) (consts.RootDirID K)); [done|].
    apply Hacc in Hin. by rewrite Hin.
  - intros (Hs & Hd & Hin). rewrite Hs. simpl.
    destruct (String.eqb_spec (DocID opts) (consts.RootDirID K)); [done|].
    destruct (inAccepted _ _) eqn:E; [|done].
    apply Hacc in E. done.
  - intros Hs. destruct (String.eqb_spec (Selector opts) ""); done.
Qed.

End ReferenceProperties.

(** ** The dispatch *)

Section DispatchProperties.

Context {J : Type} `{EqDecision J} {K : consts.t} {W : World J}.

Implicit Types (st : State (J:=J)) (doc : couchdb.JSONDoc J).

Lemma since_app st evs o :
  since st (mkState o (events st ++ evs)) = evs.
Proof. unfold since; simpl. apply drop_app_length. Qed.

Lemma requestsOf_app (l1 l2 : list (Event J)) :
  requestsOf (l1 ++ l2) = requestsOf l1 ++ requestsOf l2.
Proof. unfold requestsOf. apply flat_map_app. Qed.

Lemma getDocAtRecipient_state doctype id rec st r st1 :
  getDocAtRecipient doctype id rec st = Ret r st1 ->
  exists o, st1 = mkState (opts st) (events st ++ [Request o])
            /\ request.Method o = http.MethodGet.
Proof.
  unfold getDocAtRecipient, bind, request_Req, ret. intros Heq.
  destruct (Req _ _); inversion Heq; subst; eauto.
Qed.

Lemma assertString_isString (v : option (couchdb.jvalue J)) st :
  isString v = true -> exists s, v = Some (couchdb.JString s)
                                  /\ assertString v st = Ret s st.
Proof. destruct v as [[s|j]|]; simpl; try discriminate. eauto. Qed.

Lemma assertString_panic (v : option (couchdb.jvalue J)) st :
  isString v = false -> assertString v st = Panic st.
Proof. destruct v as [[s|j]|]; simpl; try discriminate; done. Qed.

(** Putting back what was deleted gives the map back. *)
Lemma restore_fields (m : gmap string (couchdb.jvalue J)) i r :
  m !! "_id" = Some i -> m !! "_rev" = Some r ->
  <["_rev" := r]> (<["_id" := i]> (bodyOf m)) = m.
Proof.
  intros Hi Hr. unfold bodyOf. apply map_eq. intros k.
  destruct (decide (k = "_rev")) as [->|Hk1].
  - by rewrite lookup_insert_eq.
  - rewrite lookup_insert_ne by done.
    destruct (decide (k = "_id")) as [->|Hk2].
    + by rewrite lookup_insert_eq.
    + rewrite lookup_insert_ne by done.
      rewrite lookup_delete_ne by done. by rewrite lookup_delete_ne.
Qed.

(** [docHasChanges] returns when the three assertions hold: it tells whether
    the bodies differ and gives the local document back as it was. *)
Lemma docHasChanges_returns newDoc doc st :
  isString (couchdb.M newDoc !! "_id") = true ->
  isString (couchdb.M newDoc !! "_rev") = true ->
  isString (couchdb.M doc !! "_rev") = true ->
  exists doc',
    docHasChanges newDoc doc st =
      Ret (negb (bool_decide (bodyOf (couchdb.M newDoc)
                              = bodyOf (couchdb.M doc))), newDoc, doc') st
    /\ couchdb.M doc' !! "_rev" = couchdb.M doc !! "_rev".
Proof.
  intros H1 H2 H3.
  destruct (assertString_isString _ st H1) as (i & Hi & Ai).
  destruct (assertString_isString _ st H2) as (r & Hr & Ar).
  destruct (assertString_isString _ st H3) as (r' & Hr' & Ar').
  unfold docHasChanges, bind. rewrite Ai, Ar, Ar'. unfold ret.
  fold (bodyOf (couchdb.M newDoc)). fold (bodyOf (couchdb.M doc)).
  rewrite restore_fields by done.
  eexists. split.
  - destruct newDoc; reflexivity.
  - simpl. by rewrite lookup_insert_eq.
Qed.

(** [docHasChanges] panics as soon as one of the three assertions fails. *)
Lemma docHasChanges_panics newDoc doc st :
  isString (couchdb.M newDoc !! "_id")
  && isString (couchdb.M newDoc !! "_rev")
  && isString (couchdb.M doc !! "_rev") = false ->
  docHasChanges newDoc doc st = Panic st.
Proof.
  intros Hf. unfold docHasChanges, bind.
  destruct (isString (couchdb.M newDoc !! "_id")) eqn:H1.
  2:{ by rewrite assertString_panic. }
  destruct (assertString_isString _ st H1) as (i & Hi & ->).
  destruct (isString (couchdb.M newDoc !! "_rev")) eqn:H2.
  2:{ by rewrite assertString_panic. }
  destruct (assertString_isString _ st H2) as (r & Hr & ->).
  simpl in Hf. by rewrite assertString_panic.
Qed.

Lemma issued_app st os (evs : list (Event J)) :
  issued st (mkState os (events st ++ evs))
  = List.filter changing (requestsOf evs).
Proof. unfold issued. by rewrite since_app. Qed.

(** The changing requests of a run whose events are those of [st] followed
    by new ones, the first of them a read [Hget]. *)
Ltac issued_after Hget :=
  rewrite <- ?app_assoc; rewrite issued_app; simpl;
  unfold changing; rewrite ?Hget; simpl.

(** C3, as the code has it: when the remote document was read and the three
    asserted fields are strings, equal bodies (without [_id] and [_rev]) send
    nothing to the recipient, and different bodies send exactly one [PUT],
    whose body is the local document with the [_rev] of the remote one. *)
Theorem UpdateDoc_body_equal_or_put doc rec st remoteDoc st1 :
  getDocAtRecipient (DocType (opts st)) (DocID (opts st)) rec st
    = Ret (inr remoteDoc) st1 ->
  isString (couchdb.M doc !! "_id") = true ->
  isString (couchdb.M doc !! "_rev") = true ->
  isString (couchdb.M remoteDoc !! "_rev") = true ->
  (bodyOf (couchdb.M doc) = bodyOf (couchdb.M remoteDoc) ->
     UpdateDoc_body doc rec st = Ret doc st1 /\ issued st st1 = [])
  /\ (bodyOf (couchdb.M doc) <> bodyOf (couchdb.M remoteDoc) ->
     exists rev st' o,
       couchdb.M remoteDoc !! "_rev" = Some (couchdb.JString rev)
       /\ UpdateDoc_body doc rec st = Ret (setRev doc rev) st'
       /\ issued st st' = [o]
       /\ request.Method o = http.MethodPut
       /\ request.Domain o = URL rec
       /\ request.Path o = Path (opts st)
       /\ request.Body_ o =
            request.JSONBody
              (<["_rev" := couchdb.JString rev]> (couchdb.M doc))).
Proof.
  intros Hfetch H1 H2 H3.
  destruct (getDocAtRecipient_state _ _ _ _ _ _ Hfetch) as (o0 & -> & Hget).
  destruct (docHasChanges_returns doc remoteDoc
              (mkState (opts st) (events st ++ [Request o0])) H1 H2 H3)
    as (doc' & Hchg & Hrev').
  unfold UpdateDoc_body, bind, getOpts. rewrite Hfetch, Hchg. split.
  - intros Heq. rewrite bool_decide_eq_true_2 by done. simpl.
    split; [done|]. by issued_after Hget.
  - intros Hne. rewrite bool_decide_eq_false_2 by done. simpl.
    rewrite Hrev'.
    destruct (assertString_isString _
                (mkState (opts st) (events st ++ [Request o0])) H3)
      as (rev & Hrev & ->).
    exists rev. unfold sendDocToRecipient, bind, getOpts, request_Req, ret.
    simpl. destruct (Req _ _); simpl; unfold logError, emit, bind, ret; simpl;
      eexists; eexists; (split; [done|]); (split; [reflexivity|]);
      (split; [issued_after Hget; reflexivity|]); done.
Qed.

Lemma UpdateDoc_body_returns doc rec st remoteDoc st1 :
  getDocAtRecipient (DocType (opts st)) (DocID (opts st)) rec st
    = Ret (inr remoteDoc) st1 ->
  isString (couchdb.M doc !! "_id") = true ->
  isString (couchdb.M doc !! "_rev") = true ->
  isString (couchdb.M remoteDoc !! "_rev") = true ->
  exists doc' st', UpdateDoc_body doc rec st = Ret doc' st'.
Proof.
  intros Hfetch H1 H2 H3.
  destruct (docHasChanges_returns doc remoteDoc st1 H1 H2 H3)
    as (doc' & Hchg & Hrev').
  unfold UpdateDoc_body, bind, getOpts. rewrite Hfetch, Hchg.
  destruct (negb _); simpl; [|by eauto].
  rewrite Hrev'. destruct (assertString_isString _ st1 H3) as (rev & _ & ->).
  unfold sendDocToRecipient, bind, getOpts, request_Req, ret. simpl.
  destruct (Req _ _); simpl; unfold logError, emit, bind, ret; eauto.
Qed.

(** C10: the comparison of two documents and the two paths that use a remote
    document read their fields by assertion.  With a string under [_id] and
    [_rev] locally and under [_rev] remotely the comparison and one round of
    [UpdateDoc] return; with a string under the remote [_rev] one round of
    [DeleteDoc] returns; failing that the round panics right after the read,
    with nothing logged and no error added for the recipient. *)
Theorem assertions_return_or_panic doc rec errFinal st remoteDoc st1 :
  getDocAtRecipient (DocType (opts st)) (DocID (opts st)) rec st
    = Ret (inr remoteDoc) st1 ->
  let strings :=
    isString (couchdb.M doc !! "_id") && isString (couchdb.M doc !! "_rev")
    && isString (couchdb.M remoteDoc !! "_rev") in
  (strings = true ->
     (exists r, docHasChanges doc remoteDoc st1 = Ret r st1)
     /\ (exists doc' st', UpdateDoc_body doc rec st = Ret doc' st'))
  /\ (strings = false ->
     docHasChanges doc remoteDoc st1 = Panic st1
     /\ UpdateDoc_body doc rec st = Panic st1)
  /\ (isString (couchdb.M remoteDoc !! "_rev") = true ->
     exists e st', DeleteDoc_body rec errFinal st = Ret e st')
  /\ (isString (couchdb.M remoteDoc !! "_rev") = false ->
     DeleteDoc_body rec errFinal st = Panic st1)
  /\ since st st1 = [Request (J:=J) (request.mkOptions (URL rec) (Scheme rec)
       http.MethodGet
       (String.append "/data/" (String.append (DocType (opts st))
          (String.append "/" (DocID (opts st)))))
       (<["Authorization" := bearer (Token rec)]>
        (<["Accept" := "application/json"]>
        (<["Content-Type" := "application/json"]> ∅)))
       ∅ request.NoBody false)].
Proof.
  intros Hfetch strings.
  split; [|split; [|split; [|split]]].
  - intros Hs. unfold strings in Hs.
    apply andb_true_iff in Hs as [Hs H3].
    apply andb_true_iff in Hs as [H1 H2].
    split.
    + destruct (docHasChanges_returns doc remoteDoc st1 H1 H2 H3)
        as (doc' & -> & _). eauto.
    + by eapply UpdateDoc_body_returns.
  - intros Hs. split; [by apply docHasChanges_panics|].
    unfold UpdateDoc_body, bind, getOpts. rewrite Hfetch.
    by rewrite docHasChanges_panics.
  - intros H3. unfold DeleteDoc_body, bind, getOpts. rewrite Hfetch.
    destruct (assertString_isString _ st1 H3) as (rev & _ & ->).
    unfold request_Req, ret. destruct (Req _ _); eauto.
  - intros H3. unfold DeleteDoc_body, bind, getOpts. rewrite Hfetch.
    by rewrite assertString_panic.
  - revert Hfetch. unfold getDocAtRecipient, bind, request_Req, ret.
    intros Hfetch. destruct (Req _ _); inversion Hfetch; subst;
      apply since_app.
Qed.

(** *** The content stream and the requests that carry it *)

Lemma getDirOrFileMetadataAtRecipient_state id rec st r st1 :
  getDirOrFileMetadataAtRecipient id rec st = Ret r st1 ->
  exists o, st1 = mkState (opts st) (events st ++ [Request o])
            /\ request.Method o = http.MethodGet.
Proof.
  unfold getDirOrFileMetadataAtRecipient, bind, request_Req, ret, panic.
  intros Heq. destruct (Req _ _) as [e|body].
  - destruct (String.eqb _ _); inversion Heq; subst; eauto.
  - destruct (bindDirOrFile body) as [|err|[d|]]; try discriminate;
      try destruct (vfs.Refine d); inversion Heq; subst; eauto.
Qed.

Lemma sameJob_refl o : sameJob o o.
Proof. by repeat split. Qed.

Lemma sameJob_trans o1 o2 o3 : sameJob o1 o2 -> sameJob o2 o3 -> sameJob o1 o3.
Proof. unfold sameJob. intuition congruence. Qed.

Lemma sameJob_getSharedReferences o :
  sameJob o (snd (getSharedReferences o))
  /\ fileOpts (snd (getSharedReferences o)) = fileOpts o.
Proof.
  unfold getSharedReferences. destruct (_ && _); simpl; split;
    auto using sameJob_refl. by repeat split.
Qed.

Lemma fillDetailsAndOpenFile_set fileDoc st :
  fileIsSet (opts st) = true ->
  fillDetailsAndOpenFile fileDoc st = Ret None st.
Proof.
  intros Hset. unfold fillDetailsAndOpenFile, bind, getOpts. by rewrite Hset.
Qed.

Lemma fillDetailsAndOpenFile_opens fileDoc st h :
  fileIsSet (opts st) = false ->
  OpenFile (events st) fileDoc = inr h ->
  exists o' fo,
    fillDetailsAndOpenFile fileDoc st
    = Ret None (mkState o' (events st ++ [Open fileDoc (inr h)]))
    /\ sameJob (opts st) o'
    /\ fileOpts o' = Some fo /\ set fo = true /\ content fo = h.
Proof.
  intros Hset Hopen.
  unfold fillDetailsAndOpenFile, bind, getOpts. rewrite Hset.
  destruct (bool_decide _); unfold withOpts, fs_OpenFile, modifyOpts, ret;
    simpl.
  - pose proof (sameJob_getSharedReferences (opts st)) as [Hjob _].
    destruct (getSharedReferences (opts st)) as [refs o1]; simpl in *.
    rewrite Hopen. eexists; eexists; split; [reflexivity|].
    split; [|by simpl]. unfold sameJob in *; simpl; intuition.
  - rewrite Hopen. eexists; eexists; split; [reflexivity|].
    split; [|by simpl]. by repeat split.
Qed.

Lemma fillDetailsAndOpenFile_fails fileDoc st e :
  fileIsSet (opts st) = false ->
  OpenFile (events st) fileDoc = inl e ->
  exists o',
    fillDetailsAndOpenFile fileDoc st
    = Ret (Some e) (mkState o' (events st ++ [Open fileDoc (inl e)]))
    /\ sameJob (opts st) o' /\ fileOpts o' = fileOpts (opts st).
Proof.
  intros Hset Hopen.
  unfold fillDetailsAndOpenFile, bind, getOpts. rewrite Hset.
  destruct (bool_decide _); unfold withOpts, fs_OpenFile, modifyOpts, ret;
    simpl.
  - pose proof (sameJob_getSharedReferences (opts st)) as [Hjob Hf].
    destruct (getSharedReferences (opts st)) as [refs o1]; simpl in *.
    rewrite Hopen. eauto.
  - rewrite Hopen. eauto using sameJob_refl.
Qed.

(** The request of [sendFileToRecipient] once the content is set: to the
    recipient, on the path of the job, with the content as body and, when
    [DocRev] is not empty, that revision as the last value of [rev]. *)
Lemma sendFileToRecipient_sends recipient method st fo :
  fileOpts (opts st) = Some fo -> set fo = true ->
  exists r o o' fo',
    sendFileToRecipient recipient method st
    = Ret r (mkState o' (events st ++ [Request o]))
    /\ sameJob (opts st) o'
    /\ fileOpts o' = Some fo' /\ set fo' = true /\ content fo' = content fo
    /\ request.Method o = method
    /\ request.Domain o = URL recipient
    /\ request.Path o = Path (opts st)
    /\ request.Body_ o = request.FileBody (content fo)
    /\ (DocRev (opts st) <> "" ->
        last (default [] (request.Queries o !! "rev"))
        = Some (DocRev (opts st))).
Proof.
  intros Hfo Hset.
  unfold sendFileToRecipient, bind, getOpts. rewrite Hfo. simpl.
  rewrite Hset. simpl.
  destruct (String.eqb_spec (DocRev (opts st)) "") as [Hrev|Hrev]; simpl.
  - rewrite Hfo. simpl. unfold request_Req, ret.
    do 4 eexists. split; [reflexivity|]. simpl.
    repeat (split; [by auto using sameJob_refl|]). done.
  - unfold queries_Add, bind, getOpts, modifyOpts. rewrite Hfo. simpl.
    unfold request_Req, ret.
    do 4 eexists. split; [reflexivity|]. simpl.
    split; [by repeat split|].
    repeat (split; [done|]). intros _.
    unfold Values_Add. rewrite lookup_insert_eq. simpl. apply last_snoc.
Qed.

(** *** One round of [UpdateOrPatchFile] *)

Lemma getSharedReferences_set_DocRev r o :
  fst (getSharedReferences (set_DocRev r o)) = fst (getSharedReferences o).
Proof. unfold getSharedReferences. simpl. by destruct (_ && _). Qed.

Lemma findNewRefs_set_DocRev r o fileDoc remoteFileDoc :
  fst (findNewRefs (set_DocRev r o) fileDoc remoteFileDoc)
  = fst (findNewRefs o fileDoc remoteFileDoc).
Proof.
  rewrite !findNewRefs_fst. cbn zeta.
  by rewrite !extractRelevantReferences_fst, getSharedReferences_set_DocRev.
Qed.

Lemma findNewRefs_sameJob o fileDoc remoteFileDoc :
  sameJob o (snd (findNewRefs o fileDoc remoteFileDoc)).
Proof.
  unfold findNewRefs.
  pose proof (extractRelevantReferences_snd o (vfs.ReferencedBy fileDoc)) as H1.
  destruct (extractRelevantReferences o _) as [refs o1]. simpl in H1.
  pose proof (extractRelevantReferences_snd o1
                (vfs.ReferencedBy remoteFileDoc)) as H2.
  destruct (extractRelevantReferences o1 _) as [refs2 o2]. simpl in H2.
  assert (sameJob o o2).
  { subst. eapply sameJob_trans; apply sameJob_getSharedReferences. }
  by destruct (Nat.ltb _ _).
Qed.

(** X20: one round of [UpdateOrPatchFile] for a recipient that has the file
    [remoteFileDoc].  With different hashes, and a content that is set or
    opens, the round sends exactly one [PUT] of that content, with the
    revision of the recipient (when it is not empty) as the last [rev] of
    the query.  With equal hashes and
    another name or other tags, and a parent directory that resolves, it
    sends exactly one [PATCH] with that revision.  With all three equal it
    sends exactly one [POST] of the missing references when the sharing is
    by reference and [findNewRefs] is not empty, and no changing request
    otherwise. *)
Theorem UpdateOrPatchFile_body_classifies fileDoc recipient st dirDoc
  remoteFileDoc st1 :
  getDirOrFileMetadataAtRecipient (DocID (opts st)) recipient st
    = Ret (dirDoc, Some remoteFileDoc, None) st1 ->
  let md5 := EncodeToString (vfs.MD5Sum fileDoc) in
  let md5AtRec := EncodeToString (vfs.MD5Sum remoteFileDoc) in
  let delta := fst (findNewRefs (opts st) fileDoc remoteFileDoc) in
  let byReference :=
    bool_decide (Selector (opts st) = consts.SelectorReferencedBy K) in
  (md5 <> md5AtRec ->
   forall h,
   contentFor (opts st) (OpenFile (events st1) fileDoc) = Some h ->
   exists st' o,
     UpdateOrPatchFile_body fileDoc md5 recipient st = Ret tt st'
     /\ issued st st' = [o]
     /\ request.Method o = http.MethodPut
     /\ request.Domain o = URL recipient
     /\ request.Path o = Path (opts st)
     /\ request.Body_ o = request.FileBody h
     /\ (vfs.Rev remoteFileDoc <> "" ->
         last (default [] (request.Queries o !! "rev"))
         = Some (vfs.Rev remoteFileDoc)))
  /\ (md5 = md5AtRec ->
      fileHasChanges fileDoc remoteFileDoc = true ->
      snd (getParentDirID (opts st) (vfs.DirID fileDoc)) = None ->
      exists st' o,
        UpdateOrPatchFile_body fileDoc md5 recipient st = Ret tt st'
        /\ issued st st' = [o]
        /\ request.Method o = http.MethodPatch
        /\ request.Domain o = URL recipient
        /\ request.Path o = Path (opts st)
        /\ request.Body_ o = request.DocumentBody (patchOfFile fileDoc)
        /\ request.Queries o =
           <[consts.QueryParamDirID K :=
               [fst (getParentDirID (opts st) (vfs.DirID fileDoc))]]>
           (<[consts.QueryParamType K := [Type_ (opts st)]]>
           (<[consts.QueryParamRev K := [vfs.Rev remoteFileDoc]]> ∅)))
  /\ (md5 = md5AtRec ->
      fileHasChanges fileDoc remoteFileDoc = false ->
      byReference = true -> elems delta <> [] ->
      exists st' o,
        UpdateOrPatchFile_body fileDoc md5 recipient st = Ret tt st'
        /\ issued st st' = [o]
        /\ request.Method o = http.MethodPost
        /\ request.Domain o = URL recipient
        /\ request.Path o =
           String.append "/files/"
             (String.append (DocID (opts st)) "/relationships/referenced_by")
        /\ request.Body_ o = request.DocumentBody (jsonapi.RefsData delta))
  /\ (md5 = md5AtRec ->
      fileHasChanges fileDoc remoteFileDoc = false ->
      byReference = false \/ elems delta = [] ->
      exists st',
        UpdateOrPatchFile_body fileDoc md5 recipient st = Ret tt st'
        /\ issued st st' = []).
Proof.
  intros Hfetch md5 md5AtRec delta byReference.
  destruct (getDirOrFileMetadataAtRecipient_state _ _ _ _ _ Hfetch)
    as (o0 & -> & Hget).
  unfold UpdateOrPatchFile_body, bind, getOpts. rewrite Hfetch.
  simpl. fold md5AtRec.
  split; [|split; [|split]].
  - intros Hmd5 h Hopen.
    destruct (String.eqb_spec md5 md5AtRec) as [|_]; [done|].
    set (st2 := mkState (set_DocRev (vfs.Rev remoteFileDoc) (opts st))
                  (events st ++ [Request o0])).
    assert (exists o' fo evs,
      fillDetailsAndOpenFile fileDoc st2
      = Ret None (mkState o' (events st2 ++ evs))
      /\ requestsOf evs = []
      /\ sameJob (opts st2) o' /\ fileOpts o' = Some fo /\ set fo = true
      /\ content fo = h)
      as (o' & fo & evs & Hfill & Hevs & Hjob & Hfo & Hset & Hcontent).
    { unfold contentFor in Hopen.
      destruct (fileIsSet (opts st2)) eqn:Hs.
      - change (fileIsSet (opts st) = true) in Hs. rewrite Hs in Hopen.
        change (fileIsSet (opts st2) = true) in Hs.
        exists (opts st2). unfold fileIsSet in Hs.
        destruct (fileOpts (opts st2)) as [fo|] eqn:Hfo; [|done].
        change (fileOpts (opts st) = Some fo) in Hfo. rewrite Hfo in Hopen.
        change (fileOpts (opts st2) = Some fo) in Hfo.
        injection Hopen as Hopen.
        exists fo, []. rewrite fillDetailsAndOpenFile_set.
        + rewrite app_nil_r. destruct st2; auto 10 using sameJob_refl.
        + unfold fileIsSet. by rewrite Hfo.
      - change (fileIsSet (opts st) = false) in Hs. rewrite Hs in Hopen.
        destruct (OpenFile _ fileDoc) as [e|h'] eqn:Hopen'; [done|].
        injection Hopen as ->.
        destruct (fillDetailsAndOpenFile_opens fileDoc st2 h Hs Hopen')
          as (o' & fo & Hfill & Hjob & Hfo & Hset & Hc).
        exists o', fo, [Open fileDoc (inr h)]. auto 10. }
    rewrite Hfill.
    destruct (sendFileToRecipient_sends recipient http.MethodPut
                (mkState o' (events st2 ++ evs)) fo Hfo Hset)
      as (r & o & o'' & fo' & Hsend & Hjob' & _ & _ & _ & Hm & Hd & Hp & Hb & Hr).
    rewrite Hcontent in Hb. rewrite Hsend. simpl in *.
    destruct Hjob as (_ & _ & _ & _ & Hpath & Hrev & _).
    simpl in Hpath, Hrev. rewrite Hpath in Hp. rewrite Hrev in Hr.
    assert (Hiss : forall os l,
      issued st (mkState os
        ((((events st ++ [Request o0]) ++ evs) ++ [Request o]) ++ l))
      = List.filter changing (requestsOf ([Request o] ++ l))).
    { intros os l. rewrite <- !app_assoc, issued_app.
      rewrite !requestsOf_app, Hevs. simpl.
      unfold changing at 1. by rewrite Hget. }
    destruct r as [e|]; unfold logError, emit, ret; simpl.
    + exists (mkState o''
        ((((events st ++ [Request o0]) ++ evs) ++ [Request o]) ++
         [Log "[sharing] An error occurred while trying to share an update of file to a recipient" (Some e)])),
        o.
      split; [done|]. rewrite Hiss. simpl. unfold changing. rewrite Hm.
      simpl. done.
    + exists (mkState o''
        ((((events st ++ [Request o0]) ++ evs) ++ [Request o]) ++ [])),
        o.
      split; [by rewrite app_nil_r|]. rewrite Hiss. simpl.
      unfold changing. rewrite Hm. simpl. done.
  - intros Hmd5 Hchg Hparent. rewrite Hmd5, String.eqb_refl, Hchg. simpl.
    unfold sendPatchToRecipient, bind, getOpts, ret. simpl.
    change (getParentDirID (set_DocRev (vfs.Rev remoteFileDoc) (opts st))
              (vfs.DirID fileDoc))
      with (getParentDirID (opts st) (vfs.DirID fileDoc)).
    destruct (getParentDirID (opts st) (vfs.DirID fileDoc))
      as [parentID [e|]]; [done|]. simpl.
    unfold request_Req. simpl.
    destruct (Req _ _); unfold logError, emit, ret; simpl;
      eexists; eexists; (split; [reflexivity|]);
      (split; [issued_after Hget; reflexivity|]); done.
  - intros Hmd5 Hchg Hby Hdelta. rewrite Hmd5, String.eqb_refl, Hchg. simpl.
    fold byReference. rewrite Hby. unfold withOpts. simpl.
    pose proof (findNewRefs_set_DocRev (vfs.Rev remoteFileDoc) (opts st)
                  fileDoc remoteFileDoc) as Hfst.
    pose proof (findNewRefs_sameJob
                  (set_DocRev (vfs.Rev remoteFileDoc) (opts st))
                  fileDoc remoteFileDoc) as Hjob.
    destruct (findNewRefs (set_DocRev _ _) _ _) as [refs o2].
    simpl in Hfst, Hjob. fold delta in Hfst. subst refs.
    destruct delta as [l|] eqn:Hd; [|done]. simpl.
    unfold updateReferencesAtRecipient, bind, getOpts, request_Req, ret.
    simpl. destruct Hjob as (Hid & _). simpl in Hid. rewrite Hid.
    destruct (Req _ _); unfold logError, emit, ret; simpl;
      eexists; eexists; (split; [reflexivity|]);
      (split; [issued_after Hget; reflexivity|]); done.
  - intros Hmd5 Hchg Hno. rewrite Hmd5, String.eqb_refl, Hchg. simpl.
    fold byReference. destruct byReference eqn:Hby.
    + destruct Hno as [|Hdelta]; [done|]. unfold withOpts. simpl.
      pose proof (findNewRefs_set_DocRev (vfs.Rev remoteFileDoc) (opts st)
                    fileDoc remoteFileDoc) as Hfst.
      destruct (findNewRefs (set_DocRev _ _) _ _) as [refs o2].
      simpl in Hfst. fold delta in Hfst. subst refs.
      pose proof (findNewRefs_appended (opts st) fileDoc remoteFileDoc)
        as Hnil.
      fold delta in Hnil. rewrite Hdelta in Hnil.
      rewrite Hnil. simpl. unfold ret.
      eexists. split; [reflexivity|]. by issued_after Hget.
    + unfold ret. eexists. split; [reflexivity|]. by issued_after Hget.
Qed.

(** *** The creation path *)

Lemma opened_app (l1 l2 : list (Event J)) :
  opened (l1 ++ l2) = opened l1 + opened l2.
Proof. unfold opened. by rewrite List.filter_app, length_app. Qed.

Lemma closed_app (l1 l2 : list (Event J)) :
  closed (l1 ++ l2) = closed l1 + closed l2.
Proof. unfold closed. by rewrite List.filter_app, length_app. Qed.

(** The loop of [SendFile] over a content that is set: one [POST] to each
    recipient in turn, on the path of the job; nothing is opened or closed. *)
Lemma forEach_SendFile_body fileDoc recs st fo :
  fileOpts (opts st) = Some fo -> set fo = true ->
  exists st' evs fo',
    forEach recs (SendFile_body fileDoc) st = Ret tt st'
    /\ events st' = events st ++ evs
    /\ sameJob (opts st) (opts st')
    /\ fileOpts (opts st') = Some fo' /\ set fo' = true
    /\ content fo' = content fo
    /\ map request.Domain (requestsOf evs) = map URL recs
    /\ Forall (fun o => request.Method o = http.MethodPost
                        /\ request.Path o = Path (opts st)) (requestsOf evs)
    /\ opened evs = 0 /\ closed evs = 0.
Proof.
  revert st fo. induction recs as [|rec recs IH]; intros st fo Hfo Hset.
  - exists st, [], fo. simpl. rewrite app_nil_r.
    repeat (split; [by auto using sameJob_refl|]). done.
  - destruct (sendFileToRecipient_sends rec http.MethodPost st fo Hfo Hset)
      as (r & o & o' & fo' & Hsend & Hjob & Hfo' & Hset' & Hc & Hm & Hd & Hp
          & _).
    assert (exists l, (SendFile_body fileDoc rec st
                       = Ret tt (mkState o' ((events st ++ [Request o]) ++ l)))
                      /\ requestsOf l = [] /\ opened l = 0 /\ closed l = 0)
      as (l & Hbody & Hl & Hlo & Hlc).
    { unfold SendFile_body, bind. rewrite Hsend.
      destruct r; unfold logError, emit, ret; simpl.
      - eexists [_]. by repeat split.
      - exists []. by rewrite app_nil_r. }
    destruct (IH (mkState o' ((events st ++ [Request o]) ++ l)) fo' Hfo' Hset')
      as (st' & evs & fo'' & Hloop & Hev & Hjob' & Hfo'' & Hset'' & Hc' & Hdom
          & Hall & Hop & Hcl).
    exists st', ([Request o] ++ l ++ evs), fo''.
    cbn [forEach]. unfold bind at 1. rewrite Hbody, Hloop.
    split; [done|]. split; [by rewrite Hev; simpl; rewrite <- !app_assoc|].
    split; [by eapply sameJob_trans|].
    split; [done|]. split; [done|]. split; [congruence|].
    rewrite !requestsOf_app, Hl. simpl.
    split; [by rewrite Hd, Hdom|].
    split.
    + constructor; [done|]. simpl in Hall.
      destruct Hjob as (_ & _ & _ & _ & Hpath & _).
      simpl in Hpath. by rewrite Hpath in Hall.
    + change (opened (l ++ evs) = 0 /\ closed (l ++ evs) = 0).
      rewrite !opened_app, !closed_app, Hlo, Hlc, Hop, Hcl. done.
Qed.

(** [SendFile] with the content open or opening: a [POST] to every recipient
    of the options, and one closing when it returns. *)
Lemma SendFile_sends fileDoc st :
  (fileIsSet (opts st) = true
   \/ exists h, OpenFile (events st) fileDoc = inr h) ->
  exists st' evs,
    SendFile fileDoc st = Ret None st'
    /\ events st' = events st ++ evs
    /\ sameJob (opts st) (opts st')
    /\ fileIsSet (opts st') = true
    /\ map request.Domain (requestsOf evs) = map URL (Recipients (opts st))
    /\ Forall (fun o => request.Method o = http.MethodPost
                        /\ request.Path o = Path (opts st)) (requestsOf evs)
    /\ opened evs = (if fileIsSet (opts st) then 0 else 1)
    /\ closed evs = 1.
Proof.
  intros Hopen.
  assert (exists o1 fo l,
    fillDetailsAndOpenFile fileDoc st = Ret None (mkState o1 (events st ++ l))
    /\ requestsOf l = []
    /\ opened l = (if fileIsSet (opts st) then 0 else 1) /\ closed l = 0
    /\ sameJob (opts st) o1 /\ fileOpts o1 = Some fo /\ set fo = true)
    as (o1 & fo & l & Hfill & Hl & Hlo & Hlc & Hjob & Hfo & Hset).
  { destruct (fileIsSet (opts st)) eqn:Hs.
    - exists (opts st). pose proof Hs as Hs'. unfold fileIsSet in Hs'.
      destruct (fileOpts (opts st)) as [fo|] eqn:Hfo; [|done].
      exists fo, []. rewrite fillDetailsAndOpenFile_set by done.
      rewrite app_nil_r. destruct st; auto 10 using sameJob_refl.
    - destruct Hopen as [|[h Hopen]]; [done|].
      destruct (fillDetailsAndOpenFile_opens fileDoc st h Hs Hopen)
        as (o1 & fo & Hfill & Hjob & Hfo & Hset & _).
      exists o1, fo, [Open fileDoc (inr h)]. auto 10. }
  unfold SendFile, bind at 1. rewrite Hfill. cbv iota beta.
  unfold defer, bind at 1, queries_Add, bind at 1, getOpts.
  cbn [opts]. unfold bind at 1. rewrite Hfo.
  cbn [deref]. unfold ret at 1. unfold modifyOpts at 1. cbn [opts events].
  unfold bind at 1. cbn [opts events].
  set (fo1 := mkFileOptions _ _ _ _ _ _).
  set (st2 := mkState (set_fileOpts (Some fo1) o1) (events st ++ l)).
  destruct (forEach_SendFile_body fileDoc (Recipients (opts st2)) st2 fo1
              eq_refl Hset)
    as (st' & evs & fo' & Hloop & Hev & Hjob' & Hfo' & Hset' & Hc & Hdom
        & Hall & Hop & Hcl).
  change (Recipients (opts st2))
    with (Recipients (set_fileOpts (Some fo1) o1)) in Hloop.
  unfold bind at 1. rewrite Hloop. unfold ret at 1.
  unfold closeFile, bind, getOpts. rewrite Hfo', Hset'.
  unfold content_Close.
  exists (mkState (opts st') (events st' ++ [Close (content fo')])),
         (l ++ evs ++ [Close (content fo')]).
  split; [done|]. cbn [opts events].
  split; [by rewrite Hev; simpl; rewrite <- !app_assoc|].
  assert (Hj2 : sameJob (opts st) (opts st2)).
  { unfold sameJob in *. simpl. intuition. }
  split; [by eapply sameJob_trans|].
  split; [by unfold fileIsSet; rewrite Hfo'|].
  rewrite !requestsOf_app, Hl. simpl. rewrite app_nil_r.
  destruct Hj2 as (_ & _ & _ & Hrec & Hpath & _).
  rewrite Hrec in Hdom. rewrite Hpath in Hall.
  split; [done|]. split; [done|].
  rewrite !opened_app, !closed_app, Hlo, Hlc, Hop, Hcl.
  change (opened [Close (J:=J) (content fo')]) with 0.
  change (closed [Close (J:=J) (content fo')]) with 1.
  split; lia.
Qed.

Lemma filter_changing_posts (l : list (request.Options J)) :
  Forall (fun o => request.Method o = http.MethodPost) l ->
  List.filter changing l = l.
Proof.
  induction 1 as [|o l Ho _ IH]; simpl; [done|].
  unfold changing at 1. rewrite Ho. simpl. by rewrite IH.
Qed.

(** C2, as the code has it.  On the file path a recipient without the file
    is sent a creation: when the content is open or opens, the round returns
    and its changing requests are all [POST], one of them to this recipient
    on the path of the job.  On the document path there is no such case: a
    read that fails, for a missing document as for anything else, is logged
    and nothing is sent to the recipient. *)
Theorem absent_recipient_created_or_skipped :
  (forall fileDoc md5 recipient st dirDoc remoteFileDoc st1,
     getDirOrFileMetadataAtRecipient (DocID (opts st)) recipient st
       = Ret (dirDoc, remoteFileDoc, Some ErrRemoteDocDoesNotExist) st1 ->
     In recipient (Recipients (opts st)) ->
     (fileIsSet (opts st) = true
      \/ exists h, OpenFile (events st1) fileDoc = inr h) ->
     exists st',
       UpdateOrPatchFile_body fileDoc md5 recipient st = Ret tt st'
       /\ (exists o, In o (issued st st')
                     /\ request.Method o = http.MethodPost
                     /\ request.Domain o = URL recipient
                     /\ request.Path o = Path (opts st))
       /\ Forall (fun o => request.Method o = http.MethodPost)
            (issued st st'))
  /\ (forall doc rec st err st1,
     getDocAtRecipient (DocType (opts st)) (DocID (opts st)) rec st
       = Ret (inl err) st1 ->
     exists st',
       UpdateDoc_body doc rec st = Ret doc st'
       /\ issued st st' = []
       /\ exists msg, since st1 st' = [Log msg (Some err)]).
Proof.
  split.
  - intros fileDoc md5 recipient st dirDoc remoteFileDoc st1 Hfetch Hin Hopen.
    destruct (getDirOrFileMetadataAtRecipient_state _ _ _ _ _ Hfetch)
      as (o0 & -> & Hget).
    destruct (SendFile_sends fileDoc
                (mkState (opts st) (events st ++ [Request o0])) Hopen)
      as (st' & evs & Hsend & Hev & _ & _ & Hdom & Hall & _).
    cbn [opts events] in *.
    unfold UpdateOrPatchFile_body, bind, getOpts. rewrite Hfetch.
    cbv iota beta. rewrite Hsend. unfold ret. exists st'.
    split; [done|].
    assert (Hiss : issued st st' = requestsOf evs).
    { destruct st' as [o' ev']. simpl in Hev. subst ev'.
      rewrite <- !app_assoc, issued_app, requestsOf_app. simpl.
      unfold changing at 1. rewrite Hget. simpl.
      apply filter_changing_posts.
      eapply Forall_impl; [exact Hall|]. by intros o [Hm _]. }
    rewrite Hiss. split.
    + assert (In (URL recipient) (map request.Domain (requestsOf evs)))
        as Hu by (rewrite Hdom; by apply in_map).
      apply in_map_iff in Hu as (o & Hd & Ho). exists o.
      rewrite Forall_forall in Hall. destruct (Hall o) as [Hm Hp].
      { by apply list_elem_of_In. }
      done.
    + eapply Forall_impl; [exact Hall|]. by intros o [Hm _].
  - intros doc rec st err st1 Hfetch.
    destruct (getDocAtRecipient_state _ _ _ _ _ _ Hfetch) as (o0 & -> & Hget).
    unfold UpdateDoc_body, bind, getOpts. rewrite Hfetch.
    unfold logError, emit, ret. cbn [opts events].
    eexists. split; [reflexivity|]. split.
    + by issued_after Hget.
    + eexists. apply since_app.
Qed.

(** C5, where the code departs from it: in [PatchDir] a revision that cannot
    be read ends the call; the error is returned as it is and the recipients
    after this one are not contacted. *)
Theorem PatchDir_stops_at_failed_read dirDoc st rec rest rev err st1 :
  Recipients (opts st) = rec :: rest ->
  getDirOrFileRevAtRecipient (DocID (opts st)) rec st
    = Ret (rev, Some err) st1 ->
  PatchDir dirDoc st = Ret (Some err) st1
  /\ requestsOf (since st st1)
     = [request.mkOptions (URL rec) (Scheme rec) http.MethodGet
          (String.append "/files/" (DocID (opts st)))
          (<[echo.HeaderAuthorization := bearer (Token rec)]>
           (<[echo.HeaderAcceptEncoding := echo.MIMEApplicationJSON]>
           (<[echo.HeaderContentType := echo.MIMEApplicationJSON]> ∅)))
          ∅ request.NoBody false].
Proof.
  intros Hrecs Hrev. split.
  - unfold PatchDir, bind, generateDirOrFilePatch, ret, getOpts.
    rewrite Hrecs. cbn [PatchDir_loop]. unfold bind, getOpts.
    by rewrite Hrev.
  - revert Hrev.
    unfold getDirOrFileRevAtRecipient, bind at 1.
    destruct (getDirOrFileMetadataAtRecipient _ _ _) as [r st2|st2] eqn:Hm;
      [|done].
    intros Hrev.
    assert (st2 = st1) as ->.
    { destruct r as [[[d|] [f|]] [e|]]; unfold ret in Hrev; congruence. }
    revert Hm.
    unfold getDirOrFileMetadataAtRecipient, bind, request_Req, ret, panic.
    intros Hm. destruct (Req _ _) as [e|body].
    + destruct (String.eqb _ _); inversion Hm; subst; by rewrite since_app.
    + destruct (bindDirOrFile body) as [|e|[d|]]; try discriminate;
        try destruct (vfs.Refine d); inversion Hm; subst; by rewrite since_app.
Qed.

(** *** The deletion of a file or a directory *)

Lemma getDirOrFileRevAtRecipient_state id rec st r st1 :
  getDirOrFileRevAtRecipient id rec st = Ret r st1 ->
  exists o, st1 = mkState (opts st) (events st ++ [Request o])
            /\ request.Method o = http.MethodGet
            /\ request.Domain o = URL rec.
Proof.
  unfold getDirOrFileRevAtRecipient, bind at 1.
  destruct (getDirOrFileMetadataAtRecipient _ _ _) as [m st2|st2] eqn:Hm;
    [|done].
  intros Hrev.
  assert (st2 = st1) as ->.
  { destruct m as [[[d|] [f|]] [e|]]; unfold ret in Hrev; congruence. }
  revert Hm.
  unfold getDirOrFileMetadataAtRecipient, bind, request_Req, ret, panic.
  intros Hm. destruct (Req _ _) as [e|body].
  - destruct (String.eqb _ _); inversion Hm; subst; eauto.
  - destruct (bindDirOrFile body) as [|e|[d|]]; try discriminate;
      try destruct (vfs.Refine d); inversion Hm; subst; eauto.
Qed.

(** X18: one round of [DeleteDirOrFile] with the revision read: exactly one
    [DELETE] to the recipient, with that revision in the query. *)
Lemma DeleteDirOrFile_body_deletes rec errFinal st rev st1 :
  getDirOrFileRevAtRecipient (DocID (opts st)) rec st = Ret (rev, None) st1 ->
  exists e st' o,
    DeleteDirOrFile_body rec errFinal st = Ret e st'
    /\ issued st st' = [o]
    /\ request.Method o = http.MethodDelete
    /\ request.Domain o = URL rec
    /\ request.Path o = Path (opts st)
    /\ request.Queries o =
       <[consts.QueryParamType K := [Type_ (opts st)]]>
       (<[consts.QueryParamRev K := [rev]]> ∅).
Proof.
  intros Hrev.
  destruct (getDirOrFileRevAtRecipient_state _ _ _ _ _ Hrev)
    as (o0 & -> & Hget & _).
  unfold DeleteDirOrFile_body, bind, getOpts. rewrite Hrev.
  unfold modifyOpts, request_Req, ret. simpl.
  destruct (Req _ _); eexists; eexists; eexists;
    (split; [reflexivity|]); (split; [issued_after Hget; reflexivity|]);
    done.
Qed.

(** One round of [DeleteDirOrFile] with a revision that cannot be read: the
    error joins [errFinal] with the address of the recipient and nothing is
    sent. *)
Lemma DeleteDirOrFile_body_skips rec errFinal st rev err st1 :
  getDirOrFileRevAtRecipient (DocID (opts st)) rec st
    = Ret (rev, Some err) st1 ->
  DeleteDirOrFile_body rec errFinal st
  = Ret (multierror_Append errFinal
           (Errorf "Error while trying to get a revision at %v: %v"
              [URL rec] err)) st1
  /\ issued st st1 = [].
Proof.
  intros Hrev.
  destruct (getDirOrFileRevAtRecipient_state _ _ _ _ _ Hrev)
    as (o0 & -> & Hget & _).
  unfold DeleteDirOrFile_body, bind, getOpts. rewrite Hrev.
  split; [done|]. by issued_after Hget.
Qed.

(** X19: the loop of [DeleteDirOrFile] goes on after a failure: when it
    returns, every recipient of the list was sent a request. *)
Lemma DeleteDirOrFile_loop_contacts_all recs errFinal st e st' :
  DeleteDirOrFile_loop recs errFinal st = Ret e st' ->
  exists evs, events st' = events st ++ evs
    /\ Forall (fun rec => exists o, In o (requestsOf evs)
                                    /\ request.Domain o = URL rec) recs.
Proof.
  revert errFinal st. induction recs as [|rec recs IH]; intros errFinal st.
  - simpl. unfold ret. intros [= <- <-]. exists []. by rewrite app_nil_r.
  - cbn [DeleteDirOrFile_loop]. unfold bind at 1.
    destruct (DeleteDirOrFile_body rec errFinal st) as [e1 st2|st2] eqn:Hb;
      [|done].
    intros Hloop. destruct (IH _ _ Hloop) as (evs & Hev & Hall).
    assert (exists o l, events st2 = events st ++ Request o :: l
                        /\ request.Domain o = URL rec) as (o & l & Hev2 & Hd).
    { revert Hb. unfold DeleteDirOrFile_body, bind at 1, getOpts.
      unfold bind at 1.
      destruct (getDirOrFileRevAtRecipient _ _ _) as [[rev err] st3|st3]
        eqn:Hrev; [|done].
      destruct (getDirOrFileRevAtRecipient_state _ _ _ _ _ Hrev)
        as (o0 & -> & _ & Hd).
      destruct err as [err|].
      - unfold ret. intros [= <- <-]. by exists o0, [].
      - unfold bind, modifyOpts, getOpts, request_Req, ret. simpl.
        destruct (Req _ _); intros [= <- <-]; simpl;
          exists o0; eexists; rewrite <- app_assoc; split; done. }
    exists (Request o :: l ++ evs). split.
    + rewrite Hev, Hev2, <- app_assoc. done.
    + constructor.
      * exists o. split; [by left|done].
      * eapply Forall_impl; [exact Hall|].
        intros r (o' & Hin & Hd'). exists o'. split; [|done].
        change (Request o :: l ++ evs) with ([Request o] ++ l ++ evs).
        rewrite !requestsOf_app. apply in_or_app. right.
        apply in_or_app. by right.
Qed.

(** *** The content is opened once, and closed once without [SendFile] *)

Lemma fileOpts_getSharedReferences o :
  fileOpts (snd (getSharedReferences o)) = fileOpts o.
Proof. apply sameJob_getSharedReferences. Qed.

Lemma fileOpts_findNewRefs o fileDoc remoteFileDoc :
  fileOpts (snd (findNewRefs o fileDoc remoteFileDoc)) = fileOpts o.
Proof.
  unfold findNewRefs.
  pose proof (extractRelevantReferences_snd o (vfs.ReferencedBy fileDoc)) as H1.
  destruct (extractRelevantReferences o _) as [refs o1]. simpl in H1.
  pose proof (extractRelevantReferences_snd o1
                (vfs.ReferencedBy remoteFileDoc)) as H2.
  destruct (extractRelevantReferences o1 _) as [refs2 o2]. simpl in H2.
  assert (fileOpts o2 = fileOpts o).
  { subst. by rewrite !fileOpts_getSharedReferences. }
  by destruct (Nat.ltb _ _).
Qed.

Lemma roundKeeps_events st o evs :
  fileIsSet o = fileIsSet (opts st) ->
  closed evs = 0 -> opened evs = 0 ->
  roundKeeps st (mkState o (events st ++ evs)).
Proof. intros. exists evs. auto. Qed.

(** [fillDetailsAndOpenFile], whatever the file system answers. *)
Lemma fillDetailsAndOpenFile_keeps fileDoc st :
  exists r st',
    fillDetailsAndOpenFile fileDoc st = Ret r st'
    /\ roundKeeps st st'
    /\ (r = None -> fileIsSet (opts st') = true)
    /\ requestsOf (since st st') = [].
Proof.
  destruct (fileIsSet (opts st)) eqn:Hs.
  - exists None, st. rewrite fillDetailsAndOpenFile_set by done.
    split; [done|]. split.
    + exists []. rewrite app_nil_r. auto.
    + split; [done|]. unfold since. by rewrite drop_all.
  - destruct (OpenFile (events st) fileDoc) as [e|h] eqn:Hopen.
    + destruct (fillDetailsAndOpenFile_fails fileDoc st e Hs Hopen)
        as (o' & -> & _ & Hfo).
      do 2 eexists. split; [reflexivity|]. split.
      * apply roundKeeps_events; [|done..].
        unfold fileIsSet. by rewrite Hfo.
      * split; [done|]. by rewrite since_app.
    + destruct (fillDetailsAndOpenFile_opens fileDoc st h Hs Hopen)
        as (o' & fo & -> & _ & Hfo & Hset & _).
      do 2 eexists. split; [reflexivity|].
      assert (fileIsSet o' = true) by (unfold fileIsSet; by rewrite Hfo).
      split.
      * eexists. split; [reflexivity|]. split; [done|]. right. auto.
      * split; [done|]. by rewrite since_app.
Qed.

Lemma roundKeeps_refl st : roundKeeps st st.
Proof. exists []. rewrite app_nil_r. auto. Qed.

Lemma roundKeeps_trans st1 st2 st3 :
  roundKeeps st1 st2 -> roundKeeps st2 st3 -> roundKeeps st1 st3.
Proof.
  intros (e1 & Hev1 & Hc1 & Ho1) (e2 & Hev2 & Hc2 & Ho2).
  exists (e1 ++ e2). rewrite Hev2, Hev1, <- app_assoc.
  rewrite closed_app, opened_app, Hc1, Hc2. split; [done|]. split; [done|].
  destruct Ho1 as [[Hs1 ->]|(Hs1 & Hs1' & ->)];
    destruct Ho2 as [[Hs2 ->]|(Hs2 & Hs2' & ->)].
  - left. split; [congruence|done].
  - right. split; [congruence|done].
  - right. split; [done|]. split; [congruence|done].
  - congruence.
Qed.

Lemma keeps_ret {A} (a : A) (P : A -> Prop) :
  P a -> keeps (J:=J) (ret a) P.
Proof. intros Ha st. split; [apply roundKeeps_refl|done]. Qed.

Lemma keeps_panic {A} (P : A -> Prop) : keeps (J:=J) (panic (A:=A)) P.
Proof. intros st. split; [apply roundKeeps_refl|done]. Qed.

Lemma keeps_bind {A B} (m : M (J:=J) A) (k : A -> M (J:=J) B) P Q :
  keeps m P -> (forall a, P a -> keeps (k a) Q) -> keeps (bind m k) Q.
Proof.
  intros Hm Hk st. unfold bind. destruct (Hm st) as [Hr Hp].
  destruct (m st) as [a st1|st1]; [|done].
  destruct (Hk a Hp st1) as [Hr' Hq]. cbn [final] in Hr.
  split; [by eapply roundKeeps_trans|done].
Qed.

Lemma keeps_getOpts : keeps (J:=J) getOpts (fun _ => True).
Proof. intros st. split; [apply roundKeeps_refl|done]. Qed.

Lemma keeps_deref {A} (p : option A) :
  keeps (J:=J) (deref p) (fun _ => True).
Proof. destruct p; intros st; (split; [apply roundKeeps_refl|done]). Qed.

Lemma keeps_modifyOpts f :
  (forall o, fileOpts (f o) = fileOpts o) ->
  keeps (J:=J) (modifyOpts f) (fun _ => True).
Proof.
  intros Hf st. split; [|done]. unfold modifyOpts. cbn [final].
  rewrite <- (app_nil_r (events st)). apply roundKeeps_events; [|done..].
  unfold fileIsSet. by rewrite Hf.
Qed.

Lemma keeps_withOpts {A} (f : SendOptions -> A * SendOptions) :
  (forall o, fileOpts (snd (f o)) = fileOpts o) ->
  keeps (J:=J) (withOpts f) (fun _ => True).
Proof.
  intros Hf st. unfold withOpts. specialize (Hf (opts st)).
  destruct (f (opts st)) as [a o]. split; [|done]. cbn [final].
  rewrite <- (app_nil_r (events st)). apply roundKeeps_events; [|done..].
  unfold fileIsSet. simpl in Hf. by rewrite Hf.
Qed.

Lemma keeps_logError msg err :
  keeps (J:=J) (logError msg err) (fun _ => True).
Proof.
  intros st. split; [|done]. unfold logError, emit. cbn [final].
  by apply roundKeeps_events.
Qed.

Lemma keeps_request_Req o : keeps (request_Req o) (fun _ => True).
Proof.
  intros st. split; [|done]. unfold request_Req. cbn [final].
  by apply roundKeeps_events.
Qed.

Lemma keeps_fillDetailsAndOpenFile fileDoc :
  keeps (fillDetailsAndOpenFile fileDoc) (fun _ => True).
Proof.
  intros st.
  destruct (fillDetailsAndOpenFile_keeps fileDoc st) as (r & st' & -> & Hk & _).
  done.
Qed.

Lemma keeps_queries_Add k v :
  keeps (J:=J) (queries_Add k v) (fun _ => True).
Proof.
  intros st. split; [|by destruct (queries_Add k v st)].
  unfold queries_Add, bind, getOpts, deref, modifyOpts, ret, panic.
  destruct (fileOpts (opts st)) as [fo|] eqn:Hfo; cbn [final].
  - rewrite <- (app_nil_r (events st)). apply roundKeeps_events; [|done..].
    unfold fileIsSet. simpl. by rewrite Hfo.
  - apply roundKeeps_refl.
Qed.

(** The steps that keep the content, applied one after the other. *)
Ltac keeps_op :=
  first [ apply keeps_getOpts | apply keeps_deref | apply keeps_request_Req
        | apply keeps_logError | apply keeps_queries_Add
        | apply keeps_fillDetailsAndOpenFile | apply keeps_panic
        | apply keeps_ret; exact I ].

Ltac keeps_steps :=
  repeat first
    [ keeps_op
    | match goal with
      | |- keeps (if ?b then _ else _) _ => destruct b
      | |- keeps (match ?x with _ => _ end) _ => destruct x
      | |- keeps (bind _ _) _ =>
          eapply (keeps_bind _ _ (fun _ => True)); [|intros ? _]
      end ].

Lemma keeps_sendFileToRecipient recipient method :
  keeps (sendFileToRecipient recipient method) (fun _ => True).
Proof. unfold sendFileToRecipient. keeps_steps. Qed.

Lemma keeps_sendPatchToRecipient patch recipient dirID :
  keeps (sendPatchToRecipient patch recipient dirID) (fun _ => True).
Proof. unfold sendPatchToRecipient. keeps_steps. Qed.

Lemma keeps_updateReferencesAtRecipient method refs recipient :
  keeps (updateReferencesAtRecipient method refs recipient) (fun _ => True).
Proof. unfold updateReferencesAtRecipient. keeps_steps. Qed.

(** When no recipient misses the file, the read of the metadata does not
    give [ErrRemoteDocDoesNotExist]. *)
Lemma keeps_getDirOrFileMetadataAtRecipient id recInfo :
  noneMissing W ->
  keeps (getDirOrFileMetadataAtRecipient id recInfo)
    (fun r => snd r <> Some ErrRemoteDocDoesNotExist).
Proof.
  intros [Hreq Hbind] st. split.
  - assert (Hk : keeps (getDirOrFileMetadataAtRecipient id recInfo)
                   (fun _ => True)).
    { unfold getDirOrFileMetadataAtRecipient. keeps_steps. }
    apply Hk.
  - unfold getDirOrFileMetadataAtRecipient, bind, request_Req, ret, panic.
    destruct (Req _ _) as [e|body] eqn:HReq.
    + specialize (Hreq _ _ _ HReq).
      destruct (String.eqb_spec (request.Title e) "Not Found"); done.
    + pose proof (Hbind body).
      destruct (bindDirOrFile body) as [|err|[d|]]; simpl; try done;
        try congruence.
      all: by destruct (vfs.Refine d).
Qed.

(** One round of [UpdateOrPatchFile] when no recipient misses the file. *)
Lemma UpdateOrPatchFile_body_keeps fileDoc md5 recipient st :
  noneMissing W ->
  roundKeeps st (final (UpdateOrPatchFile_body fileDoc md5 recipient st)).
Proof.
  intros Hw.
  assert (Hk : keeps (UpdateOrPatchFile_body fileDoc md5 recipient)
                 (fun _ => True)); [|apply Hk].
  unfold UpdateOrPatchFile_body.
  eapply keeps_bind; [apply keeps_getOpts|intros o _].
  eapply keeps_bind;
    [by apply keeps_getDirOrFileMetadataAtRecipient|intros [[d f] err] Herr].
  simpl in Herr. destruct err as [err|].
  - destruct err; try done; apply keeps_logError.
  - eapply keeps_bind; [apply keeps_deref|intros remote _].
    eapply keeps_bind; [by apply keeps_modifyOpts|intros _ _].
    destruct (String.eqb _ _).
    + destruct (negb _).
      * eapply keeps_bind; [apply keeps_getOpts|intros o' _].
        destruct (bool_decide _); [|by apply keeps_ret].
        eapply keeps_bind;
          [apply keeps_withOpts; intros; apply fileOpts_findNewRefs
          |intros refs _].
        destruct (negb _); [|by apply keeps_ret].
        eapply keeps_bind;
          [apply keeps_updateReferencesAtRecipient|intros erru _].
        destruct erru; [apply keeps_logError|by apply keeps_ret].
      * eapply (keeps_bind _ _ (fun _ => True));
          [unfold generateDirOrFilePatch; keeps_steps|].
        intros p _. destruct p; [apply keeps_logError|].
        eapply keeps_bind; [apply keeps_sendPatchToRecipient|intros e _].
        destruct e; [apply keeps_logError|by apply keeps_ret].
    + eapply keeps_bind; [apply keeps_fillDetailsAndOpenFile|intros e _].
      destruct e; [apply keeps_logError|].
      eapply keeps_bind; [apply keeps_sendFileToRecipient|intros e _].
      destruct e; [apply keeps_logError|by apply keeps_ret].
Qed.

Lemma forEach_UpdateOrPatchFile_body_keeps fileDoc md5 recs st :
  noneMissing W ->
  roundKeeps st (final (forEach recs (UpdateOrPatchFile_body fileDoc md5) st)).
Proof.
  intros Hw. revert st. induction recs as [|rec recs IH]; intros st.
  - apply roundKeeps_refl.
  - cbn [forEach]. unfold bind.
    pose proof (UpdateOrPatchFile_body_keeps fileDoc md5 rec st Hw) as Hb.
    destruct (UpdateOrPatchFile_body fileDoc md5 rec st) as [[] st2|st2];
      [|exact Hb].
    eapply roundKeeps_trans; [exact Hb|apply IH].
Qed.

Lemma final_defer {A B} (deferred : M (J:=J) B) (body : M (J:=J) A) st :
  final (defer deferred body st) = final (deferred (final (body st))).
Proof.
  unfold defer. destruct (body st) as [a st1|st1]; cbn [final];
    by destruct (deferred st1).
Qed.

(** X17: when no recipient misses the file, [UpdateOrPatchFile] on fresh
    options opens the content at most once and closes it as many times as it opened
    it, whether the loop returns or panics. *)
Lemma UpdateOrPatchFile_opens_and_closes_once fileDoc st :
  noneMissing W ->
  fileIsSet (opts st) = false ->
  let st' := final (UpdateOrPatchFile fileDoc st) in
  opened (since st st') <= 1
  /\ closed (since st st') = opened (since st st').
Proof.
  intros Hw Hunset st'. subst st'.
  unfold UpdateOrPatchFile. rewrite final_defer.
  set (st2 := final (bind _ _ st)).
  assert (Hk : roundKeeps st st2).
  { unfold st2, bind, getOpts.
    pose proof (forEach_UpdateOrPatchFile_body_keeps fileDoc
                  (EncodeToString (vfs.MD5Sum fileDoc)) (Recipients (opts st))
                  st Hw) as Hk.
    destruct (forEach _ _ st) as [[] s|s]; exact Hk. }
  clearbody st2. destruct Hk as (evs & Hev & Hc & Ho). rewrite Hunset in Ho.
  assert (exists l,
    events (final (closeFile st2)) = events st ++ (evs ++ l)
    /\ opened l = 0
    /\ closed l = (if fileIsSet (opts st2) then 1 else 0))
    as (l & Hl & Hlo & Hlc).
  { unfold closeFile, bind, getOpts, content_Close, ret, fileIsSet.
    destruct (fileOpts (opts st2)) as [fo|]; [destruct (set fo)|];
      cbn [final events]; rewrite Hev.
    - exists [Close (content fo)]. by rewrite app_assoc.
    - exists []. by rewrite !app_nil_r.
    - exists []. by rewrite !app_nil_r. }
  unfold since.
  rewrite Hl, drop_app_length, opened_app, closed_app, Hc, Hlo, Hlc.
  destruct Ho as [[-> ->]|(_ & -> & ->)]; lia.
Qed.

(** C9, where the code departs from it: [DeleteDirOrFile] collects the
    errors of the recipients in [errFinal], as [DeleteDoc] does, but returns
    nil whatever was collected; [DeleteDoc] returns what it collected. *)
Theorem DeleteDirOrFile_returns_nil st errFinal st' :
  DeleteDirOrFile_loop (Recipients (opts st)) None st = Ret errFinal st' ->
  DeleteDirOrFile st = Ret None st'
  /\ DeleteDoc st = DeleteDoc_loop (Recipients (opts st)) None st.
Proof.
  intros Hloop. split; [|reflexivity].
  unfold DeleteDirOrFile, bind, getOpts. by rewrite Hloop.
Qed.

End DispatchProperties.

(** * The statements on the scenarios *)

Import Scenario.

(** When the content cannot be opened, the recipient that has the file with
    another hash is sent nothing: the error is logged and the round ends. *)
Lemma UpdateOrPatchFile_body_open_fails :
  let w := world allOK (inl (ErrorNew "cannot open")) noRead
             (boundFile remoteFile) in
  exists st1 st',
    getDirOrFileMetadataAtRecipient (W:=w) (DocID (opts st_file)) r1 st_file
      = Ret (None, Some remoteFile, None) st1
    /\ EncodeToString (World:=w) (vfs.MD5Sum localFile)
       <> EncodeToString (World:=w) (vfs.MD5Sum remoteFile)
    /\ UpdateOrPatchFile_body (K:=K1) (W:=w) localFile
         (EncodeToString (World:=w) (vfs.MD5Sum localFile)) r1 st_file
       = Ret tt st'
    /\ issued st_file st' = [].
Proof.
  intros w. eexists. eexists.
  split; [reflexivity|]. split; [discriminate|].
  split; [vm_compute; reflexivity|]. vm_compute. reflexivity.
Qed.

Lemma UpdateOrPatchFile_body_classifies_witness :
  let w := world allOK (inr 7) noRead (boundFile remoteFile) in
  exists st' o,
    UpdateOrPatchFile_body (K:=K1) (W:=w) localFile
      (EncodeToString (World:=w) (vfs.MD5Sum localFile)) r1 st_file
    = Ret tt st'
    /\ issued st_file st' = [o]
    /\ request.Method o = http.MethodPut
    /\ request.Domain o = URL r1
    /\ request.Path o = Path (opts st_file)
    /\ request.Body_ o = request.FileBody 7
    /\ (vfs.Rev remoteFile <> "" ->
        last (default [] (request.Queries o !! "rev"))
        = Some (vfs.Rev remoteFile)).
Proof.
  intros w.
  refine (proj1 (UpdateOrPatchFile_body_classifies (K:=K1) (W:=w) localFile r1
                   st_file None remoteFile _ eq_refl) _ 7 _).
  - discriminate.
  - reflexivity.
Defined.

(** C2, as it is written, fails on the document path: the recipient answers
    that the document is not found, and the round logs the error and sends
    nothing. *)
Lemma UpdateDoc_body_skips_missing :
  let w := world readsNotFound (inr 7) noRead noBound in
  exists o st',
    Req (World:=w) (events st_doc) o = inl notFound
    /\ UpdateDoc_body (W:=w) localDoc r1 st_doc = Ret localDoc st'
    /\ requestsOf (events st') = [o]
    /\ issued st_doc st' = [].
Proof.
  intros w. eexists. eexists.
  split; [|split; [vm_compute; reflexivity|split; reflexivity]].
  reflexivity.
Qed.

Lemma absent_recipient_created_or_skipped_witness :
  let w := world readsNotFound (inr 7) noRead noBound in
  exists st',
    UpdateOrPatchFile_body (K:=K1) (W:=w) localFile "" r1 st_file = Ret tt st'
    /\ (exists o, In o (issued st_file st')
                  /\ request.Method o = http.MethodPost
                  /\ request.Domain o = URL r1
                  /\ request.Path o = Path (opts st_file))
    /\ Forall (fun o => request.Method o = http.MethodPost)
         (issued st_file st').
Proof.
  intros w.
  refine (proj1 (absent_recipient_created_or_skipped (K:=K1) (W:=w))
            localFile "" r1 st_file None None _ eq_refl _ _).
  - left. reflexivity.
  - right. exists 7. reflexivity.
Defined.

(** C3, as it is written, fails on a remote document that was read but has
    no string under [_rev]: the bodies differ and the round panics with no
    [PUT] sent. *)
Lemma UpdateDoc_body_panics_without_rev :
  let w := world allOK (inr 7) (readDoc remoteDocNoRev) noBound in
  exists st1,
    getDocAtRecipient (W:=w) (DocType (opts st_doc)) (DocID (opts st_doc)) r1
      st_doc = Ret (inr remoteDocNoRev) st1
    /\ bodyOf (couchdb.M localDoc) <> bodyOf (couchdb.M remoteDocNoRev)
    /\ UpdateDoc_body (W:=w) localDoc r1 st_doc = Panic st1
    /\ issued st_doc st1 = [].
Proof.
  intros w. eexists. split; [reflexivity|]. split.
  - intros Heq. apply (f_equal (fun m => m !! "title")) in Heq.
    vm_compute in Heq. discriminate.
  - split; [vm_compute; reflexivity|reflexivity].
Qed.

Lemma UpdateDoc_body_equal_or_put_witness :
  let w := world allOK (inr 7) (readDoc remoteDoc) noBound in
  exists rev st' o,
    couchdb.M remoteDoc !! "_rev" = Some (couchdb.JString rev)
    /\ UpdateDoc_body (W:=w) localDoc r1 st_doc = Ret (setRev localDoc rev) st'
    /\ issued st_doc st' = [o]
    /\ request.Method o = http.MethodPut
    /\ request.Domain o = URL r1
    /\ request.Path o = Path (opts st_doc)
    /\ request.Body_ o =
         request.JSONBody
           (<["_rev" := couchdb.JString rev]> (couchdb.M localDoc)).
Proof.
  intros w.
  refine (proj2 (UpdateDoc_body_equal_or_put (W:=w) localDoc r1 st_doc
                   remoteDoc _ eq_refl eq_refl eq_refl eq_refl) _).
  intros Heq. apply (f_equal (fun m => m !! "title")) in Heq.
  vm_compute in Heq. discriminate.
Defined.

(** C1, where the code departs from it: what a recipient is sent depends on
    the recipients before it.  With two recipients that both hold the file
    with another hash, the [PUT] to the second carries the revision of the
    first before its own, since the query of the content is shared and [rev]
    is added to it in each round.  With a first recipient that does not have
    the file and a second one whose file is up to date, the second is sent
    the file all the same, by the [SendFile] the first round delegates to. *)
Theorem UpdateOrPatchFile_recipients_interfere :
  (let w := world answersOwn (inr 7) noRead (boundBy remoteFile remoteFile2) in
   exists st' o1 o2,
     UpdateOrPatchFile (K:=K1) (W:=w) localFile st_files = Ret None st'
     /\ issued st_files st' = [o1; o2]
     /\ request.Method o1 = http.MethodPut /\ request.Domain o1 = URL r1
     /\ request.Queries o1 !! "rev" = Some [vfs.Rev remoteFile]
     /\ request.Method o2 = http.MethodPut /\ request.Domain o2 = URL r2
     /\ request.Queries o2 !! "rev"
        = Some [vfs.Rev remoteFile; vfs.Rev remoteFile2])
  /\ (let w := world r1Missing (inr 7) noRead (boundFile sameFile) in
      exists st' o1 o2,
        UpdateOrPatchFile (K:=K1) (W:=w) localFile st_files = Ret None st'
        /\ EncodeToString (World:=w) (vfs.MD5Sum localFile)
           = EncodeToString (World:=w) (vfs.MD5Sum sameFile)
        /\ fileHasChanges localFile sameFile = false
        /\ Selector (opts st_files) <> consts.SelectorReferencedBy K1
        /\ issued st_files st' = [o1; o2]
        /\ request.Method o1 = http.MethodPost /\ request.Domain o1 = URL r1
        /\ request.Method o2 = http.MethodPost /\ request.Domain o2 = URL r2
        /\ request.Body_ o2 = request.FileBody 7).
Proof.
  split; intros w.
  - eexists. eexists. eexists. split; [vm_compute; reflexivity|].
    split; [vm_compute; reflexivity|]. repeat (split; [reflexivity|]).
    reflexivity.
  - eexists. eexists. eexists. split; [vm_compute; reflexivity|].
    split; [reflexivity|]. split; [reflexivity|]. split; [discriminate|].
    split; [vm_compute; reflexivity|]. repeat (split; [reflexivity|]).
    reflexivity.
Qed.

(** C4, where the code departs from it: one recipient, which does not have
    the file.  The content is opened once, closed by [SendFile] when it
    returns and closed again by [UpdateOrPatchFile]. *)
Theorem UpdateOrPatchFile_closes_twice :
  let w := world readsNotFound (inr 7) noRead noBound in
  exists st',
    UpdateOrPatchFile (K:=K1) (W:=w) localFile st_file = Ret None st'
    /\ opened (events st') = 1
    /\ closed (events st') = 2
    /\ List.filter
         (fun e => match e with Request _ | Log _ _ => false | _ => true end)
         (events st')
       = [Open localFile (inr 7); Close 7; Close 7].
Proof.
  intros w. eexists. split; [vm_compute; reflexivity|].
  split; [reflexivity|]. split; reflexivity.
Qed.

Lemma PatchDir_stops_at_failed_read_witness :
  let w := world (r1Fails serverError) (inr 7) noRead (boundDir remoteDir) in
  exists st1,
    PatchDir (K:=K1) (W:=w) localDir st_dir
    = Ret (Some (RequestError "Internal Server Error" "500")) st1
    /\ map request.Domain (requestsOf (events st1)) = [URL r1].
Proof.
  intros w. eexists.
  destruct (PatchDir_stops_at_failed_read (K:=K1) (W:=w) localDir st_dir
              r1 [r2] "" (RequestError "Internal Server Error" "500") _
              eq_refl eq_refl) as [Hret Hreq].
  split; [exact Hret|]. reflexivity.
Defined.

Lemma DeleteDirOrFile_returns_nil_witness :
  let w := world (r1Fails serverError) (inr 7) noRead (boundDir remoteDir) in
  exists errFinal st',
    DeleteDirOrFile_loop (K:=K1) (W:=w) (Recipients (opts st_dir)) None st_dir
    = Ret (Some (MultiError [errFinal])) st'
    /\ DeleteDirOrFile (K:=K1) (W:=w) st_dir = Ret None st'.
Proof.
  intros w. eexists. eexists.
  assert (Hloop : DeleteDirOrFile_loop (K:=K1) (W:=w)
                    (Recipients (opts st_dir)) None st_dir
                  = Ret (Some (MultiError [_])) _)
    by (vm_compute; reflexivity).
  split; [exact Hloop|].
  exact (proj1 (DeleteDirOrFile_returns_nil (K:=K1) (W:=w) st_dir _ _ Hloop)).
Defined.

Lemma assertions_return_or_panic_witness :
  let w := world allOK (inr 7) (readDoc remoteDocNoRev) noBound in
  exists st1,
    docHasChanges localDoc remoteDocNoRev st1 = Panic st1
    /\ UpdateDoc_body (W:=w) localDoc r1 st_doc = Panic st1
    /\ DeleteDoc_body (W:=w) r1 None st_doc = Panic st1.
Proof.
  intros w. eexists.
  destruct (assertions_return_or_panic (W:=w) localDoc r1 None st_doc
              remoteDocNoRev _ eq_refl) as (_ & Hpanic & _ & Hdel & _).
  destruct (Hpanic eq_refl) as [H1 H2].
  split; [exact H1|]. split; [exact H2|]. exact (Hdel eq_refl).
Defined.

Lemma findNewRefs_missing_witness :
  elems (fst (findNewRefs (K:=K1) albumOptions
                (fileWith [refX; refA; refB; refY]) (fileWith [refA; refX])))
  = [refB]
  /\ fst (findNewRefs (K:=K1) albumOptions (fileWith [refA; refX; refY])
            (fileWith [refA; refB])) = None.
Proof.
  split.
  - destruct (findNewRefs_missing (K:=K1) albumOptions
                (fileWith [refX; refA; refB; refY]) (fileWith [refA; refX]))
      as (_ & H & _).
    rewrite H; [reflexivity|]. vm_compute. lia.
  - destruct (findNewRefs_missing (K:=K1) albumOptions
                (fileWith [refA; refX; refY]) (fileWith [refA; refB]))
      as (H & _).
    apply H. vm_compute. lia.
Defined.

Lemma extractRelevantReferences_exact_witness :
  elems (fst (extractRelevantReferences (K:=K1) albumOptions
                (Some [couchdb.mkRef "io.cozy.contacts" "B";
                       couchdb.mkRef "io.cozy.albums" "C"; refA])))
  = [couchdb.mkRef "io.cozy.contacts" "B"; refA].
Proof.
  destruct (extractRelevantReferences_exact (K:=K1) albumOptions
              (Some [couchdb.mkRef "io.cozy.contacts" "B";
                     couchdb.mkRef "io.cozy.albums" "C"; refA]))
    as (H & _).
  rewrite H. reflexivity.
Defined.

Lemma getParentDirID_cases_witness :
  getParentDirID (K:=K1)
    (mkSendOptions "dir1" "io.cozy.files" "directory" [r1] "" ""
       "" ["dir1"] None None) "parent"
  = ("io.cozy.sharings.shared-with-me-dir", None)
  /\ getParentDirID (K:=K1)
       (mkSendOptions "dir2" "io.cozy.files" "directory" [r1] "" ""
          "" ["dir1"] None None) "parent"
     = ("parent", None)
  /\ exists err,
       getParentDirID (K:=K1)
         (mkSendOptions "io.cozy.files.root-dir" "io.cozy.files" "directory"
            [r1] "" "" "" ["dir1"] None None) "parent"
       = ("", Some err).
Proof.
  split; [|split].
  - refine (proj1 (proj2 (getParentDirID_cases (K:=K1) _ _)) _). simpl.
    split; [done|]. split; [discriminate|]. by left.
  - refine (proj1 (proj2 (proj2 (getParentDirID_cases (K:=K1) _ _))) _).
    simpl. split; [done|]. split; [discriminate|].
    intros [Heq|[]]. discriminate.
  - refine (proj1 (getParentDirID_cases (K:=K1) _ _) _). simpl. done.
Defined.

(** * More of the file *)

(** ** The references of a rule and the missing references *)

Section MoreReferenceProperties.

Context {K : consts.t}.

Lemma split_from_nonempty sep skip cur s : split_from sep skip cur s <> [].
Proof.
  revert skip cur.
  induction s as [|c s IH]; intros skip cur; cbn [split_from]; [done|].
  destruct skip; [|apply IH].
  destruct (String.prefix sep (String c s)); [discriminate|apply IH].
Qed.

Lemma Join_cons x l sep :
  l <> [] ->
  Join (x :: l) sep = String.append x (String.append sep (Join l sep)).
Proof. intros Hl. destruct l; [done|reflexivity]. Qed.

Lemma append_assoc (a b c : string) :
  String.append (String.append a b) c = String.append a (String.append b c).
Proof.
  induction a as [|x a IH]; [done|].
  change (String x (String.append (String.append a b) c)
          = String x (String.append a (String.append b c))).
  by f_equal.
Qed.

Lemma append_nil_r (s : string) : String.append s "" = s.
Proof.
  induction s as [|x s IH]; [done|].
  change (String x (String.append s "") = String x s). by f_equal.
Qed.

(** Joining the pieces of a split on the separator of the rules gives the
    string back. *)
Lemma Join_split_from cur s :
  Join (split_from permissions.RefSep 0 cur s) permissions.RefSep
  = String.append cur s.
Proof.
  revert cur. induction s as [|c s IH]; intros cur.
  - cbn [split_from Join]. by rewrite append_nil_r.
  - cbn [split_from].
    assert (Hp : String.prefix permissions.RefSep (String c s)
                 = if Ascii.ascii_dec "/"%char c then true else false).
    { unfold permissions.RefSep. cbn [String.prefix].
      destruct (Ascii.ascii_dec "/"%char c); [|done]. by destruct s. }
    rewrite Hp. destruct (Ascii.ascii_dec "/"%char c) as [<-|Hc].
    + change (String.length permissions.RefSep - 1) with 0.
      rewrite Join_cons by apply split_from_nonempty. rewrite IH.
      reflexivity.
    + rewrite IH, append_assoc. reflexivity.
Qed.

Lemma Join_Split value :
  Join (Split value permissions.RefSep) permissions.RefSep = value.
Proof. unfold Split. simpl. apply Join_split_from. Qed.

Lemma parseRefs_flat_map values acc :
  elems (parseRefs values acc) = elems acc ++ flat_map parseValue values.
Proof.
  revert acc. induction values as [|v values IH]; intros acc;
    cbn [parseRefs flat_map].
  - by rewrite app_nil_r.
  - unfold parseValue at 1.
    destruct (Split v permissions.RefSep) as [|t [|i [|x l]]];
      rewrite IH; try done.
    unfold append. simpl. by rewrite <- app_assoc.
Qed.

Lemma parseValue_valueOf v :
  map valueOf (parseValue v) = if twoParts v then [v] else [].
Proof.
  unfold parseValue, twoParts. pose proof (Join_Split v) as HJ.
  destruct (Split v permissions.RefSep) as [|t [|i [|x l]]]; try done.
  simpl. unfold valueOf. simpl. simpl in HJ. by rewrite HJ.
Qed.

(** X1: on the first call of [getSharedReferences] for a sharing by
    reference, the references are those of the values with exactly two
    parts, in their order: each reference joins back, type, separator and
    id, to the value it comes from, and the other values give nothing. *)
Theorem getSharedReferences_values opts :
  sharedRefs opts = None ->
  Selector opts = consts.SelectorReferencedBy K ->
  map valueOf (elems (fst (getSharedReferences opts)))
  = List.filter twoParts (Values_ opts)
  /\ sharedRefs (snd (getSharedReferences opts))
     = fst (getSharedReferences opts)
  /\ is_nil (fst (getSharedReferences opts)) = false.
Proof.
  intros Hnil Hsel. unfold getSharedReferences.
  rewrite Hnil, bool_decide_eq_true_2 by done. simpl.
  split; [|split; [done|by apply parseRefs_not_nil]].
  rewrite parseRefs_flat_map. simpl.
  induction (Values_ opts) as [|v l IH]; simpl; [done|].
  rewrite map_app, parseValue_valueOf, IH. by destruct (twoParts v).
Qed.

Lemma sameRef_eq lr rr : sameRef lr rr = true <-> rr = lr.
Proof.
  unfold sameRef. rewrite andb_true_iff, !String.eqb_eq.
  destruct lr, rr; simpl. split; [intros [-> ->]; done|].
  by intros [= -> ->].
Qed.

Lemma existsb_sameRef lr l : existsb (sameRef lr) l = true <-> In lr l.
Proof.
  rewrite existsb_exists. split.
  - intros (rr & Hin & Heq). apply sameRef_eq in Heq. by subst.
  - intros Hin. exists lr. split; [done|]. by apply sameRef_eq.
Qed.

Lemma findNewRefs_elems opts fileDoc remoteFileDoc :
  let localRelevant :=
    elems (fst (extractRelevantReferences opts (vfs.ReferencedBy fileDoc))) in
  let remoteRelevant :=
    elems (fst (extractRelevantReferences opts
                  (vfs.ReferencedBy remoteFileDoc))) in
  elems (fst (findNewRefs opts fileDoc remoteFileDoc))
  = if Nat.ltb (length remoteRelevant) (length localRelevant)
    then List.filter (fun lr => negb (existsb (sameRef lr) remoteRelevant))
           localRelevant
    else [].
Proof.
  intros localRelevant remoteRelevant. rewrite findNewRefs_fst. cbn zeta.
  unfold len. fold localRelevant remoteRelevant.
  destruct (Nat.ltb _ _); [|done].
  unfold findMissingRefs. fold localRelevant remoteRelevant.
  rewrite missingLoop_filter. by destruct (List.filter _ _).
Qed.

(** X2: every reference [findNewRefs] returns is a reference of the local
    file whose id is in the scope of the sharing, and no reference of the
    remote file, relevant or not, has its id and type: filtering the remote
    references first hides none of them. *)
Theorem findNewRefs_sound opts fileDoc remoteFileDoc :
  Forall
    (fun lr =>
       In lr (elems (vfs.ReferencedBy fileDoc))
       /\ In (couchdb.ID lr)
            (map couchdb.ID (elems (fst (getSharedReferences opts))))
       /\ ~ In lr (elems (vfs.ReferencedBy remoteFileDoc)))
    (elems (fst (findNewRefs opts fileDoc remoteFileDoc))).
Proof.
  rewrite findNewRefs_elems. cbv zeta.
  destruct (Nat.ltb _ _); [|constructor].
  rewrite !extractRelevantReferences_fst, !elems_appended.
  apply Forall_forall. intros lr Hin. apply list_elem_of_In in Hin.
  apply filter_In in Hin as [Hin Hno].
  apply filter_In in Hin as [Hin Hscope].
  split; [done|]. split; [by apply existsb_sameID|].
  intros Hrem. apply negb_true_iff in Hno.
  assert (existsb (sameRef lr)
            (List.filter
               (fun r =>
                  existsb (sameID r) (elems (fst (getSharedReferences opts))))
               (elems (vfs.ReferencedBy remoteFileDoc))) = true); [|congruence].
  apply existsb_sameRef. apply filter_In. done.
Qed.

(** X3: when the relevant local references have no duplicate and outnumber
    the relevant remote ones, [findNewRefs] returns at least one reference:
    the test [refs != nil] of the caller can only fail on duplicates. *)
Theorem findNewRefs_not_nil opts fileDoc remoteFileDoc :
  let localRelevant :=
    elems (fst (extractRelevantReferences opts (vfs.ReferencedBy fileDoc))) in
  let remoteRelevant :=
    elems (fst (extractRelevantReferences opts
                  (vfs.ReferencedBy remoteFileDoc))) in
  List.NoDup localRelevant ->
  length remoteRelevant < length localRelevant ->
  is_nil (fst (findNewRefs opts fileDoc remoteFileDoc)) = false.
Proof.
  intros localRelevant remoteRelevant Hnd Hlt.
  destruct (fst (findNewRefs opts fileDoc remoteFileDoc)) as [l|] eqn:Hres;
    [done|exfalso].
  pose proof (findNewRefs_elems opts fileDoc remoteFileDoc) as He.
  cbv zeta in He. fold localRelevant remoteRelevant in He.
  rewrite Hres in He. simpl in He.
  destruct (Nat.ltb_spec (length remoteRelevant) (length localRelevant));
    [|lia].
  assert (Hincl : incl localRelevant remoteRelevant).
  { intros lr Hin. apply existsb_sameRef.
    destruct (existsb (sameRef lr) remoteRelevant) eqn:E; [done|].
    assert (In lr []); [|done]. rewrite He. apply filter_In.
    by rewrite E. }
  pose proof (List.NoDup_incl_length Hnd Hincl). lia.
Qed.

(** X4: [isShared] is never true of the root directory, also when the root
    is among the accepted ids; of any other id it tells whether it is among
    them. *)
Theorem isShared_spec id acceptedIDs :
  isShared id acceptedIDs = true
  <-> id <> consts.RootDirID K /\ In id acceptedIDs.
Proof.
  assert (Hacc : forall l, inAccepted id l = true <-> In id l).
  { induction l as [|a l IH]; simpl; [by split|].
    destruct (String.eqb_spec id a) as [->|Hne]; [by intuition|].
    rewrite IH. split; [auto|]. intros [Heq|Hin]; [congruence|done]. }
  unfold isShared.
  destruct (String.eqb_spec id (consts.RootDirID K)) as [->|Hne].
  - split; [done|]. by intros [? _].
  - rewrite Hacc. by intuition.
Qed.

(** X5: the edges of [findMissingRefs]: nothing is missing from a list
    compared with itself or from a nil list, everything is missing from a
    nil list of the recipient, and the order and the duplicates of the
    recipient's list do not matter. *)
Theorem findMissingRefs_edges (lref rref rref' : slice couchdb.DocReference) :
  findMissingRefs lref lref = None
  /\ findMissingRefs None rref = None
  /\ findMissingRefs lref None = appended (elems lref)
  /\ ((forall r, In r (elems rref) <-> In r (elems rref')) ->
      findMissingRefs lref rref = findMissingRefs lref rref').
Proof.
  assert (Hf : forall l r, findMissingRefs l r
            = appended (List.filter
                (fun lr => negb (existsb (sameRef lr) (elems r))) (elems l))).
  { intros l r. unfold findMissingRefs. rewrite missingLoop_filter.
    by destruct (List.filter _ _). }
  split; [|split; [|split]].
  - rewrite Hf. apply appended_nil.
    assert (Hincl : forall l L, incl l L ->
              List.filter (fun lr => negb (existsb (sameRef lr) L)) l = []).
    { induction l as [|a l IH]; intros L Hincl; [done|]. simpl.
      assert (existsb (sameRef a) L = true) as ->.
      { apply existsb_sameRef, Hincl. by left. }
      simpl. apply IH. intros x Hx. apply Hincl. by right. }
    apply Hincl. by intros x.
  - by rewrite Hf.
  - rewrite Hf. simpl. f_equal. induction (elems lref) as [|a l IH]; [done|].
    simpl. by f_equal.
  - intros Hsame. rewrite !Hf. f_equal. apply filter_ext. intros lr.
    f_equal. apply eq_true_iff_eq. rewrite !existsb_sameRef. apply Hsame.
Qed.

End MoreReferenceProperties.

(** ** The loops over the recipients *)

Section MoreDispatchProperties.

Context {J : Type} `{EqDecision J} {K : consts.t} {W : World J}.

Implicit Types (st : State (J:=J)) (doc : couchdb.JSONDoc J).

(** A loop whose round sends one request and leaves the options alone sends
    one request to each recipient, in order, and opens and closes nothing. *)
Lemma forEach_one_request (body : RecipientInfo -> M (J:=J) unit)
  (mk : RecipientInfo -> request.Options J) (o : SendOptions) :
  (forall rec st, opts st = o ->
     exists l, body rec st = Ret tt (mkState o (events st ++ Request (mk rec) :: l))
               /\ requestsOf l = [] /\ opened l = 0 /\ closed l = 0) ->
  forall recs st, opts st = o ->
    exists evs, forEach recs body st = Ret tt (mkState o (events st ++ evs))
                /\ requestsOf evs = map mk recs
                /\ opened evs = 0 /\ closed evs = 0.
Proof.
  intros Hbody. induction recs as [|rec recs IH]; intros st Ho.
  - exists []. simpl. unfold ret. rewrite app_nil_r. subst o.
    by destruct st.
  - destruct (Hbody rec st Ho) as (l & Hb & Hl & Hlo & Hlc).
    destruct (IH (mkState o (events st ++ Request (mk rec) :: l)) eq_refl)
      as (evs & Hloop & Hev & Hop & Hcl).
    exists (Request (mk rec) :: l ++ evs).
    cbn [forEach]. unfold bind. rewrite Hb, Hloop. cbn [events].
    rewrite <- app_assoc. split; [done|].
    change (Request (mk rec) :: l ++ evs)
      with ([Request (mk rec)] ++ l ++ evs).
    rewrite !requestsOf_app, !opened_app, !closed_app, Hl, Hev, Hlo, Hlc,
      Hop, Hcl.
    done.
Qed.

Lemma SendDoc_body_request doc rec st :
  exists l,
    SendDoc_body doc rec st
    = Ret tt (mkState (opts st)
                (events st ++
                 Request (docRequest http.MethodPost (Path (opts st))
                            (couchdb.M doc) rec) :: l))
    /\ requestsOf l = [] /\ opened l = 0 /\ closed l = 0.
Proof.
  unfold SendDoc_body, sendDocToRecipient, bind, getOpts, request_Req, ret.
  simpl. fold (jsonHeaders rec).
  destruct (Req _ _); unfold logError, emit; simpl.
  - eexists [_]. rewrite <- app_assoc. done.
  - exists []. done.
Qed.

(** X6: [SendDoc].  When the local document cannot be read the error is
    returned and nothing is sent.  Otherwise the call returns nil, whatever
    the recipients answer, after one [POST] to each recipient in turn, on
    the path of the job, of the document without its [_id] and [_rev]. *)
Theorem SendDoc_posts st :
  match GetDoc (events st) (DocType (opts st)) (DocID (opts st)) with
  | inl err => SendDoc st = Ret (Some err) st
  | inr doc =>
      exists st',
        SendDoc st = Ret None st'
        /\ opts st' = opts st
        /\ requestsOf (since st st')
           = map (docRequest http.MethodPost (Path (opts st))
                    (bodyOf (couchdb.M doc)))
               (Recipients (opts st))
  end.
Proof.
  unfold SendDoc, bind, getOpts, couchdb_GetDoc.
  destruct (GetDoc _ _ _) as [err|doc]; [done|].
  destruct (forEach_one_request
              (SendDoc_body (withM doc (bodyOf (couchdb.M doc))))
              (docRequest http.MethodPost (Path (opts st))
                 (bodyOf (couchdb.M doc)))
              (opts st)) with (recs := Recipients (opts st)) (st := st)
    as (evs & Hloop & Hev & _); [|done|].
  - intros rec st1 Ho.
    destruct (SendDoc_body_request (withM doc (bodyOf (couchdb.M doc))) rec st1)
      as (l & Hb & Hl). rewrite Ho in Hb. eauto.
  - unfold bodyOf in Hloop |- *. rewrite Hloop. unfold ret.
    eexists. split; [reflexivity|]. split; [done|]. by rewrite since_app.
Qed.

Lemma SendDir_body_request dirDoc parentID rec st :
  exists l,
    SendDir_body dirDoc
      (Join (elems (vfs.dir.Tags dirDoc)) (consts.TagSeparator K)) parentID
      rec st
    = Ret tt (mkState (opts st)
                (events st ++
                 Request (dirRequest (Path (opts st)) dirDoc parentID rec)
                 :: l))
    /\ requestsOf l = [] /\ opened l = 0 /\ closed l = 0.
Proof.
  unfold SendDir_body, bind, getOpts, request_Req, ret. simpl.
  fold (dirRequest (Path (opts st)) dirDoc parentID rec).
  destruct (Req _ _); unfold logError, emit; simpl.
  - eexists [_]. rewrite <- app_assoc. done.
  - exists []. done.
Qed.

(** X7: [SendDir].  When the parent directory is refused (the root of a
    sharing without selector) the error is returned and nothing is sent.
    Otherwise the call returns nil, whatever the recipients answer, after
    one [POST] to each recipient in turn, with the parent directory
    [getParentDirID] gives and with the creation time of the directory sent
    both as its creation and as its update time. *)
Theorem SendDir_posts dirDoc st :
  match getParentDirID (opts st) (vfs.dir.DirID dirDoc) with
  | (_, Some err) => SendDir dirDoc st = Ret (Some err) st
  | (parentID, None) =>
      exists st',
        SendDir dirDoc st = Ret None st'
        /\ opts st' = opts st
        /\ requestsOf (since st st')
           = map (dirRequest (Path (opts st)) dirDoc parentID)
               (Recipients (opts st))
  end.
Proof.
  unfold SendDir, bind, getOpts.
  destruct (getParentDirID _ _) as [parentID [err|]]; [done|].
  destruct (forEach_one_request
              (SendDir_body dirDoc
                 (Join (elems (vfs.dir.Tags dirDoc)) (consts.TagSeparator K))
                 parentID)
              (dirRequest (Path (opts st)) dirDoc parentID)
              (opts st)) with (recs := Recipients (opts st)) (st := st)
    as (evs & Hloop & Hev & _); [|done|].
  - intros rec st1 Ho.
    destruct (SendDir_body_request dirDoc parentID rec st1) as (l & Hb & Hl).
    rewrite Ho in Hb. eauto.
  - rewrite Hloop. unfold ret.
    eexists. split; [reflexivity|]. split; [done|]. by rewrite since_app.
Qed.

Lemma RemoveDirOrFileFromSharing_body_request refs rec st :
  exists l,
    RemoveDirOrFileFromSharing_body refs rec st
    = Ret tt (mkState (opts st)
                (events st ++
                 Request (refsRequest http.MethodDelete (DocID (opts st))
                            refs rec) :: l))
    /\ requestsOf l = [] /\ opened l = 0 /\ closed l = 0.
Proof.
  unfold RemoveDirOrFileFromSharing_body, updateReferencesAtRecipient, bind,
    getOpts, request_Req, ret. simpl.
  destruct (Req _ _); unfold logError, emit; simpl.
  - eexists [_]. rewrite <- app_assoc. done.
  - exists []. done.
Qed.

(** X8: [RemoveDirOrFileFromSharing] returns nil, whatever the recipients
    answer, after one [DELETE] to each recipient in turn on
    [/sharings/files/{id}/referenced_by], with the references of the
    sharing as body; the options keep the references once parsed. *)
Theorem RemoveDirOrFileFromSharing_deletes st :
  exists st',
    RemoveDirOrFileFromSharing st = Ret None st'
    /\ opts st' = snd (getSharedReferences (opts st))
    /\ requestsOf (since st st')
       = map (refsRequest http.MethodDelete (DocID (opts st))
                (fst (getSharedReferences (opts st))))
           (Recipients (opts st)).
Proof.
  unfold RemoveDirOrFileFromSharing, bind at 1, withOpts.
  pose proof (sameJob_getSharedReferences (opts st)) as [Hjob _].
  destruct (getSharedReferences (opts st)) as [refs o1]. simpl in Hjob.
  destruct Hjob as (Hid & _ & _ & Hrecs & _). simpl.
  unfold bind at 1, getOpts. cbn [opts].
  destruct (forEach_one_request
              (RemoveDirOrFileFromSharing_body refs)
              (refsRequest http.MethodDelete (DocID o1) refs) o1)
    with (recs := Recipients o1) (st := mkState o1 (events st))
    as (evs & Hloop & Hev & _); [|done|].
  - intros rec st1 Ho.
    destruct (RemoveDirOrFileFromSharing_body_request refs rec st1)
      as (l & Hb & Hl). rewrite Ho in Hb. eauto.
  - unfold bind. rewrite Hloop. unfold ret. cbn [events].
    eexists. split; [reflexivity|]. split; [done|].
    rewrite since_app, Hev, Hid, Hrecs. done.
Qed.

(** *** The content of a file sent to the recipients *)

(** The loop of [SendFile] over a content that is set sends that content. *)
Lemma forEach_SendFile_body_content fileDoc recs st fo :
  fileOpts (opts st) = Some fo -> set fo = true ->
  exists st' evs fo',
    forEach recs (SendFile_body fileDoc) st = Ret tt st'
    /\ events st' = events st ++ evs
    /\ fileOpts (opts st') = Some fo' /\ set fo' = true
    /\ content fo' = content fo
    /\ map request.Domain (requestsOf evs) = map URL recs
    /\ Forall (fun o => request.Method o = http.MethodPost
                        /\ request.Path o = Path (opts st)
                        /\ request.Body_ o = request.FileBody (content fo))
         (requestsOf evs)
    /\ opened evs = 0 /\ closed evs = 0.
Proof.
  revert st fo. induction recs as [|rec recs IH]; intros st fo Hfo Hset.
  - exists st, [], fo. simpl. rewrite app_nil_r.
    repeat (split; [done|]). done.
  - destruct (sendFileToRecipient_sends rec http.MethodPost st fo Hfo Hset)
      as (r & o & o' & fo' & Hsend & Hjob & Hfo' & Hset' & Hc & Hm & Hd & Hp
          & Hb & _).
    assert (exists l, (SendFile_body fileDoc rec st
                       = Ret tt (mkState o' ((events st ++ [Request o]) ++ l)))
                      /\ requestsOf l = [] /\ opened l = 0 /\ closed l = 0)
      as (l & Hbody & Hl & Hlo & Hlc).
    { unfold SendFile_body, bind. rewrite Hsend.
      destruct r; unfold logError, emit, ret; simpl.
      - eexists [_]. by repeat split.
      - exists []. by rewrite app_nil_r. }
    destruct (IH (mkState o' ((events st ++ [Request o]) ++ l)) fo' Hfo' Hset')
      as (st' & evs & fo'' & Hloop & Hev & Hfo'' & Hset'' & Hc' & Hdom
          & Hall & Hop & Hcl).
    exists st', ([Request o] ++ l ++ evs), fo''.
    cbn [forEach]. unfold bind at 1. rewrite Hbody, Hloop.
    split; [done|]. split; [by rewrite Hev; simpl; rewrite <- !app_assoc|].
    split; [done|]. split; [done|]. split; [congruence|].
    rewrite !requestsOf_app, Hl. simpl.
    split; [by rewrite Hd, Hdom|].
    split.
    + constructor; [done|]. simpl in Hall.
      destruct Hjob as (_ & _ & _ & _ & Hpath & _).
      simpl in Hpath. rewrite Hpath, Hc in Hall. done.
    + change (opened (l ++ evs) = 0 /\ closed (l ++ evs) = 0).
      rewrite !opened_app, !closed_app, Hlo, Hlc, Hop, Hcl. done.
Qed.

(** [SendFile] on options whose content is not set, when the file opens. *)
Lemma SendFile_unset_opens fileDoc st h :
  fileIsSet (opts st) = false ->
  OpenFile (events st) fileDoc = inr h ->
  exists o' evs,
    SendFile fileDoc st
    = Ret None (mkState o' (events st
                            ++ Open fileDoc (inr h) :: evs ++ [Close h]))
    /\ opened evs = 0 /\ closed evs = 0
    /\ map request.Domain (requestsOf evs) = map URL (Recipients (opts st))
    /\ Forall (fun o => request.Method o = http.MethodPost
                        /\ request.Path o = Path (opts st)
                        /\ request.Body_ o = request.FileBody h)
         (requestsOf evs).
Proof.
  intros Hunset Hopen.
  destruct (fillDetailsAndOpenFile_opens fileDoc st h Hunset Hopen)
    as (o1 & fo & Hfill & Hjob & Hfo & Hset & Hcontent).
  unfold SendFile, bind at 1. rewrite Hfill. cbv iota beta.
  unfold defer, bind at 1, queries_Add, bind at 1, getOpts.
  cbn [opts]. unfold bind at 1. rewrite Hfo.
  cbn [deref]. unfold ret at 1. unfold modifyOpts at 1. cbn [opts events].
  unfold bind at 1. cbn [opts events].
  set (fo1 := mkFileOptions _ _ _ _ _ _).
  set (st2 := mkState (set_fileOpts (Some fo1) o1)
                (events st ++ [Open fileDoc (inr h)])).
  destruct (forEach_SendFile_body_content fileDoc (Recipients (opts st2))
              st2 fo1 eq_refl Hset)
    as (st' & evs & fo' & Hloop & Hev & Hfo' & Hset' & Hc & Hdom
        & Hall & Hop & Hcl).
  change (Recipients (opts st2))
    with (Recipients (set_fileOpts (Some fo1) o1)) in Hloop.
  unfold bind at 1. rewrite Hloop. unfold ret at 1.
  unfold closeFile, bind, getOpts. rewrite Hfo', Hset'.
  unfold content_Close.
  destruct Hjob as (_ & _ & _ & Hrecs & Hpath & _).
  simpl in Hc, Hdom, Hall. rewrite Hcontent in Hc, Hall.
  rewrite Hrecs in Hdom. rewrite Hpath in Hall.
  exists (opts st'), evs. split; [|done].
  rewrite Hev, Hc. subst st2. cbn [events]. by rewrite <- !app_assoc.
Qed.

(** X9: [SendFile] on options whose content is not set.  When the file
    cannot be opened the error is returned: nothing is sent and nothing is
    closed.  When it opens, the call returns nil after the opening, one
    [POST] of that content to each recipient in turn on the path of the job,
    and, last, the one closing of that content. *)
Theorem SendFile_opens_posts_closes fileDoc st :
  fileIsSet (opts st) = false ->
  match OpenFile (events st) fileDoc with
  | inl err =>
      exists st',
        SendFile fileDoc st = Ret (Some err) st'
        /\ since st st' = [Open fileDoc (inl err)]
        /\ fileOpts (opts st') = fileOpts (opts st)
  | inr h =>
      exists st' evs,
        SendFile fileDoc st = Ret None st'
        /\ since st st' = Open fileDoc (inr h) :: evs ++ [Close h]
        /\ opened evs = 0 /\ closed evs = 0
        /\ map request.Domain (requestsOf evs)
           = map URL (Recipients (opts st))
        /\ Forall (fun o => request.Method o = http.MethodPost
                            /\ request.Path o = Path (opts st)
                            /\ request.Body_ o = request.FileBody h)
             (requestsOf evs)
  end.
Proof.
  intros Hunset. destruct (OpenFile (events st) fileDoc) as [err|h] eqn:Hopen.
  - destruct (fillDetailsAndOpenFile_fails fileDoc st err Hunset Hopen)
      as (o' & Hfill & _ & Hfo).
    unfold SendFile, bind. rewrite Hfill. unfold ret.
    eexists. split; [reflexivity|]. by rewrite since_app.
  - destruct (SendFile_unset_opens fileDoc st h Hunset Hopen)
      as (o' & evs & Hsend & Hrest).
    eexists. exists evs. split; [exact Hsend|]. by rewrite since_app.
Qed.

(** *** The calls that return what went wrong *)

Lemma multierror_Append_not_nil err e : multierror_Append err e <> None.
Proof. by destruct err as [[]|]. Qed.

Lemma DeleteDoc_body_nil rec errFinal st st' :
  DeleteDoc_body rec errFinal st = Ret None st' ->
  errFinal = None
  /\ exists o0 o,
       st' = mkState (opts st) (events st ++ [Request o0; Request o])
       /\ request.Method o0 = http.MethodGet
       /\ request.Method o = http.MethodDelete
       /\ request.Domain o = URL rec
       /\ request.Path o = Path (opts st).
Proof.
  unfold DeleteDoc_body, bind at 1, getOpts. unfold bind at 1.
  destruct (getDocAtRecipient _ _ _ _) as [r st1|st1] eqn:Hget; [|done].
  destruct (getDocAtRecipient_state _ _ _ _ _ _ Hget) as (o0 & -> & Hm).
  destruct r as [err|doc].
  - unfold ret. intros [= Hnil _].
    by apply multierror_Append_not_nil in Hnil.
  - unfold bind at 1.
    destruct (assertString _ _) as [rev st2|st2] eqn:Ha; [|done].
    assert (st2 = mkState (opts st) (events st ++ [Request o0])) as ->.
    { destruct (couchdb.M doc !! "_rev") as [[s|j]|]; simpl in Ha;
        unfold ret, panic in Ha; congruence. }
    unfold bind, request_Req, ret. cbn [opts events].
    destruct (Req _ _).
    + intros [= Hnil _]. by apply multierror_Append_not_nil in Hnil.
    + intros [= -> <-]. split; [done|].
      eexists o0, _. rewrite <- app_assoc. by repeat split.
Qed.

Lemma DeleteDoc_loop_nil recs errFinal st st' :
  DeleteDoc_loop recs errFinal st = Ret None st' ->
  errFinal = None
  /\ opts st' = opts st
  /\ exists evs,
       events st' = events st ++ evs
       /\ map request.Domain (List.filter changing (requestsOf evs))
          = map URL recs
       /\ Forall (fun o => request.Method o = http.MethodDelete
                           /\ request.Path o = Path (opts st))
            (List.filter changing (requestsOf evs)).
Proof.
  revert errFinal st. induction recs as [|rec recs IH]; intros errFinal st.
  - simpl. unfold ret. intros [= -> <-]. split; [done|]. split; [done|].
    exists []. by rewrite app_nil_r.
  - cbn [DeleteDoc_loop]. unfold bind at 1.
    destruct (DeleteDoc_body rec errFinal st) as [e1 st1|st1] eqn:Hb; [|done].
    intros Hloop.
    destruct (IH _ _ Hloop) as (-> & Ho & evs & Hev & Hdom & Hall).
    destruct (DeleteDoc_body_nil _ _ _ _ Hb)
      as (-> & o0 & o & -> & Hm0 & Hm & Hd & Hp).
    cbn [opts events] in *. split; [done|]. split; [done|].
    exists ([Request o0; Request o] ++ evs).
    split; [by rewrite Hev, <- app_assoc|].
    rewrite requestsOf_app.
    change (requestsOf [Request o0; Request o]) with [o0; o].
    assert (Hc0 : changing o0 = false) by (unfold changing; by rewrite Hm0).
    assert (Hc : changing o = true) by (unfold changing; by rewrite Hm).
    cbn [app List.filter]. rewrite Hc0, Hc. cbn [map].
    rewrite Hd, Hdom. split; [done|]. by constructor.
Qed.

(** X10: [DeleteDoc] returns nil only when every recipient was sent its
    [DELETE]: the changing requests of the call are then one [DELETE] to
    each recipient in turn, on the path of the job. *)
Theorem DeleteDoc_nil_all_deleted st st' :
  DeleteDoc st = Ret None st' ->
  map request.Domain (issued st st') = map URL (Recipients (opts st))
  /\ Forall (fun o => request.Method o = http.MethodDelete
                      /\ request.Path o = Path (opts st)) (issued st st').
Proof.
  unfold DeleteDoc, bind, getOpts. intros Hloop.
  destruct (DeleteDoc_loop_nil _ _ _ _ Hloop) as (_ & _ & evs & Hev & ? & ?).
  unfold issued, since. rewrite Hev, drop_app_length. done.
Qed.

Lemma PatchDir_loop_nil patch dirDoc recs errFinal st st' :
  PatchDir_loop patch dirDoc recs errFinal st = Ret None st' ->
  errFinal = None
  /\ exists evs,
       events st' = events st ++ evs
       /\ map request.Domain (List.filter changing (requestsOf evs))
          = map URL recs
       /\ Forall (fun o => request.Method o = http.MethodPatch
                           /\ request.Path o = Path (opts st)
                           /\ request.Body_ o = request.DocumentBody patch)
            (List.filter changing (requestsOf evs)).
Proof.
  revert errFinal st. induction recs as [|rec recs IH]; intros errFinal st.
  - simpl. unfold ret. intros [= -> <-]. split; [done|].
    exists []. by rewrite app_nil_r.
  - cbn [PatchDir_loop]. unfold bind at 1, getOpts. unfold bind at 1.
    destruct (getDirOrFileRevAtRecipient _ _ _) as [[rev [err|]] st1|st1]
      eqn:Hrev; [done| |done].
    destruct (getDirOrFileRevAtRecipient_state _ _ _ _ _ Hrev)
      as (o0 & -> & Hm0 & _).
    unfold bind at 1, modifyOpts. cbn [opts events].
    unfold bind at 1, sendPatchToRecipient, bind at 1, getOpts.
    cbn [opts events].
    destruct (getParentDirID _ _) as [parentID [e|]].
    + unfold ret at 1. intros Hloop. apply IH in Hloop as (Hnil & _).
      by apply multierror_Append_not_nil in Hnil.
    + unfold bind at 1, request_Req. cbn [opts events].
      set (o := request.mkOptions _ _ _ _ _ _ _ _).
      destruct (Req _ o) as [e|body]; cbn [errOf]; unfold ret at 1.
      * intros Hloop. apply IH in Hloop as (Hnil & _).
        by apply multierror_Append_not_nil in Hnil.
      * intros Hloop.
        destruct (IH _ _ Hloop) as (-> & evs & Hev & Hdom & Hall).
        cbn [opts events] in *. split; [done|].
        exists ([Request o0; Request o] ++ evs).
        split; [by rewrite Hev, <- !app_assoc|].
        rewrite requestsOf_app.
        change (requestsOf [Request o0; Request o]) with [o0; o].
        assert (Hc0 : changing o0 = false)
          by (unfold changing; by rewrite Hm0).
        cbn [app List.filter]. rewrite Hc0.
        change (changing o) with true. cbn [map].
        rewrite Hdom. split; [done|]. by constructor.
Qed.

(** X11: [PatchDir] returns nil only when every recipient was sent the
    patch: the changing requests of the call are then one [PATCH] to each
    recipient in turn, on the path of the job, each with the patch made of
    the local directory. *)
Theorem PatchDir_nil_all_patched dirDoc st st' :
  PatchDir dirDoc st = Ret None st' ->
  map request.Domain (issued st st') = map URL (Recipients (opts st))
  /\ Forall (fun o => request.Method o = http.MethodPatch
                      /\ request.Path o = Path (opts st)
                      /\ request.Body_ o
                         = request.DocumentBody (patchOfDir dirDoc))
       (issued st st').
Proof.
  unfold PatchDir, bind, generateDirOrFilePatch, ret, getOpts. intros Hloop.
  destruct (PatchDir_loop_nil _ _ _ _ _ _ Hloop) as (_ & evs & Hev & ? & ?).
  unfold issued, since. rewrite Hev, drop_app_length. done.
Qed.

(** *** One opening for all the calls *)

(** X12: [fillDetailsAndOpenFile] never panics, and what a second call does
    depends on the first alone.  After a call that returned nil, a call for
    any file returns nil and leaves everything as it is: the content stays
    that of the first file.  After a call that returned an error the options
    are still unset, and the next call asks the file system again. *)
Theorem fillDetailsAndOpenFile_once fileDoc other st :
  match fillDetailsAndOpenFile fileDoc st with
  | Ret None st1 =>
      fileIsSet (opts st1) = true
      /\ fillDetailsAndOpenFile other st1 = Ret None st1
  | Ret (Some e) st1 =>
      fileIsSet (opts st1) = false
      /\ since st st1 = [Open fileDoc (inl e)]
      /\ since st1 (final (fillDetailsAndOpenFile other st1))
         = [Open other (OpenFile (events st1) other)]
  | Panic _ => False
  end.
Proof.
  destruct (fileIsSet (opts st)) eqn:Hs.
  - rewrite (fillDetailsAndOpenFile_set fileDoc st Hs).
    split; [done|]. by apply fillDetailsAndOpenFile_set.
  - destruct (OpenFile (events st) fileDoc) as [e|h] eqn:Hopen.
    + destruct (fillDetailsAndOpenFile_fails fileDoc st e Hs Hopen)
        as (o' & -> & _ & Hfo).
      assert (Hs' : fileIsSet o' = false)
        by (unfold fileIsSet in *; by rewrite Hfo).
      split; [done|]. split; [by rewrite since_app|].
      set (st1 := mkState o' _).
      destruct (OpenFile (events st1) other) as [e'|h'] eqn:Hopen'.
      * destruct (fillDetailsAndOpenFile_fails other st1 e' Hs' Hopen')
          as (o'' & -> & _). cbn [final]. by rewrite since_app.
      * destruct (fillDetailsAndOpenFile_opens other st1 h' Hs' Hopen')
          as (o'' & fo & -> & _). cbn [final]. by rewrite since_app.
    + destruct (fillDetailsAndOpenFile_opens fileDoc st h Hs Hopen)
        as (o' & fo & -> & _ & Hfo & Hset & _).
      assert (Hs' : fileIsSet o' = true)
        by (unfold fileIsSet; by rewrite Hfo).
      split; [done|]. by apply fillDetailsAndOpenFile_set.
Qed.

(** *** The update of a document *)

(** X13: what [docHasChanges] leaves behind.  With strings under the three
    asserted fields, the local document comes back as it was, the remote one
    comes back without its [_id] and otherwise as it was, and the answer is
    the same whichever of the two bodies is taken as the new one. *)
Theorem docHasChanges_effect newDoc doc st :
  isString (couchdb.M newDoc !! "_id") = true ->
  isString (couchdb.M newDoc !! "_rev") = true ->
  isString (couchdb.M doc !! "_rev") = true ->
  exists changed doc',
    docHasChanges newDoc doc st = Ret (changed, newDoc, doc') st
    /\ couchdb.M doc' = delete "_id" (couchdb.M doc)
    /\ couchdb.Type' doc' = couchdb.Type' doc
    /\ (changed = false
        <-> bodyOf (couchdb.M newDoc) = bodyOf (couchdb.M doc))
    /\ (isString (couchdb.M doc !! "_id") = true ->
        exists r, docHasChanges doc newDoc st = Ret r st
                  /\ fst (fst r) = changed).
Proof.
  intros H1 H2 H3.
  destruct (assertString_isString _ st H1) as (i & Hi & Ai).
  destruct (assertString_isString _ st H2) as (r & Hr & Ar).
  destruct (assertString_isString _ st H3) as (r' & Hr' & Ar').
  unfold docHasChanges at 1, bind. rewrite Ai, Ar, Ar'. unfold ret.
  fold (bodyOf (couchdb.M newDoc)). fold (bodyOf (couchdb.M doc)).
  rewrite restore_fields by done.
  do 2 eexists. split; [by destruct newDoc|]. cbn [withM couchdb.M couchdb.Type'].
  split.
  { unfold bodyOf. rewrite insert_delete_id; [done|].
    by rewrite lookup_delete_ne. }
  split; [done|]. split.
  { rewrite negb_false_iff. apply bool_decide_eq_true. }
  intros H4.
  destruct (docHasChanges_returns doc newDoc st H4 H3 H2) as (d & -> & _).
  eexists. split; [reflexivity|]. cbn [fst]. f_equal.
  apply bool_decide_ext. split; congruence.
Qed.

Lemma getDocAtRecipient_returns doctype docID rec st :
  exists r o0,
    getDocAtRecipient doctype docID rec st
    = Ret r (mkState (opts st) (events st ++ [Request o0]))
    /\ request.Method o0 = http.MethodGet.
Proof.
  unfold getDocAtRecipient, bind, request_Req, ret.
  destruct (Req _ _); eauto.
Qed.

(** One round of [UpdateDoc], however it ends: the options stay, the only
    changing request is a [PUT] to the recipient of a body that is the local
    document but for its [_rev], and the document of the next round is the
    local document but for its [_rev]. *)
Lemma UpdateDoc_body_puts doc rec st :
  exists evs,
    events (final (UpdateDoc_body doc rec st)) = events st ++ evs
    /\ opts (final (UpdateDoc_body doc rec st)) = opts st
    /\ Forall (fun o => request.Method o = http.MethodPut
                        /\ request.Domain o = URL rec
                        /\ request.Path o = Path (opts st)
                        /\ exists m, request.Body_ o = request.JSONBody m
                                     /\ delete "_rev" m
                                        = delete "_rev" (couchdb.M doc))
         (List.filter changing (requestsOf evs))
    /\ (forall doc' st', UpdateDoc_body doc rec st = Ret doc' st' ->
          delete "_rev" (couchdb.M doc') = delete "_rev" (couchdb.M doc)).
Proof.
  destruct (getDocAtRecipient_returns (DocType (opts st)) (DocID (opts st))
              rec st) as (r & o0 & Hget & Hm0).
  assert (Hc0 : changing o0 = false) by (unfold changing; by rewrite Hm0).
  destruct r as [err|remoteDoc].
  - assert (Hb : UpdateDoc_body doc rec st
                 = Ret doc (mkState (opts st)
                     (events st ++
                      [Request o0;
                       Log "[sharing] An error occurred while trying to get remote doc : "
                         (Some err)]))).
    { unfold UpdateDoc_body, bind, getOpts. rewrite Hget.
      unfold logError, emit, ret. cbn [opts events].
      by rewrite <- app_assoc. }
    rewrite Hb. cbn [final events opts]. eexists. split; [reflexivity|].
    split; [done|]. cbn. rewrite Hc0. split; [done|]. by intros ? ? [= <- _].
  - set (st1 := mkState (opts st) (events st ++ [Request o0])) in *.
    destruct (isString (couchdb.M doc !! "_id")
              && isString (couchdb.M doc !! "_rev")
              && isString (couchdb.M remoteDoc !! "_rev")) eqn:Hs.
    + apply andb_true_iff in Hs as [Hs H3].
      apply andb_true_iff in Hs as [H1 H2].
      destruct (docHasChanges_returns doc remoteDoc st1 H1 H2 H3)
        as (doc' & Hchg & Hrev').
      set (changed := negb _) in Hchg. clearbody changed.
      destruct changed; [|assert (Hb : UpdateDoc_body doc rec st = Ret doc st1)].
      2:{ unfold UpdateDoc_body, bind, getOpts. by rewrite Hget, Hchg. }
      2:{
        rewrite Hb. cbn [final events opts st1].
        exists [Request o0]. split; [done|]. split; [done|].
        cbn. rewrite Hc0. split; [done|]. by intros ? ? [= <- _]. }
      * destruct (assertString_isString _ st1 H3) as (rev & _ & Hrev).
        set (o := request.mkOptions (URL rec) (Scheme rec) http.MethodPut
                    (Path (opts st))
                    (<["Authorization" := bearer (Token rec)]>
                     (<["Accept" := "application/json"]>
                     (<["Content-Type" := "application/json"]> ∅)))
                    ∅ (request.JSONBody
                         (<["_rev" := couchdb.JString rev]> (couchdb.M doc)))
                    true).
        assert (Hb : exists l,
                  UpdateDoc_body doc rec st
                  = Ret (setRev doc rev)
                      (mkState (opts st)
                         (events st ++ [Request o0; Request o] ++ l))
                  /\ requestsOf l = []) .
        { unfold UpdateDoc_body, bind, getOpts. rewrite Hget, Hchg.
          cbn [negb]. rewrite Hrev', Hrev.
          unfold sendDocToRecipient, bind, getOpts, request_Req, ret.
          cbn [opts events st1].
          change (couchdb.M (setRev doc rev))
            with (<["_rev" := couchdb.JString rev]> (couchdb.M doc)).
          fold o.
          destruct (Req _ o); cbn [errOf]; unfold logError, emit;
            cbn [opts events].
          - eexists [_]. by rewrite <- !app_assoc.
          - exists []. by rewrite <- !app_assoc. }
        destruct Hb as (l & Hb & Hl). rewrite Hb. cbn [final events opts].
        eexists. split; [reflexivity|]. split; [done|].
        rewrite requestsOf_app, Hl, app_nil_r. split.
        -- cbn. rewrite Hc0. change (changing o) with true. cbn.
           constructor; [|done]. repeat (split; [done|]).
           eexists. split; [reflexivity|]. by rewrite delete_insert_eq.
        -- intros ? ? [= <- _]. cbn. by rewrite delete_insert_eq.
    + assert (Hb : UpdateDoc_body doc rec st = Panic st1).
      { unfold UpdateDoc_body, bind, getOpts. rewrite Hget.
        by rewrite (docHasChanges_panics doc remoteDoc st1 Hs). }
      rewrite Hb. cbn [final events opts st1].
      exists [Request o0]. split; [done|]. split; [done|].
      cbn. rewrite Hc0. split; [done|]. done.
Qed.

Lemma UpdateDoc_loop_puts doc0 recs : forall doc st,
  delete "_rev" (couchdb.M doc) = delete "_rev" (couchdb.M doc0) ->
  exists evs,
    events (final (UpdateDoc_loop doc recs st)) = events st ++ evs
    /\ opts (final (UpdateDoc_loop doc recs st)) = opts st
    /\ Forall (fun o => request.Method o = http.MethodPut
                        /\ In (request.Domain o) (map URL recs)
                        /\ request.Path o = Path (opts st)
                        /\ exists m, request.Body_ o = request.JSONBody m
                                     /\ delete "_rev" m
                                        = delete "_rev" (couchdb.M doc0))
         (List.filter changing (requestsOf evs)).
Proof.
  induction recs as [|rec recs IH]; intros doc st Hdoc.
  - exists []. cbn. by rewrite app_nil_r.
  - destruct (UpdateDoc_body_puts doc rec st)
      as (evs1 & Hev1 & Ho1 & Hall1 & Hnext).
    cbn [UpdateDoc_loop]. unfold bind.
    destruct (UpdateDoc_body doc rec st) as [doc1 st1|st1] eqn:Hb;
      cbn [final] in *.
    + destruct (IH doc1 st1) as (evs2 & Hev2 & Ho2 & Hall2).
      { rewrite (Hnext _ _ eq_refl). exact Hdoc. }
      exists (evs1 ++ evs2).
      split; [by rewrite Hev2, Hev1, <- app_assoc|].
      split; [by rewrite Ho2|].
      rewrite requestsOf_app, List.filter_app. apply Forall_app. split.
      * eapply Forall_impl; [exact Hall1|].
        intros o (Hm & Hd & Hp & m & Hbody & Hdel).
        split; [done|]. split; [by left|]. split; [done|].
        exists m. split; [done|]. by rewrite Hdel.
      * eapply Forall_impl; [exact Hall2|].
        intros o (Hm & Hd & Hp & Hbody).
        split; [done|]. split; [by right|]. split; [by rewrite <- Ho1|].
        done.
    + exists evs1. split; [done|]. split; [done|].
      eapply Forall_impl; [exact Hall1|].
      intros o (Hm & Hd & Hp & m & Hbody & Hdel).
      split; [done|]. split; [by left|]. split; [done|].
      exists m. split; [done|]. by rewrite Hdel.
Qed.

(** X14: [UpdateDoc].  When the local document cannot be read the error is
    returned and nothing is sent.  Otherwise the call reports no error,
    whatever the recipients answer: it returns nil or panics on an
    assertion; and, however it ends, the requests that change a recipient
    are [PUT]s to recipients of the job, on its path, of the local document
    with nothing but its [_rev] replaced. *)
Theorem UpdateDoc_puts_local_document st :
  match GetDoc (events st) (DocType (opts st)) (DocID (opts st)) with
  | inl err => UpdateDoc st = Ret (Some err) st
  | inr doc =>
      let st' := final (UpdateDoc st) in
      (UpdateDoc st = Ret None st' \/ UpdateDoc st = Panic st')
      /\ opts st' = opts st
      /\ Forall (fun o => request.Method o = http.MethodPut
                          /\ In (request.Domain o)
                               (map URL (Recipients (opts st)))
                          /\ request.Path o = Path (opts st)
                          /\ exists m, request.Body_ o = request.JSONBody m
                                       /\ delete "_rev" m
                                          = delete "_rev" (couchdb.M doc))
           (issued st st')
  end.
Proof.
  destruct (GetDoc _ _ _) as [err|doc] eqn:Hg.
  { unfold UpdateDoc, bind, getOpts, couchdb_GetDoc. by rewrite Hg. }
  assert (Hu : UpdateDoc st
               = match UpdateDoc_loop doc (Recipients (opts st)) st with
                 | Ret _ st' => Ret None st'
                 | Panic st' => Panic st'
                 end).
  { unfold UpdateDoc, bind, getOpts, couchdb_GetDoc. by rewrite Hg. }
  rewrite Hu.
  destruct (UpdateDoc_loop_puts doc (Recipients (opts st)) doc st eq_refl)
    as (evs & Hev & Ho & Hall).
  destruct (UpdateDoc_loop doc _ _) as [[] st1|st1];
    cbn [final] in *; (split; [by auto|]); (split; [done|]);
    unfold issued, since; by rewrite Hev, drop_app_length.
Qed.

(** *** Reading the state of a recipient *)

(** X16: the three calls that read the state of a recipient send it one
    [GET] without body or query, on [/data/{doctype}/{id}] for a document
    and on [/files/{id}] for a file or a directory, and leave the options as
    they are, whether they return or panic; no revision comes with an
    error. *)
Theorem reads_send_one_get rec st :
  (forall doctype id, exists o,
      final (getDocAtRecipient doctype id rec st)
      = mkState (opts st) (events st ++ [Request o])
      /\ request.Method o = http.MethodGet
      /\ request.Domain o = URL rec
      /\ request.Path o
         = String.append "/data/" (String.append doctype
             (String.append "/" id))
      /\ request.Body_ o = request.NoBody /\ request.Queries o = ∅)
  /\ (forall id, exists o,
      final (getDirOrFileMetadataAtRecipient id rec st)
      = mkState (opts st) (events st ++ [Request o])
      /\ final (getDirOrFileRevAtRecipient id rec st)
         = mkState (opts st) (events st ++ [Request o])
      /\ request.Method o = http.MethodGet
      /\ request.Domain o = URL rec
      /\ request.Path o = String.append "/files/" id
      /\ request.Body_ o = request.NoBody /\ request.Queries o = ∅
      /\ (forall rev err st',
            getDirOrFileRevAtRecipient id rec st = Ret (rev, Some err) st' ->
            rev = "")).
Proof.
  split.
  - intros doctype id. eexists.
    unfold getDocAtRecipient, bind, request_Req, ret.
    split; [by destruct (Req _ _)|]. done.
  - intros id.
    exists (request.mkOptions (URL rec) (Scheme rec) http.MethodGet
              (String.append "/files/" id)
              (<[echo.HeaderAuthorization := bearer (Token rec)]>
               (<[echo.HeaderAcceptEncoding := echo.MIMEApplicationJSON]>
               (<[echo.HeaderContentType := echo.MIMEApplicationJSON]> ∅)))
              ∅ request.NoBody false).
    set (o := request.mkOptions _ _ _ _ _ _ _ _).
    assert (Hm : final (getDirOrFileMetadataAtRecipient id rec st)
                 = mkState (opts st) (events st ++ [Request o])).
    { unfold getDirOrFileMetadataAtRecipient, bind, request_Req, ret, panic.
      destruct (Req _ _) as [e|body]; cbn [final].
      - by destruct (String.eqb _ _).
      - destruct (bindDirOrFile body) as [|e|[d|]]; try done;
          by destruct (vfs.Refine d). }
    split; [exact Hm|]. split.
    { unfold getDirOrFileRevAtRecipient, bind.
      destruct (getDirOrFileMetadataAtRecipient id rec st)
        as [[[[d|] [f|]] [e|]] st1|st1]; exact Hm. }
    repeat (split; [done|]).
    intros rev err st'. unfold getDirOrFileRevAtRecipient, bind.
    destruct (getDirOrFileMetadataAtRecipient id rec st)
      as [[[[d|] [f|]] [e|]] st1|st1]; unfold ret; congruence.
Qed.

End MoreDispatchProperties.


(** ** The worker *)

Section WorkerProperties.

Context {J : Type} `{EqDecision J} {K : consts.t} {W : World J} {B : Job J}.

Implicit Types (st : State (J:=J)).

Lemma requests_of_each (mk : RecipientInfo -> request.Options J) path recs :
  (forall rec, request.Method (mk rec) = http.MethodPost
               /\ request.Path (mk rec) = path
               /\ request.Domain (mk rec) = URL rec) ->
  Forall (fun q => request.Method q = http.MethodPost
                   /\ request.Path q = path) (map mk recs)
  /\ map request.Domain (map mk recs) = map URL recs.
Proof.
  intros Hmk. induction recs as [|rec recs [IH1 IH2]]; [done|].
  destruct (Hmk rec) as (Hm & Hp & Hd). cbn [map]. split.
  - by constructor.
  - by rewrite Hd, IH2.
Qed.

(** What [SendData] asks of the three calls it ends in: only [POST]s on
    the path of the options, to every recipient in turn when the call
    returns nil. *)
Lemma SendDoc_run st :
  exists e o' evs,
    SendDoc st = Ret e (mkState o' (events st ++ evs))
    /\ Forall (fun q => request.Method q = http.MethodPost
                        /\ request.Path q = Path (opts st)) (requestsOf evs)
    /\ (e = None -> map request.Domain (requestsOf evs)
                    = map URL (Recipients (opts st))).
Proof.
  unfold SendDoc, bind, getOpts, couchdb_GetDoc.
  destruct (GetDoc _ _ _) as [err|doc].
  { exists (Some err), (opts st), []. rewrite app_nil_r. unfold ret.
    split; [by destruct st|]. by split. }
  destruct (forEach_one_request
              (SendDoc_body (withM doc (bodyOf (couchdb.M doc))))
              (docRequest http.MethodPost (Path (opts st))
                 (bodyOf (couchdb.M doc)))
              (opts st)) with (recs := Recipients (opts st)) (st := st)
    as (evs & Hloop & Hev & _); [|done|].
  - intros rec st1 Ho.
    destruct (SendDoc_body_request (withM doc (bodyOf (couchdb.M doc))) rec st1)
      as (l & Hb & Hl). rewrite Ho in Hb. eauto.
  - unfold bodyOf in Hloop |- *. rewrite Hloop. unfold ret.
    exists None, (opts st), evs. split; [done|].
    fold (bodyOf (couchdb.M doc)) in Hev. rewrite Hev.
    destruct (requests_of_each
                (docRequest http.MethodPost (Path (opts st))
                   (bodyOf (couchdb.M doc)))
                (Path (opts st)) (Recipients (opts st))); [done|]. done.
Qed.

Lemma SendDir_run dirDoc st :
  exists e o' evs,
    SendDir dirDoc st = Ret e (mkState o' (events st ++ evs))
    /\ Forall (fun q => request.Method q = http.MethodPost
                        /\ request.Path q = Path (opts st)) (requestsOf evs)
    /\ (e = None -> map request.Domain (requestsOf evs)
                    = map URL (Recipients (opts st))).
Proof.
  unfold SendDir, bind, getOpts.
  destruct (getParentDirID _ _) as [parentID [err|]].
  { exists (Some err), (opts st), []. rewrite app_nil_r. unfold ret.
    split; [by destruct st|]. by split. }
  destruct (forEach_one_request
              (SendDir_body dirDoc
                 (Join (elems (vfs.dir.Tags dirDoc)) (consts.TagSeparator K))
                 parentID)
              (dirRequest (Path (opts st)) dirDoc parentID)
              (opts st)) with (recs := Recipients (opts st)) (st := st)
    as (evs & Hloop & Hev & _); [|done|].
  - intros rec st1 Ho.
    destruct (SendDir_body_request dirDoc parentID rec st1) as (l & Hb & Hl).
    rewrite Ho in Hb. eauto.
  - rewrite Hloop. unfold ret.
    exists None, (opts st), evs. split; [done|]. rewrite Hev.
    destruct (requests_of_each
                (dirRequest (Path (opts st)) dirDoc parentID)
                (Path (opts st)) (Recipients (opts st))); [done|]. done.
Qed.

Lemma SendFile_run fileDoc st :
  fileIsSet (opts st) = false ->
  exists e o' evs,
    SendFile fileDoc st = Ret e (mkState o' (events st ++ evs))
    /\ Forall (fun q => request.Method q = http.MethodPost
                        /\ request.Path q = Path (opts st)) (requestsOf evs)
    /\ (e = None -> map request.Domain (requestsOf evs)
                    = map URL (Recipients (opts st))).
Proof.
  intros Hunset. destruct (OpenFile (events st) fileDoc) as [err|h] eqn:Hopen.
  - destruct (fillDetailsAndOpenFile_fails fileDoc st err Hunset Hopen)
      as (o' & Hfill & _ & Hfo).
    unfold SendFile, bind. rewrite Hfill. unfold ret.
    exists (Some err), o', [Open fileDoc (inl err)]. by repeat split.
  - destruct (SendFile_unset_opens fileDoc st h Hunset Hopen)
      as (o' & evs & Hsend & _ & _ & Hdom & Hall).
    exists None, o', (Open fileDoc (inr h) :: evs ++ [Close h]).
    split; [exact Hsend|].
    change (Open fileDoc (inr h) :: evs ++ [Close h])
      with ([Open (J:=J) fileDoc (inr h)] ++ evs ++ [Close h]).
    rewrite !requestsOf_app. cbn [requestsOf flat_map app]. rewrite app_nil_r.
    split; [|done].
    eapply Forall_impl; [exact Hall|]. by intros q (? & ? & _).
Qed.

Lemma SendData_run st domain o :
  ContextDomain = Some domain -> Unmarshal = inr (Some o) ->
  instance_Get domain = None ->
  forall r, SendData st = r ->
  exists evs,
    events (final r) = events st ++ evs
    /\ Forall (fun q => request.Method q = http.MethodPost
                        /\ request.Path q = pathOf o) (requestsOf evs)
    /\ (forall st', r = Ret None st' ->
          map request.Domain (requestsOf evs) = map URL (Recipients o)).
Proof.
  intros Hd Hu Hi r Hr.
  unfold SendData, bind at 1 in Hr. rewrite Hd in Hr. cbn [deref] in Hr.
  unfold ret at 1 in Hr. rewrite Hu, Hi in Hr. cbn [deref] in Hr.
  unfold bind at 1, ret at 1 in Hr. unfold bind at 1, modifyOpts at 1 in Hr.
  unfold bind at 1, getOpts in Hr. cbn [opts events] in Hr.
  set (o1 := set_Path (pathOf o) (decoded o)) in Hr.
  assert (Hnone : exists evs : list (Event J),
            events st = events st ++ evs
            /\ Forall (fun q => request.Method q = http.MethodPost
                                /\ request.Path q = pathOf o) (requestsOf evs)
            /\ (forall st' (err : error), Ret (Some err) (mkState o1 (events st))
                            = Ret None st' ->
                  map request.Domain (requestsOf evs)
                  = map URL (Recipients o))).
  { exists []. by rewrite app_nil_r. }
  destruct (String.eqb _ _).
  - unfold bind at 1, vfs_DirOrFileByID in Hr. cbn [events] in Hr.
    destruct (DirOrFileByID _ _) as [[[dirDoc|] fileDoc] [err|]].
    + subst r. destruct Hnone as (evs & ? & ? & Hn). exists evs.
      by eauto.
    + unfold bind at 1, modifyOpts at 1 in Hr.
      unfold bind at 1, emit at 1 in Hr. cbn [opts events] in Hr.
      set (st1 := mkState _ _) in Hr.
      destruct (SendDir_run dirDoc st1) as (e & o' & evs & Hs & Hall & Hdom).
      rewrite Hs in Hr. subst r. cbn [final events st1].
      exists ([Log "[sharings] Sending directory: %#v" None] ++ evs).
      rewrite <- app_assoc. split; [done|]. rewrite requestsOf_app.
      split; [exact Hall|]. intros st' [= -> _]. by apply Hdom.
    + subst r. destruct Hnone as (evs & ? & ? & Hn). exists evs.
      by eauto.
    + unfold bind at 1, modifyOpts at 1 in Hr.
      unfold bind at 1, emit at 1 in Hr. cbn [opts events] in Hr.
      set (st1 := mkState _ _) in Hr.
      destruct fileDoc as [fileDoc|]; cbn [deref] in Hr.
      * unfold bind at 1, ret at 1 in Hr.
        destruct (SendFile_run fileDoc st1 eq_refl)
          as (e & o' & evs & Hs & Hall & Hdom).
        rewrite Hs in Hr. subst r. cbn [final events st1].
        exists ([Log "[sharings] Sending file: %v" None] ++ evs).
        rewrite <- app_assoc. split; [done|]. rewrite requestsOf_app.
        split; [exact Hall|]. intros st' [= -> _]. by apply Hdom.
      * unfold bind, panic in Hr. subst r. cbn [final events st1].
        exists [Log "[sharings] Sending file: %v" None].
        split; [done|]. by split.
  - unfold bind at 1, emit at 1 in Hr. cbn [opts events] in Hr.
    set (st1 := mkState _ _) in Hr.
    destruct (SendDoc_run st1) as (e & o' & evs & Hs & Hall & Hdom).
    rewrite Hs in Hr. subst r. cbn [final events st1].
    exists ([Log "[sharings] Sending JSON (%v): %v" None] ++ evs).
    rewrite <- app_assoc. split; [done|]. rewrite requestsOf_app.
    split; [exact Hall|]. intros st' [= -> _]. by apply Hdom.
Qed.

(** X15: [SendData], the worker.  It panics when the domain of the context
    is not a string, and returns the error of the decoding or of the
    instance with nothing done.  Past these, whatever path and type the
    message carried, every request of the call is a [POST] on
    [/sharings/doc/{doctype}/{id}], and a call that returns nil has sent one
    to each recipient of the message in turn. *)
Theorem SendData_posts st :
  match ContextDomain with
  | None => SendData st = Panic st
  | Some domain =>
      match Unmarshal with
      | inl err => SendData st = Ret (Some err) st
      | inr p =>
          match instance_Get domain with
          | Some err => SendData st = Ret (Some err) st
          | None =>
              match p with
              | None => SendData st = Panic st
              | Some o =>
                  let st' := final (SendData st) in
                  Forall (fun q => request.Method q = http.MethodPost
                                   /\ request.Path q = pathOf o)
                    (requestsOf (since st st'))
                  /\ (SendData st = Ret None st' ->
                      map request.Domain (requestsOf (since st st'))
                      = map URL (Recipients o))
              end
          end
      end
  end.
Proof.
  destruct ContextDomain as [domain|] eqn:Hd.
  2:{ unfold SendData, bind. by rewrite Hd. }
  destruct Unmarshal as [err|p] eqn:Hu.
  { unfold SendData, bind. rewrite Hd. cbn [deref]. unfold ret at 1.
    by rewrite Hu. }
  destruct (instance_Get domain) as [err|] eqn:Hi.
  { unfold SendData, bind. rewrite Hd. cbn [deref]. unfold ret at 1.
    by rewrite Hu, Hi. }
  destruct p as [o|].
  2:{ unfold SendData, bind. rewrite Hd. cbn [deref]. unfold ret at 1.
      by rewrite Hu, Hi. }
  intros st'.
  destruct (SendData_run st domain o Hd Hu Hi _ eq_refl)
    as (evs & Hev & Hall & Hdom).
  unfold since. fold st' in Hev, Hdom. rewrite Hev, drop_app_length.
  split; [exact Hall|]. intros Hret. by apply (Hdom st').
Qed.

End WorkerProperties.

(** * More of the file, on the scenarios *)

Lemma getSharedReferences_values_witness :
  map valueOf (elems (fst (getSharedReferences (K:=K1) albumOptions)))
  = ["io.cozy.albums/A"; "io.cozy.albums/B"]
  /\ is_nil (fst (getSharedReferences (K:=K1) albumOptions)) = false.
Proof.
  destruct (getSharedReferences_values (K:=K1) albumOptions eq_refl eq_refl)
    as (Hvalues & _ & Hnil).
  split; [exact Hvalues|exact Hnil].
Defined.

Lemma findNewRefs_not_nil_witness :
  is_nil (fst (findNewRefs (K:=K1) albumOptions (fileWith [refA; refB])
                 (fileWith [refA]))) = false.
Proof.
  apply (findNewRefs_not_nil (K:=K1) albumOptions (fileWith [refA; refB])
           (fileWith [refA])).
  - vm_compute. repeat constructor; simpl; intuition discriminate.
  - vm_compute. lia.
Defined.

Lemma SendFile_opens_posts_closes_witness :
  let w := world allOK (inr 7) noRead noBound in
  exists st' evs,
    SendFile (K:=K1) (W:=w) localFile st_file = Ret None st'
    /\ since st_file st' = Open localFile (inr 7) :: evs ++ [Close 7]
    /\ opened evs = 0 /\ closed evs = 0
    /\ map request.Domain (requestsOf evs) = [URL r1]
    /\ Forall (fun o => request.Method o = http.MethodPost
                        /\ request.Path o = Path (opts st_file)
                        /\ request.Body_ o = request.FileBody 7)
         (requestsOf evs).
Proof.
  intros w.
  exact (SendFile_opens_posts_closes (K:=K1) (W:=w) localFile st_file eq_refl).
Defined.

Lemma DeleteDoc_nil_all_deleted_witness :
  let w := world allOK (inr 7) (readDoc remoteDoc) noBound in
  exists st',
    DeleteDoc (W:=w) st_doc = Ret None st'
    /\ map request.Domain (issued st_doc st') = [URL r1].
Proof.
  intros w. eexists.
  assert (Hret : DeleteDoc (W:=w) st_doc = Ret None _)
    by (vm_compute; reflexivity).
  split; [exact Hret|].
  exact (proj1 (DeleteDoc_nil_all_deleted (W:=w) st_doc _ Hret)).
Defined.

Lemma PatchDir_nil_all_patched_witness :
  let w := world allOK (inr 7) noRead (boundDir remoteDir) in
  exists st',
    PatchDir (K:=K1) (W:=w) localDir st_dir = Ret None st'
    /\ map request.Domain (issued st_dir st') = [URL r1; URL r2].
Proof.
  intros w. eexists.
  assert (Hret : PatchDir (K:=K1) (W:=w) localDir st_dir = Ret None _)
    by (vm_compute; reflexivity).
  split; [exact Hret|].
  exact (proj1 (PatchDir_nil_all_patched (K:=K1) (W:=w) localDir st_dir _
                  Hret)).
Defined.

Lemma docHasChanges_effect_witness :
  exists changed doc',
    docHasChanges localDoc remoteDoc st_doc
    = Ret (changed, localDoc, doc') st_doc
    /\ couchdb.M doc' = delete "_id" (couchdb.M remoteDoc).
Proof.
  destruct (docHasChanges_effect localDoc remoteDoc st_doc
              eq_refl eq_refl eq_refl)
    as (changed & doc' & Hret & Hm & _).
  exists changed, doc'. split; [exact Hret|exact Hm].
Defined.

Lemma UpdateOrPatchFile_opens_and_closes_once_witness :
  let w := world allOK (inr 7) noRead (boundFile remoteFile) in
  let st' := final (UpdateOrPatchFile (K:=K1) (W:=w) localFile st_file) in
  opened (since st_file st') <= 1
  /\ closed (since st_file st') = opened (since st_file st').
Proof.
  intros w.
  apply (UpdateOrPatchFile_opens_and_closes_once (K:=K1) (W:=w) localFile
           st_file).
  - split; [intros evs o e; discriminate|intros body; discriminate].
  - reflexivity.
Defined.

Lemma DeleteDirOrFile_body_deletes_witness :
  let w := world allOK (inr 7) noRead (boundDir remoteDir) in
  exists e st' o,
    DeleteDirOrFile_body (K:=K1) (W:=w) r1 None st_dir = Ret e st'
    /\ issued st_dir st' = [o]
    /\ request.Method o = http.MethodDelete
    /\ request.Domain o = URL r1
    /\ request.Queries o
       = <[consts.QueryParamType K1 := ["directory"]]>
         (<[consts.QueryParamRev K1 := ["1-a"]]> ∅).
Proof.
  intros w.
  destruct (DeleteDirOrFile_body_deletes (K:=K1) (W:=w) r1 None st_dir
              "1-a" _ eq_refl)
    as (e & st' & o & Hret & Hissued & Hm & Hd & _ & Hq).
  exists e, st', o. repeat (split; [assumption|]). exact Hq.
Defined.

Lemma DeleteDirOrFile_loop_contacts_all_witness :
  let w := world (r1Fails serverError) (inr 7) noRead (boundDir remoteDir) in
  exists e st' evs,
    DeleteDirOrFile_loop (K:=K1) (W:=w) [r1; r2] None st_dir = Ret e st'
    /\ events st' = events st_dir ++ evs
    /\ Forall (fun rec => exists o, In o (requestsOf evs)
                                    /\ request.Domain o = URL rec) [r1; r2].
Proof.
  intros w. eexists. eexists.
  assert (Hret : DeleteDirOrFile_loop (K:=K1) (W:=w) [r1; r2] None st_dir
                 = Ret _ _) by (vm_compute; reflexivity).
  destruct (DeleteDirOrFile_loop_contacts_all (K:=K1) (W:=w) [r1; r2] None
              st_dir _ _ Hret) as (evs & Hev & Hall).
  exists evs. split; [exact Hret|]. split; [exact Hev|exact Hall].
Defined.

